(** * Resume normalisation and rendering

    A shallow embedding of the two Python components of the repository:

    - [ResumeAgent._validate_and_clean] (agents/resume_agent.py), which
      coerces the JSON value returned by the content generator into the
      fixed resume schema;
    - [HTMLPDFGenerator] (services/html_pdf_generator.py): the Jinja2
      template [RESUME_TEMPLATE] and the operations [generate_pdf],
      [generate_pdf_bytes], [validate_resume_data] and
      [generate_html_preview] built on it.

    Python values are the values [json.loads] can produce.  Python
    exceptions are results of an error monad; the file system written by
    [generate_pdf] is explicit state, and what [open] and the rasterizer
    do is given by the environment. *)

From Stdlib Require Import ZArith List String Ascii Bool Arith Lia.
From Stdlib Require Import PrimFloat FloatOps SpecFloat.
From Stdlib Require Import DecimalString.
Import ListNotations.

#[local] Open Scope list_scope.
#[local] Open Scope string_scope.
#[local] Set Warnings "-register-all".

(* ================================================================== *)
(** * The Python fragment used by the sources *)
(* ================================================================== *)

Module Py.

(** The values of [json.loads]: [None], booleans, integers, binary64
    floats, strings, lists and dictionaries with string keys.  A
    dictionary is an association list in insertion order; a lookup takes
    the first binding of a key.  A string is a sequence of characters
    with codes below 256; the operations that depend on the Unicode
    character database ([upper], [lower], [isalnum]) are given on the
    ASCII letters and digits. *)
Inductive value : Type :=
| VNone
| VBool (b : bool)
| VInt (n : Z)
| VFloat (x : float)
| VStr (s : string)
| VList (l : list value)
| VDict (d : list (string * value)).

Definition dict : Type := list (string * value).

(** The exceptions the modelled code can raise: those of the built-in
    operations it uses, and [Exception] for one raised inside a library
    it calls, with the text [str] gives for it. *)
Inductive exn : Type :=
| AttributeError
| TypeError
| ValueError
| OverflowError
| Exception (message : string).

Inductive result (A : Type) : Type :=
| Ok (a : A)
| Raise (e : exn).

Arguments Ok {A} a.
Arguments Raise {A} e.

Definition bind {A B : Type} (m : result A) (k : A -> result B) : result B :=
  match m with
  | Ok a => k a
  | Raise e => Raise e
  end.

Definition raises {A : Type} (m : result A) : bool :=
  match m with
  | Ok _ => false
  | Raise _ => true
  end.

Declare Scope py_scope.
Delimit Scope py_scope with py.
Notation "x <- m ;; k" := (bind m (fun x => k))
  (at level 61, m at next level, right associativity) : py_scope.

#[local] Open Scope py_scope.

(** ** Dictionaries *)

Fixpoint lookup (k : string) (d : dict) : option value :=
  match d with
  | [] => None
  | (k', v) :: d' => if String.eqb k k' then Some v else lookup k d'
  end.

(** [d.get(k, default)] *)
Definition get (d : dict) (k : string) (default : value) : value :=
  match lookup k d with
  | Some v => v
  | None => default
  end.

(** [k in d] *)
Definition contains_key (d : dict) (k : string) : bool :=
  match lookup k d with
  | Some _ => true
  | None => false
  end.

(** Resolving the attribute [get] on a value: only dictionaries have it. *)
Definition get_method (v : value) : result dict :=
  match v with
  | VDict d => Ok d
  | _ => Raise AttributeError
  end.

(** [for x in v]: the elements a [for] loop visits, or [TypeError] when
    [v] is not iterable.  A string yields its characters, a dictionary
    its keys. *)
Definition iterate (v : value) : result (list value) :=
  match v with
  | VList l => Ok l
  | VStr s => Ok (map (fun c => VStr (String c "")) (list_ascii_of_string s))
  | VDict d => Ok (map (fun kv => VStr (fst kv)) d)
  | VNone | VBool _ | VInt _ | VFloat _ => Raise TypeError
  end.

(** ** Characters and strings *)

Definition code (c : ascii) : nat := nat_of_ascii c.

(** The white space [int] skips around a numeral: the C locale's space
    characters and, of the code points below 256, the two non-ASCII
    Unicode spaces. *)
Definition is_space (c : ascii) : bool :=
  let n := code c in
  (((9 <=? n) && (n <=? 13)) || (n =? 32) || (n =? 133) || (n =? 160))%nat.

Definition digit_of (c : ascii) : option Z :=
  let n := code c in
  if ((48 <=? n) && (n <=? 57))%nat then Some (Z.of_nat (n - 48)) else None.

Fixpoint lstrip (s : string) : string :=
  match s with
  | "" => ""
  | String c s' => if is_space c then lstrip s' else s
  end.

Definition reverse (s : string) : string :=
  string_of_list_ascii (rev (list_ascii_of_string s)).

Definition strip (s : string) : string :=
  reverse (lstrip (reverse (lstrip s))).

(** A run of decimal digits in which single underscores may separate
    digits; [after_digit] tells whether the previous character was one. *)
Fixpoint digits_value (after_digit : bool) (acc : Z) (s : string) : option Z :=
  match s with
  | "" => if after_digit then Some acc else None
  | String c s' =>
      match digit_of c with
      | Some d => digits_value true (10 * acc + d)%Z s'
      | None =>
          if Ascii.eqb c "_" && after_digit
          then digits_value false acc s'
          else None
      end
  end.

(** [int(s)] for a string, base ten.  The limit some interpreters put
    on the number of digits of a numeral is not part of the model. *)
Definition int_of_string (s : string) : result Z :=
  let body := strip s in
  let parsed :=
    match body with
    | String "-" ds => option_map Z.opp (digits_value false 0%Z ds)
    | String "+" ds => digits_value false 0%Z ds
    | _ => digits_value false 0%Z body
    end in
  match parsed with
  | Some n => Ok n
  | None => Raise ValueError
  end.

(** [int(x)] for a float: truncation towards zero. *)
Definition int_of_float (x : float) : result Z :=
  match Prim2SF x with
  | S754_zero _ => Ok 0%Z
  | S754_infinity _ => Raise OverflowError
  | S754_nan => Raise ValueError
  | S754_finite s m e =>
      let a := Z.shiftl (Zpos m) e in
      Ok (if s then Z.opp a else a)
  end.

(** [int(v)] *)
Definition py_int (v : value) : result Z :=
  match v with
  | VInt n => Ok n
  | VBool b => Ok (if b then 1 else 0)%Z
  | VFloat x => int_of_float x
  | VStr s => int_of_string s
  | VNone | VList _ | VDict _ => Raise TypeError
  end.

(** ** [str] and [repr] *)

Definition decimal (n : Z) : string := NilZero.string_of_int (Z.to_int n).

Definition backslash : ascii := "092"%char.
Definition dquote : ascii := "034"%char.
Definition squote : ascii := "039"%char.

Definition hex_digit (n : nat) : ascii :=
  nth n (list_ascii_of_string "0123456789abcdef") "0"%char.

Definition hex_escape (c : ascii) : string :=
  String backslash
    (String "x" (String (hex_digit (code c / 16))
                   (String (hex_digit (code c mod 16)) ""))).

(** [str.isprintable] on one character (code points below 256). *)
Definition is_printable (c : ascii) : bool :=
  let n := code c in
  (((32 <=? n) && (n <=? 126)) || ((161 <=? n) && negb (n =? 173)))%nat.

Definition escape_char (quote c : ascii) : string :=
  if Ascii.eqb c quote || Ascii.eqb c backslash then String backslash (String c "")
  else if (code c =? 9)%nat then String backslash "t"
  else if (code c =? 10)%nat then String backslash "n"
  else if (code c =? 13)%nat then String backslash "r"
  else if is_printable c then String c ""
  else hex_escape c.

Fixpoint has_char (c : ascii) (s : string) : bool :=
  match s with
  | "" => false
  | String c' s' => Ascii.eqb c c' || has_char c s'
  end.

Fixpoint escape (quote : ascii) (s : string) : string :=
  match s with
  | "" => ""
  | String c s' => escape_char quote c ++ escape quote s'
  end.

(** [repr(s)] for a string: single quotes, unless the string has a single
    quote and no double quote. *)
Definition str_repr (s : string) : string :=
  let quote := if has_char squote s && negb (has_char dquote s)
               then dquote else squote in
  String quote (escape quote s ++ String quote "").

Fixpoint zeros (n : nat) : string :=
  match n with
  | O => ""
  | S k => String "0" (zeros k)
  end.

(** The shortest decimal [d * 10 ^ p] that rounds to the binary64 number
    [m * 2 ^ e], and of those the one nearest to it: the digits [repr]
    prints for a float.  Quantities are counted in units of
    [2 ^ (e - 2)], so that the midpoints to both neighbours are
    integers. *)
Section Shortest.

#[local] Open Scope Z_scope.

Variables (m : positive) (e : Z).

Definition V : Z := 4 * Zpos m.
Definition lo : Z :=
  V - (if (Zpos m =? 2 ^ 52) && (-1074 <? e) then 1 else 2).
Definition hi : Z := V + 2.

Definition unit_of (p : Z) : Z := 10 ^ Z.max p 0 * 2 ^ Z.max (2 - e) 0.
Definition scale_of (p : Z) : Z := 2 ^ Z.max (e - 2) 0 * 10 ^ Z.max (- p) 0.

Definition rounds_back (p d : Z) : bool :=
  let a := d * unit_of p in
  let s := scale_of p in
  if Z.even (Zpos m)
  then (lo * s <=? a) && (a <=? hi * s)
  else (lo * s <? a) && (a <? hi * s).

Definition candidate (p : Z) : option Z :=
  let u := unit_of p in
  let v := V * scale_of p in
  let d0 := v / u in
  let d1 := d0 + 1 in
  let ok0 := (0 <? d0) && rounds_back p d0 in
  let ok1 := rounds_back p d1 in
  let r := v - d0 * u in
  if ok0 && ok1 then
    if 2 * r <? u then Some d0
    else if u <? 2 * r then Some d1
    else Some (if Z.even d0 then d0 else d1)
  else if ok0 then Some d0
  else if ok1 then Some d1
  else None.

Fixpoint search (fuel : nat) (p : Z) : Z * Z :=
  match fuel with
  | O => (0, 0)
  | S k =>
      match candidate p with
      | Some d => (d, p)
      | None => search k (p - 1)
      end
  end.

Definition shortest_decimal : Z * Z :=
  search 30 ((Z.log2 (Zpos m) + e + 1) * 30103 / 100000 + 2).

End Shortest.

(** The layout of [repr]: exponent notation when the decimal point lies
    more than 16 places right or 4 places left of the first digit. *)
Definition format_short (d p : Z) : string :=
  let ds := decimal d in
  let n := Z.of_nat (String.length ds) in
  let decpt := (n + p)%Z in
  if ((decpt <=? -4) || (16 <? decpt))%Z then
    let x := (decpt - 1)%Z in
    let xs := decimal (Z.abs x) in
    String.substring 0 1 ds
    ++ (if (1 <? n)%Z
        then "." ++ String.substring 1 (String.length ds - 1) ds else "")
    ++ "e" ++ (if (x <? 0)%Z then "-" else "+")
    ++ (if (String.length xs <? 2)%nat then "0" else "") ++ xs
  else if (decpt <=? 0)%Z then "0." ++ zeros (Z.to_nat (- decpt)) ++ ds
  else if (n <=? decpt)%Z then ds ++ zeros (Z.to_nat (decpt - n)) ++ ".0"
  else String.substring 0 (Z.to_nat decpt) ds ++ "."
       ++ String.substring (Z.to_nat decpt)
            (String.length ds - Z.to_nat decpt) ds.

(** [repr(x)] for a float. *)
Definition float_repr (x : float) : string :=
  match Prim2SF x with
  | S754_zero s => if s then "-0.0" else "0.0"
  | S754_infinity s => if s then "-inf" else "inf"
  | S754_nan => "nan"
  | S754_finite s m e =>
      let '(d, p) := shortest_decimal m e in
      (if s then "-" else "") ++ format_short d p
  end.

Definition join (sep : string) (l : list string) : string :=
  String.concat sep l.

(** [repr(v)] *)
Fixpoint py_repr (v : value) : string :=
  match v with
  | VNone => "None"
  | VBool b => if b then "True" else "False"
  | VInt n => decimal n
  | VFloat x => float_repr x
  | VStr s => str_repr s
  | VList l => "[" ++ join ", " (map py_repr l) ++ "]"
  | VDict d =>
      "{" ++ join ", " (map (fun '(k, x) => str_repr k ++ ": " ++ py_repr x) d)
      ++ "}"
  end.

(** [str(v)]: a string is itself, any other value prints as its [repr]. *)
Definition py_str (v : value) : string :=
  match v with
  | VStr s => s
  | _ => py_repr v
  end.

(** Truth value of [v], as [if] tests it. *)
Definition truthy (v : value) : bool :=
  match v with
  | VNone => false
  | VBool b => b
  | VInt n => negb (n =? 0)%Z
  | VFloat x => negb (PrimFloat.eqb x 0%float)
  | VStr s => negb (String.eqb s "")
  | VList l => match l with [] => false | _ => true end
  | VDict d => match d with [] => false | _ => true end
  end.


(** ** [json.dumps]

    [json.dumps(v, indent=2)]: strings are escaped to ASCII, floats print
    as [repr] prints them, but for the three that are not numbers of
    JSON, and the items of a list or a dictionary that is not empty
    stand on lines of their own, two spaces deeper than the brackets. *)

Definition json_escape_char (c : ascii) : string :=
  if Ascii.eqb c dquote || Ascii.eqb c backslash
  then String backslash (String c "")
  else if (code c =? 10)%nat then String backslash "n"
  else if (code c =? 13)%nat then String backslash "r"
  else if (code c =? 9)%nat then String backslash "t"
  else if (code c =? 8)%nat then String backslash "b"
  else if (code c =? 12)%nat then String backslash "f"
  else if ((32 <=? code c) && (code c <=? 126))%nat then String c ""
  else String backslash
         (String "u" (String "0" (String "0"
            (String (hex_digit (code c / 16))
               (String (hex_digit (code c mod 16)) ""))))).

Fixpoint json_escape (s : string) : string :=
  match s with
  | "" => ""
  | String c s' => json_escape_char c ++ json_escape s'
  end.

Definition json_string (s : string) : string :=
  String dquote (json_escape s ++ String dquote "").

Definition json_float (x : float) : string :=
  match Prim2SF x with
  | S754_nan => "NaN"
  | S754_infinity s => if s then "-Infinity" else "Infinity"
  | _ => float_repr x
  end.

Fixpoint spaces (n : nat) : string :=
  match n with
  | O => ""
  | S k => String " " (spaces k)
  end.

Definition line_feed : string := String "010"%char "".

(** The items of a list or dictionary at nesting depth [level]. *)
Definition json_block (opening closing : string) (level : nat)
    (items : list string) : string :=
  match items with
  | [] => opening ++ closing
  | _ :: _ =>
      opening ++ line_feed ++ spaces (2 * S level)
      ++ join ("," ++ line_feed ++ spaces (2 * S level)) items
      ++ line_feed ++ spaces (2 * level) ++ closing
  end.

Fixpoint json_dumps_at (level : nat) (v : value) : string :=
  match v with
  | VNone => "null"
  | VBool b => if b then "true" else "false"
  | VInt n => decimal n
  | VFloat x => json_float x
  | VStr s => json_string s
  | VList l => json_block "[" "]" level (map (json_dumps_at (S level)) l)
  | VDict d =>
      json_block "{" "}" level
        (map (fun '(k, x) => json_string k ++ ": " ++ json_dumps_at (S level) x)
           d)
  end.

(** [json.dumps(v, indent=2)] *)
Definition json_dumps (v : value) : string := json_dumps_at 0 v.

End Py.

(* ================================================================== *)
(** * agents/resume_agent.py *)
(* ================================================================== *)

Module ResumeAgent.

Import Py.
#[local] Open Scope py_scope.

(** [data.get(section, {}).get(key, default)]: the attribute [get] of the
    section is resolved before [default] is passed; [default] is a lookup
    in a dictionary and cannot raise. *)
Definition get_in (data : dict) (section key : string) (default : value)
  : result value :=
  d <- get_method (get data section (VDict [])) ;;
  Ok (get d key default).

(** One pass of a [for] loop whose body appends at most one entry to the
    list under construction: [body] returns the entries appended for one
    element, and the first exception ends the loop. *)
Fixpoint for_each (body : value -> result (list value)) (l : list value)
  : result (list value) :=
  match l with
  | [] => Ok []
  | x :: rest =>
      appended <- body x ;;
      others <- for_each body rest ;;
      Ok (appended ++ others)%list
  end.

(** The body of the skills loop. *)
Definition clean_skill (skill : value) : result (list value) :=
  match skill with
  | VDict d =>
      let name := get d "name" (VStr "") in
      level <- py_int (get d "level" (VInt 50)) ;;
      Ok [VDict [("name", name); ("level", VInt level)]]
  | VStr s => Ok [VDict [("name", VStr s); ("level", VInt 70)]]
  | _ => Ok []
  end.

(** The body of the projects loop. *)
Definition clean_project (proj : value) : result (list value) :=
  match proj with
  | VDict d =>
      Ok [VDict
            [("title", get d "title" (get d "name" (VStr "")));
             ("tech_stack", get d "tech_stack" (get d "technologies" (VList [])));
             ("points", get d "points" (get d "highlights" (VList [])))]]
  | _ => Ok []
  end.

(** The body of the experience loop. *)
Definition clean_experience (exp : value) : result (list value) :=
  match exp with
  | VDict d =>
      Ok [VDict
            [("role", get d "role" (get d "title" (VStr "")));
             ("company", get d "company" (VStr ""));
             ("location", get d "location" (VStr ""));
             ("duration", get d "duration" (VStr ""));
             ("points", get d "points" (get d "achievements" (VList [])))]]
  | _ => Ok []
  end.

(** The body of the education loop. *)
Definition clean_education (edu : value) : result (list value) :=
  match edu with
  | VDict d =>
      Ok [VDict
            [("degree", get d "degree" (VStr ""));
             ("institution", get d "institution" (VStr ""));
             ("year", VStr (py_str (get d "year" (VStr ""))));
             ("details", get d "details" (VStr ""))]]
  | _ => Ok []
  end.

(** [for x in data.get(key, []): ...] *)
Definition clean_section (body : value -> result (list value))
    (data : dict) (key : string) : result (list value) :=
  entries <- iterate (get data key (VList [])) ;;
  for_each body entries.

(** [ResumeAgent._validate_and_clean(data, user_profile)].  The dictionary
    display bound to [cleaned] is evaluated first, key by key, then the
    four loops run in the order skills, projects, experience,
    education. *)
Definition _validate_and_clean (data user_profile : dict) : result dict :=
  name <- get_in data "header" "name" (get user_profile "name" (VStr "")) ;;
  title <- get_in data "header" "title" (VStr "") ;;
  phone <- get_in data "contact" "phone" (get user_profile "phone" (VStr "")) ;;
  email <- get_in data "contact" "email" (get user_profile "email" (VStr "")) ;;
  address <- get_in data "contact" "address"
               (get user_profile "location" (VStr "")) ;;
  website <- get_in data "contact" "website"
               (get user_profile "website" (VStr "")) ;;
  linkedin <- get_in data "contact" "linkedin"
                (get user_profile "linkedin" (VStr "")) ;;
  let summary := get data "summary" (VStr "") in
  skills <- clean_section clean_skill data "skills" ;;
  projects <- clean_section clean_project data "projects" ;;
  experience <- clean_section clean_experience data "experience" ;;
  education <- clean_section clean_education data "education" ;;
  Ok [("header", VDict [("name", name); ("title", title)]);
      ("contact",
       VDict [("phone", phone); ("email", email); ("address", address);
              ("website", website); ("linkedin", linkedin)]);
      ("summary", summary);
      ("skills", VList skills);
      ("projects", VList projects);
      ("experience", VList experience);
      ("education", VList education)].

(** ** Texts of the prompts

    The text of a prompt is given line by line.  The prompts have no
    backquote, so a backquote stands here for the double quote of the
    source. *)

Fixpoint unquote (s : string) : string :=
  match s with
  | "" => ""
  | String c s' =>
      String (if Ascii.eqb c "`"%char then dquote else c) (unquote s')
  end.

Definition text (lines : list string) : string :=
  unquote (String.concat line_feed lines).

(** [s if s else default] for a string. *)
Definition text_or (s default : string) : string :=
  if String.eqb s "" then default else s.

(** The same for a string that may be [None]. *)
Definition given_or (s : option string) (default : string) : string :=
  match s with
  | Some s => text_or s default
  | None => default
  end.

(** [json.dumps(l, indent=2) if l else '[]'] *)
Definition dumps_or_empty (l : list value) : string :=
  match l with
  | [] => "[]"
  | _ :: _ => json_dumps (VList l)
  end.

(** [ResumeAgent.SYSTEM_PROMPT] *)
Definition SYSTEM_PROMPT : string :=
  text
    ["You are a professional resume content generation agent.";
     "";
     "Your task is to generate resume CONTENT ONLY.";
     "You MUST follow all rules strictly.";
     "";
     "======================";
     "CRITICAL RULES";
     "======================";
     "1. Output ONLY valid JSON";
     "2. Follow the EXACT JSON schema provided";
     "3. Do NOT add, remove, or rename any fields";
     "4. Do NOT include formatting, styling, layout, colors, icons, or alignment instructions";
     "5. Do NOT invent skills or projects";
     "6. Use ONLY skills and projects provided in the user profile";
     "7. Select ONLY skills and projects that are RELEVANT to the given job role or job description";
     "8. Exclude unrelated or weakly relevant skills and projects";
     "9. Bullet points must be concise, professional, and achievement-oriented";
     "10. Use strong action verbs and measurable impact where possible";
     "11. Keep the resume professional, ATS-friendly, and recruiter-ready";
     "";
     "======================";
     "RESUME JSON SCHEMA (STRICT - DO NOT DEVIATE)";
     "======================";
     "{";
     "  `header`: {`name`: ``, `title`: ``},";
     "  `contact`: {`phone`: ``, `email`: ``, `address`: ``, `website`: ``, `linkedin`: ``},";
     "  `summary`: ``,";
     "  `skills`: [{`name`: ``, `level`: 0}],";
     "  `projects`: [{`title`: ``, `tech_stack`: [], `points`: []}],";
     "  `experience`: [{`role`: ``, `company`: ``, `location`: ``, `duration`: ``, `points`: []}],";
     "  `education`: [{`degree`: ``, `institution`: ``, `year`: ``, `details`: ``}]";
     "}";
     "";
     "======================";
     "OUTPUT REQUIREMENTS";
     "======================";
     "- Skills level must be 0-100 integer";
     "- Select ONLY skills relevant to the job role";
     "- Select ONLY projects that demonstrate required competencies";
     "- Do NOT repeat content across sections";
     "- If experience is limited, emphasize projects strongly"].

(** The prompt of [generate_structured_resume]. A value in a replacement
    field prints as [str] prints it. *)
Definition generate_prompt (user_profile : dict) (target_role : string)
    (job_description : option string)
    (skills_list projects_list experience_list education_list : list value)
  : string :=
  text
       ["Generate a professional resume following the STRICT JSON schema.";
        "";
        "======================";
        "INPUT DATA";
        "======================";
        "";
        "## Target Role";
        ""]
  ++ target_role
  ++ text
       ["";
        "";
        "## Job Description";
        ""]
  ++ given_or job_description "Not provided - tailor to target role"
  ++ text
       ["";
        "";
        "## User Profile";
        "- Full Name: "]
  ++ py_str (get user_profile "name" (get user_profile "full_name" (VStr "Unknown")))
  ++ text
       ["";
        "- Email: "]
  ++ py_str (get user_profile "email" (VStr ""))
  ++ text
       ["";
        "- Phone: "]
  ++ py_str (get user_profile "phone" (VStr ""))
  ++ text
       ["";
        "- Location/Address: "]
  ++ py_str (get user_profile "location" (get user_profile "address" (VStr "")))
  ++ text
       ["";
        "- Website: "]
  ++ py_str (get user_profile "website" (get user_profile "portfolio" (VStr "")))
  ++ text
       ["";
        "- LinkedIn: "]
  ++ py_str (get user_profile "linkedin" (VStr ""))
  ++ text
       ["";
        "- Career Goal: "]
  ++ py_str (get user_profile "career_goal" (VStr target_role))
  ++ text
       ["";
        "";
        "## Available Skills (SELECT ONLY RELEVANT ONES)";
        ""]
  ++ json_dumps (VList skills_list)
  ++ text
       ["";
        "";
        "## Available Projects (SELECT ONLY RELEVANT ONES)";
        ""]
  ++ dumps_or_empty projects_list
  ++ text
       ["";
        "";
        "## Experience History";
        ""]
  ++ dumps_or_empty experience_list
  ++ text
       ["";
        "";
        "## Education";
        ""]
  ++ dumps_or_empty education_list
  ++ text
       ["";
        "";
        "======================";
        "INSTRUCTIONS";
        "======================";
        "1. Set header.name to the user's full name";
        "2. Set header.title to the target role: `"]
  ++ target_role
  ++ text
       ["`";
        "3. Write a compelling 2-3 sentence professional summary";
        "4. Select ONLY skills relevant to "]
  ++ target_role
  ++ text
       [" (include level as 0-100 integer)";
        "5. Select ONLY projects that demonstrate "]
  ++ target_role
  ++ text
       [" competencies";
        "6. Rewrite experience bullet points with strong action verbs";
        "7. Output ONLY the JSON following the STRICT schema";
        "";
        "Generate the resume JSON now:"].

(** The prompt of [tailor_to_job_description]. *)
Definition tailor_prompt (existing_resume : dict)
    (job_description target_role target_company : string)
  : string :=
  text
       ["Tailor this existing resume to the job description below.";
        "";
        "======================";
        "CURRENT RESUME";
        "======================";
        ""]
  ++ json_dumps (VDict existing_resume)
  ++ text
       ["";
        "";
        "======================";
        "TARGET JOB";
        "======================";
        "Role: "]
  ++ target_role
  ++ text
       ["";
        "Company: "]
  ++ text_or target_company "Not specified"
  ++ text
       ["";
        "Description: "]
  ++ job_description
  ++ text
       ["";
        "";
        "======================";
        "INSTRUCTIONS";
        "======================";
        "1. Keep the same contact information";
        "2. Update header.title to match the target role";
        "3. Rewrite summary to emphasize relevant experience for this specific role";
        "4. Reorder and emphasize skills that match the JD (keep level as 0-100)";
        "5. Rewrite experience bullet points to highlight relevant achievements";
        "6. Prioritize projects that demonstrate required competencies";
        "7. Remove or de-emphasize irrelevant content";
        "8. Output ONLY the JSON, following the STRICT schema";
        "";
        "Generate the tailored resume JSON:"].

(** The prompt of [analyze_resume_match]. *)
Definition analyze_prompt (resume_data : dict) (job_description : string)
  : string :=
  text
       ["Analyze how well this resume matches the job description.";
        "";
        "## Resume";
        ""]
  ++ json_dumps (VDict resume_data)
  ++ text
       ["";
        "";
        "## Job Description";
        ""]
  ++ job_description
  ++ text
       ["";
        "";
        "Provide analysis in this JSON format:";
        "{";
        "    `match_score`: <0-100>,";
        "    `matching_skills`: [`skill1`, `skill2`],";
        "    `missing_skills`: [`skill1`, `skill2`],";
        "    `matching_experience`: [`relevant experience 1`, `relevant experience 2`],";
        "    `gaps`: [`gap 1`, `gap 2`],";
        "    `recommendations`: [";
        "        `specific recommendation 1`,";
        "        `specific recommendation 2`";
        "    ],";
        "    `keywords_present`: [`keyword1`, `keyword2`],";
        "    `keywords_missing`: [`keyword1`, `keyword2`],";
        "    `overall_assessment`: `brief assessment`";
        "}"].

(** The prompt of [suggest_resume_improvements].  The heading of the
    feedback is followed by a backslash and the letter n, as the nested
    literal has them, which Python reads from version 3.12 on. *)
Definition suggest_prompt (resume_data : dict) (target_role feedback_text : string)
  : string :=
  text
       ["Review this resume for a "]
  ++ text_or target_role "professional"
  ++ text
       [" position and suggest improvements.";
        "";
        "## Resume";
        ""]
  ++ json_dumps (VDict resume_data)
  ++ text
       ["";
        "";
        ""]
  ++ (if String.eqb feedback_text "" then ""
      else "## Past Rejection Feedback" ++ String backslash "n" ++ feedback_text)
  ++ text
       ["";
        "";
        "Provide suggestions in this JSON format:";
        "{";
        "    `summary_improvements`: [`suggestion 1`, `suggestion 2`],";
        "    `skills_to_add`: [`skill 1`, `skill 2`],";
        "    `skills_to_remove`: [`skill that's not relevant`],";
        "    `experience_improvements`: [";
        "        {";
        "            `current`: `current bullet point`,";
        "            `improved`: `improved bullet point with metrics`";
        "        }";
        "    ],";
        "    `project_improvements`: [`suggestion 1`],";
        "    `formatting_tips`: [`tip 1`, `tip 2`],";
        "    `keywords_to_add`: [`keyword 1`, `keyword 2`],";
        "    `overall_score`: <0-100>,";
        "    `priority_actions`: [`action 1`, `action 2`, `action 3`]";
        "}"].

(** ** Formatting the user's data for the prompt *)

(** [v or []] *)
Definition or_empty (v : value) : value :=
  if truthy v then v else VList [].

(** The bodies of the four loops of [generate_structured_resume]; the
    attribute [get] of the element is resolved first. *)
Definition format_skill (skill : value) : result (list value) :=
  d <- get_method skill ;;
  Ok [VDict [("name", get d "skill_name" (get d "name" (VStr "")));
             ("level", get d "level" (VInt 50));
             ("category", get d "category" (VStr "general"))]].

Definition format_project (proj : value) : result (list value) :=
  d <- get_method proj ;;
  Ok [VDict [("title", get d "title" (get d "name" (VStr "")));
             ("description", get d "description" (VStr ""));
             ("technologies",
              get d "technologies" (get d "tech_stack" (VList [])));
             ("highlights", get d "highlights" (get d "points" (VList [])))]].

Definition format_experience (exp : value) : result (list value) :=
  d <- get_method exp ;;
  Ok [VDict [("role", get d "role" (get d "title" (VStr "")));
             ("company", get d "company" (VStr ""));
             ("location", get d "location" (VStr ""));
             ("duration", get d "duration" (VStr ""));
             ("points", get d "points" (get d "achievements" (VList [])))]].

Definition format_education (edu : value) : result (list value) :=
  d <- get_method edu ;;
  Ok [VDict [("degree", get d "degree" (VStr ""));
             ("institution", get d "institution" (VStr ""));
             ("year",
              VStr (py_str (get d "year" (get d "graduation_year" (VStr "")))));
             ("details", get d "details" (get d "gpa" (VStr "")))]].

(** [for x in (v or []): ...], and [if v: for x in v: ...], which visit
    the same elements. *)
Definition format_section (body : value -> result (list value)) (v : value)
  : result (list value) :=
  entries <- iterate (or_empty v) ;;
  for_each body entries.

(** A list built by a comprehension whose element expression can
    raise. *)
Fixpoint comprehension {A B : Type} (f : A -> result B) (l : list A)
  : result (list B) :=
  match l with
  | [] => Ok []
  | x :: rest =>
      y <- f x ;;
      ys <- comprehension f rest ;;
      Ok (y :: ys)
  end.

(** One line of the feedback text of [suggest_resume_improvements]. *)
Definition feedback_line (fb : value) : result string :=
  d <- get_method fb ;;
  Ok ("- " ++ py_str (get d "company" (VStr "Unknown")) ++ ": "
      ++ py_str (get d "message" (get d "feedback" (VStr "")))).

(** ** The operations that call the content generator

    [llm.call_json(prompt, system_prompt, temperature)] belongs to the
    module [llm_client]: it is given a prompt, the system prompt and a
    temperature, and returns a value, or raises. *)

Section Generator.

Variable call_json : string -> string -> float -> result value.

(** [ResumeAgent.generate_structured_resume(user_profile, skills,
    experience, education, target_role, job_description, projects)] *)
Definition generate_structured_resume (user_profile : dict)
    (skills experience education : value) (target_role : string)
    (job_description : option string) (projects : value) : result dict :=
  skills_list <- format_section format_skill skills ;;
  projects_list <- format_section format_project projects ;;
  experience_list <- format_section format_experience experience ;;
  education_list <- format_section format_education education ;;
  let prompt :=
    generate_prompt user_profile target_role job_description
      skills_list projects_list experience_list education_list in
  result <- call_json prompt SYSTEM_PROMPT 0x1.3333333333333p-2%float ;;
  if truthy result then
    data <- get_method result ;;
    cleaned_result <- _validate_and_clean data user_profile ;;
    Ok [("agent", VStr "ResumeAgent");
        ("status", VStr "success");
        ("resume_data", VDict cleaned_result);
        ("target_role", VStr target_role);
        ("generated_at", VNone)]
  else
    Ok [("agent", VStr "ResumeAgent");
        ("status", VStr "error");
        ("message", VStr "Failed to generate resume content");
        ("resume_data", VNone)].

(** [ResumeAgent.tailor_to_job_description(existing_resume,
    job_description, target_role, target_company)] *)
Definition tailor_to_job_description (existing_resume : dict)
    (job_description target_role target_company : string) : result dict :=
  let prompt :=
    tailor_prompt existing_resume job_description target_role
      target_company in
  result <- call_json prompt SYSTEM_PROMPT 0x1.3333333333333p-2%float ;;
  if truthy result then
    data <- get_method result ;;
    cleaned <- _validate_and_clean data [] ;;
    Ok [("agent", VStr "ResumeAgent");
        ("status", VStr "success");
        ("resume_data", VDict cleaned);
        ("target_role", VStr target_role);
        ("target_company", VStr target_company);
        ("tailored", VBool true)]
  else
    Ok [("agent", VStr "ResumeAgent");
        ("status", VStr "error");
        ("message", VStr "Failed to tailor resume");
        ("resume_data", VNone)].

(** [ResumeAgent.analyze_resume_match(resume_data, job_description)] *)
Definition analyze_resume_match (resume_data : dict)
    (job_description : string) : result dict :=
  let prompt := analyze_prompt resume_data job_description in
  result <- call_json prompt SYSTEM_PROMPT 0x1.999999999999ap-3%float ;;
  if truthy result then
    Ok [("agent", VStr "ResumeAgent");
        ("status", VStr "success");
        ("analysis", result)]
  else
    Ok [("agent", VStr "ResumeAgent");
        ("status", VStr "error");
        ("message", VStr "Failed to analyze resume match")].

(** [ResumeAgent.suggest_resume_improvements(resume_data, target_role,
    feedback_history)]; a [feedback_history] that is [None], the
    default, or empty gives no feedback text. *)
Definition suggest_resume_improvements (resume_data : dict)
    (target_role : string) (feedback_history : option (list value))
  : result dict :=
  feedback_text <-
    match feedback_history with
    | Some (fb :: rest) =>
        feedback_lines <- comprehension feedback_line (firstn 5 (fb :: rest)) ;;
        Ok (join line_feed feedback_lines)
    | Some [] | None => Ok ""
    end ;;
  let prompt := suggest_prompt resume_data target_role feedback_text in
  result <- call_json prompt SYSTEM_PROMPT 0x1.3333333333333p-2%float ;;
  if truthy result then
    Ok [("agent", VStr "ResumeAgent");
        ("status", VStr "success");
        ("suggestions", result)]
  else
    Ok [("agent", VStr "ResumeAgent");
        ("status", VStr "error");
        ("message", VStr "Failed to generate improvement suggestions")].

End Generator.

End ResumeAgent.

(* ================================================================== *)
(** * services/html_pdf_generator.py *)
(* ================================================================== *)

Module HTMLPDFGenerator.

Import Py.

(** ** The resume document

    The document of the strict schema, as the renderer receives it from
    [_validate_and_clean] when every field has the type the schema
    names. *)

Record Header : Type :=
  { header_name : string; header_title : string }.

Record Contact : Type :=
  { phone : string; email : string; address : string;
    website : string; linkedin : string }.

Record Skill : Type :=
  { skill_name : string; level : Z }.

Record Project : Type :=
  { project_title : string; tech_stack : list string;
    project_points : list string }.

Record Experience : Type :=
  { role : string; company : string; location : string;
    duration : string; points : list string }.

Record Education : Type :=
  { degree : string; institution : string; year : string;
    details : string }.

Record Resume : Type :=
  { header : Header; contact : Contact; summary : string;
    skills : list Skill; projects : list Project;
    experience : list Experience; education : list Education }.

(** A skill level of the schema is an integer from 0 to 100. *)
Definition conformant (doc : Resume) : Prop :=
  Forall (fun s => (0 <= level s <= 100)%Z) (skills doc).

(** ** Text of [RESUME_TEMPLATE]

    The template text between two tags is given line by line.  The
    template has no single quote outside its tags, so a single quote
    stands here for the double quote of the source. *)

Definition newline : string := String "010"%char "".

Fixpoint requote (s : string) : string :=
  match s with
  | "" => ""
  | String c s' =>
      String (if Ascii.eqb c squote then dquote else c) (requote s')
  end.

Definition markup (lines : list string) : string :=
  requote (String.concat newline lines).

(** Up to the page title. *)
Definition document_open : string :=
  markup
    ["";
     "<!DOCTYPE html>";
     "<html lang='en'>";
     "<head>";
     "    <meta charset='UTF-8'>";
     "    <title>"].

(** The rest of the head, with the style sheet, and the banner up to the name. *)
Definition head_and_banner_open : string :=
  markup
    [" - Resume</title>";
     "    <style>";
     "        @page {";
     "            size: A4;";
     "            margin: 0;";
     "        }";
     "        ";
     "        * {";
     "            margin: 0;";
     "            padding: 0;";
     "            box-sizing: border-box;";
     "        }";
     "        ";
     "        body {";
     "            font-family: Helvetica, Arial, sans-serif;";
     "            font-size: 10pt;";
     "            line-height: 1.4;";
     "            color: #333333;";
     "            background: white;";
     "        }";
     "        ";
     "        /* Header Bar - Teal Blue */";
     "        .header {";
     "            background-color: #2e6677;";
     "            color: white;";
     "            text-align: center;";
     "            padding: 30px 20px;";
     "            width: 100%;";
     "        }";
     "        ";
     "        .header h1 {";
     "            font-size: 26pt;";
     "            font-weight: normal;";
     "            letter-spacing: 4px;";
     "            margin-bottom: 8px;";
     "            text-transform: uppercase;";
     "            color: white;";
     "        }";
     "        ";
     "        .header h2 {";
     "            font-size: 11pt;";
     "            font-weight: normal;";
     "            letter-spacing: 3px;";
     "            text-transform: uppercase;";
     "            color: #e0e0e0;";
     "        }";
     "        ";
     "        /* Main Container - Two Columns */";
     "        .container {";
     "            width: 100%;";
     "        }";
     "        ";
     "        .columns {";
     "            width: 100%;";
     "        }";
     "        ";
     "        /* Left Column (35%) */";
     "        .left-column {";
     "            width: 35%;";
     "            background-color: #f5f6f7;";
     "            padding: 25px 20px;";
     "            vertical-align: top;";
     "        }";
     "        ";
     "        /* Right Column (65%) */";
     "        .right-column {";
     "            width: 65%;";
     "            padding: 25px 25px;";
     "            background: white;";
     "            vertical-align: top;";
     "        }";
     "        ";
     "        /* Section Headers */";
     "        .section-title {";
     "            font-size: 10pt;";
     "            font-weight: bold;";
     "            color: #2e6677;";
     "            letter-spacing: 2px;";
     "            text-transform: uppercase;";
     "            margin-bottom: 12px;";
     "            padding-bottom: 5px;";
     "            border-bottom: 1.5px solid #2e6677;";
     "        }";
     "        ";
     "        .section {";
     "            margin-bottom: 20px;";
     "        }";
     "        ";
     "        /* Contact Section */";
     "        .contact-item {";
     "            margin-bottom: 8px;";
     "            font-size: 9pt;";
     "        }";
     "        ";
     "        .contact-label {";
     "            color: #2e6677;";
     "            font-weight: bold;";
     "            display: inline-block;";
     "            width: 55px;";
     "        }";
     "        ";
     "        .contact-value {";
     "            color: #555555;";
     "        }";
     "        ";
     "        /* Summary */";
     "        .summary-text {";
     "            font-size: 9pt;";
     "            color: #555555;";
     "            font-style: italic;";
     "            line-height: 1.5;";
     "            text-align: justify;";
     "        }";
     "        ";
     "        /* Education */";
     "        .education-item {";
     "            margin-bottom: 15px;";
     "        }";
     "        ";
     "        .education-year {";
     "            font-size: 9pt;";
     "            color: #2e6677;";
     "            font-style: italic;";
     "            margin-bottom: 3px;";
     "        }";
     "        ";
     "        .education-degree {";
     "            font-size: 10pt;";
     "            font-weight: bold;";
     "            color: #222222;";
     "        }";
     "        ";
     "        .education-honors {";
     "            font-size: 9pt;";
     "            color: #555555;";
     "            font-style: italic;";
     "        }";
     "        ";
     "        .education-institution {";
     "            font-size: 9pt;";
     "            color: #666666;";
     "        }";
     "        ";
     "        /* Skills with Progress Bars */";
     "        .skill-item {";
     "            margin-bottom: 12px;";
     "        }";
     "        ";
     "        .skill-header {";
     "            margin-bottom: 4px;";
     "        }";
     "        ";
     "        .skill-name {";
     "            font-size: 9pt;";
     "            color: #333333;";
     "        }";
     "        ";
     "        .skill-level {";
     "            font-size: 9pt;";
     "            color: #2e6677;";
     "            font-weight: bold;";
     "            float: right;";
     "        }";
     "        ";
     "        .skill-bar {";
     "            background: #dddddd;";
     "            height: 5px;";
     "            width: 100%;";
     "            clear: both;";
     "        }";
     "        ";
     "        .skill-fill {";
     "            background: #2e6677;";
     "            height: 5px;";
     "        }";
     "        ";
     "        /* Experience Section */";
     "        .experience-item {";
     "            margin-bottom: 18px;";
     "        }";
     "        ";
     "        .experience-duration {";
     "            font-size: 9pt;";
     "            color: #2e6677;";
     "            font-weight: bold;";
     "            margin-bottom: 2px;";
     "        }";
     "        ";
     "        .experience-role {";
     "            font-size: 11pt;";
     "            font-weight: bold;";
     "            color: #222222;";
     "            font-style: italic;";
     "        }";
     "        ";
     "        .experience-company {";
     "            font-size: 9pt;";
     "            color: #2e6677;";
     "            margin-bottom: 6px;";
     "        }";
     "        ";
     "        .experience-points {";
     "            margin-left: 15px;";
     "            font-size: 9pt;";
     "            color: #555555;";
     "        }";
     "        ";
     "        .experience-points li {";
     "            margin-bottom: 4px;";
     "            line-height: 1.4;";
     "        }";
     "        ";
     "        /* Projects Section */";
     "        .project-item {";
     "            margin-bottom: 15px;";
     "        }";
     "        ";
     "        .project-title {";
     "            font-size: 10pt;";
     "            font-weight: bold;";
     "            color: #222222;";
     "            margin-bottom: 3px;";
     "        }";
     "        ";
     "        .project-tech {";
     "            font-size: 8pt;";
     "            color: #2e6677;";
     "            font-style: italic;";
     "            margin-bottom: 5px;";
     "        }";
     "        ";
     "        .project-points {";
     "            margin-left: 15px;";
     "            font-size: 9pt;";
     "            color: #555555;";
     "        }";
     "        ";
     "        .project-points li {";
     "            margin-bottom: 3px;";
     "            line-height: 1.4;";
     "        }";
     "    </style>";
     "</head>";
     "<body>";
     "    <!-- Header -->";
     "    <div class='header'>";
     "        <h1>"].

Definition banner_name_close : string :=
  markup
    ["</h1>";
     "        <h2>"].

(** End of the banner, start of the two columns and the Contact section with its title. *)
Definition banner_close_contact_open : string :=
  markup
    ["</h2>";
     "    </div>";
     "    ";
     "    <!-- Main Content - Two Columns using Table -->";
     "    <table class='columns' cellpadding='0' cellspacing='0'>";
     "        <tr>";
     "            <!-- Left Column -->";
     "            <td class='left-column'>";
     "                <!-- Contact -->";
     "                <div class='section'>";
     "                    <div class='section-title'>Contact</div>";
     "                    "].

Definition contact_row_close : string :=
  markup
    ["</span>";
     "                    </div>";
     "                    "].

Definition contact_row_gap : string :=
  markup
    ["";
     "                    "].

Definition contact_close : string :=
  markup
    ["";
     "                </div>";
     "                ";
     "                <!-- Summary -->";
     "                "].

Definition summary_open : string :=
  markup
    ["";
     "                <div class='section'>";
     "                    <div class='section-title'>Summary</div>";
     "                    <p class='summary-text'>"].

Definition summary_close : string :=
  markup
    ["</p>";
     "                </div>";
     "                "].

Definition education_lead : string :=
  markup
    ["";
     "                ";
     "                <!-- Education -->";
     "                "].

Definition education_open : string :=
  markup
    ["";
     "                <div class='section'>";
     "                    <div class='section-title'>Education</div>";
     "                    "].

Definition education_item_open : string :=
  markup
    ["";
     "                    <div class='education-item'>";
     "                        <div class='education-year'>"].

Definition education_year_close : string :=
  markup
    ["</div>";
     "                        <div class='education-degree'>"].

(** End of a field of an item, before a conditional part. *)
Definition field_close : string :=
  markup
    ["</div>";
     "                        "].

Definition education_details_open : string :=
  markup
    ["";
     "                        <div class='education-honors'>"].

Definition education_institution_open : string :=
  markup
    ["";
     "                        <div class='education-institution'>"].

Definition education_item_close : string :=
  markup
    ["</div>";
     "                    </div>";
     "                    "].

Definition section_close : string :=
  markup
    ["";
     "                </div>";
     "                "].

Definition skills_lead : string :=
  markup
    ["";
     "                ";
     "                <!-- Skills -->";
     "                "].

Definition skills_open : string :=
  markup
    ["";
     "                <div class='section'>";
     "                    <div class='section-title'>Relevant Skills</div>";
     "                    "].

Definition skill_item_open : string :=
  markup
    ["";
     "                    <div class='skill-item'>";
     "                        <div class='skill-header'>";
     "                            <span class='skill-name'>"].

Definition skill_name_close : string :=
  markup
    ["</span>";
     "                            <span class='skill-level'>"].

(** End of the printed level, start of the bar up to its width. *)
Definition skill_level_close : string :=
  markup
    ["%</span>";
     "                        </div>";
     "                        <div class='skill-bar'>";
     "                            <div class='skill-fill' style='width: "].

Definition skill_item_close : string :=
  markup
    ["%;'></div>";
     "                        </div>";
     "                    </div>";
     "                    "].

Definition right_column_open : string :=
  markup
    ["";
     "            </td>";
     "            ";
     "            <!-- Right Column -->";
     "            <td class='right-column'>";
     "                <!-- Professional Experience -->";
     "                "].

Definition experience_open : string :=
  markup
    ["";
     "                <div class='section'>";
     "                    <div class='section-title'>Professional Experience</div>";
     "                    "].

Definition experience_item_open : string :=
  markup
    ["";
     "                    <div class='experience-item'>";
     "                        <div class='experience-duration'>"].

Definition experience_duration_close : string :=
  markup
    ["</div>";
     "                        <div class='experience-role'>"].

Definition experience_role_close : string :=
  markup
    ["</div>";
     "                        <div class='experience-company'>"].

Definition location_separator : string :=
  markup
    [", "].

Definition experience_points_open : string :=
  markup
    ["";
     "                        <ul class='experience-points'>";
     "                            "].

Definition point_open : string :=
  markup
    ["";
     "                            <li>"].

Definition point_close : string :=
  markup
    ["</li>";
     "                            "].

Definition points_close : string :=
  markup
    ["";
     "                        </ul>";
     "                        "].

Definition item_close : string :=
  markup
    ["";
     "                    </div>";
     "                    "].

Definition projects_lead : string :=
  markup
    ["";
     "                ";
     "                <!-- Projects -->";
     "                "].

Definition projects_open : string :=
  markup
    ["";
     "                <div class='section'>";
     "                    <div class='section-title'>Projects</div>";
     "                    "].

Definition project_item_open : string :=
  markup
    ["";
     "                    <div class='project-item'>";
     "                        <div class='project-title'>"].

Definition project_tech_open : string :=
  markup
    ["";
     "                        <div class='project-tech'>"].

Definition project_gap : string :=
  markup
    ["";
     "                        "].

Definition project_points_open : string :=
  markup
    ["";
     "                        <ul class='project-points'>";
     "                            "].

Definition document_close : string :=
  markup
    ["";
     "            </td>";
     "        </tr>";
     "    </table>";
     "</body>";
     "</html>"].

Definition contact_row_open (label : string) : string :=
  markup
    ["";
     "                    <div class='contact-item'>";
     "                        <span class='contact-label'>" ++ label ++ "</span>";
     "                        <span class='contact-value'>"].

(** ** Rendering

    Jinja2 renders a template as a stream of strings and joins them: the
    template's own text ([Markup]) and the values bound into it
    ([Text]).  The environment is created without autoescaping, so a
    value is copied as [str] prints it. *)

Inductive piece : Type :=
| Markup (s : string)
| Text (s : string).

Definition piece_text (p : piece) : string :=
  match p with
  | Markup s => s
  | Text s => s
  end.

Fixpoint flatten (ps : list piece) : string :=
  match ps with
  | [] => ""
  | p :: ps' => piece_text p ++ flatten ps'
  end.

(** [{% if test %} body {% endif %}] *)
Definition when (test : bool) (body : list piece) : list piece :=
  if test then body else [].

(** [{% for x in l %} body {% endfor %}] *)
Definition for_in {A : Type} (l : list A) (body : A -> list piece)
  : list piece :=
  flat_map body l.

(** Truth of a string and of a list in an [if] tag. *)
Definition filled (s : string) : bool := negb (String.eqb s "").

Definition populated {A : Type} (l : list A) : bool :=
  match l with
  | [] => false
  | _ :: _ => true
  end.

(** The [upper] filter, [str.upper], on the letters a to z. *)
Definition upper_char (c : ascii) : ascii :=
  let n := code c in
  if ((97 <=? n) && (n <=? 122))%nat then ascii_of_nat (n - 32) else c.

Fixpoint upper (s : string) : string :=
  match s with
  | "" => ""
  | String c s' => String (upper_char c) (upper s')
  end.

Definition banner (h : Header) : list piece :=
  [Markup document_open; Text (header_name h);
   Markup head_and_banner_open; Text (upper (header_name h));
   Markup banner_name_close; Text (upper (header_title h));
   Markup banner_close_contact_open].

Definition contact_row (label value : string) : list piece :=
  when (filled value)
    [Markup (contact_row_open label); Text value; Markup contact_row_close].

Definition contact_rows (c : Contact) : list piece :=
  (contact_row "phone" (phone c) ++ [Markup contact_row_gap]
   ++ contact_row "email" (email c) ++ [Markup contact_row_gap]
   ++ contact_row "address" (address c) ++ [Markup contact_row_gap]
   ++ contact_row "website" (website c) ++ [Markup contact_row_gap]
   ++ contact_row "linkedin" (linkedin c))%list.

Definition summary_section (s : string) : list piece :=
  when (filled s) [Markup summary_open; Text s; Markup summary_close].

Definition education_item (edu : Education) : list piece :=
  ([Markup education_item_open; Text (year edu);
    Markup education_year_close; Text (degree edu); Markup field_close]
   ++ when (filled (details edu))
        [Markup education_details_open; Text (details edu);
         Markup field_close]
   ++ [Markup education_institution_open; Text (institution edu);
       Markup education_item_close])%list.

Definition education_section (l : list Education) : list piece :=
  when (populated l)
    ([Markup education_open] ++ for_in l education_item
     ++ [Markup section_close])%list.

Definition skill_item (skill : Skill) : list piece :=
  [Markup skill_item_open; Text (skill_name skill);
   Markup skill_name_close; Text (decimal (level skill));
   Markup skill_level_close; Text (decimal (level skill));
   Markup skill_item_close].

Definition skills_section (l : list Skill) : list piece :=
  when (populated l)
    ([Markup skills_open] ++ for_in l skill_item
     ++ [Markup section_close])%list.

Definition point_item (point : string) : list piece :=
  [Markup point_open; Text point; Markup point_close].

Definition experience_item (exp : Experience) : list piece :=
  ([Markup experience_item_open; Text (duration exp);
    Markup experience_duration_close; Text (role exp);
    Markup experience_role_close; Text (company exp)]
   ++ when (filled (location exp))
        [Markup location_separator; Text (location exp)]
   ++ [Markup field_close]
   ++ when (populated (points exp))
        ([Markup experience_points_open] ++ for_in (points exp) point_item
         ++ [Markup points_close])
   ++ [Markup item_close])%list.

Definition experience_section (l : list Experience) : list piece :=
  when (populated l)
    ([Markup experience_open] ++ for_in l experience_item
     ++ [Markup section_close])%list.

Definition project_item (project : Project) : list piece :=
  ([Markup project_item_open; Text (project_title project);
    Markup field_close]
   ++ when (populated (tech_stack project))
        [Markup project_tech_open; Text (join ", " (tech_stack project));
         Markup field_close]
   ++ [Markup project_gap]
   ++ when (populated (project_points project))
        ([Markup project_points_open]
         ++ for_in (project_points project) point_item
         ++ [Markup points_close])
   ++ [Markup item_close])%list.

Definition projects_section (l : list Project) : list piece :=
  when (populated l)
    ([Markup projects_open] ++ for_in l project_item
     ++ [Markup section_close])%list.

(** The stream that [self.template.render] joins for the document. *)
Definition render_stream (doc : Resume) : list piece :=
  (banner (header doc)
   ++ contact_rows (contact doc) ++ [Markup contact_close]
   ++ summary_section (summary doc) ++ [Markup education_lead]
   ++ education_section (education doc) ++ [Markup skills_lead]
   ++ skills_section (skills doc) ++ [Markup right_column_open]
   ++ experience_section (experience doc) ++ [Markup projects_lead]
   ++ projects_section (projects doc) ++ [Markup document_close])%list.

(** [self.template.render] on the fields of the document. *)
Definition render (doc : Resume) : string := flatten (render_stream doc).

(** [HTMLPDFGenerator.generate_html_preview(resume_data)] *)
Definition generate_html_preview (resume_data : Resume) : string :=
  render resume_data.

(** ** Strings of file names *)

Definition lower_char (c : ascii) : ascii :=
  let n := code c in
  if ((65 <=? n) && (n <=? 90))%nat then ascii_of_nat (n + 32) else c.

(** [str.lower] and [str.isalnum], on the ASCII letters and digits. *)
Fixpoint lower (s : string) : string :=
  match s with
  | "" => ""
  | String c s' => String (lower_char c) (lower s')
  end.

Definition is_alnum (c : ascii) : bool :=
  let n := code c in
  (((48 <=? n) && (n <=? 57)) || ((65 <=? n) && (n <=? 90))
   || ((97 <=? n) && (n <=? 122)))%nat.

(** [''.join(c if c.isalnum() else '_' for c in s)] *)
Fixpoint slug (s : string) : string :=
  match s with
  | "" => ""
  | String c s' => String (if is_alnum c then c else "_"%char) (slug s')
  end.

(** [s.endswith(suffix)] *)
Definition ends_with (suffix s : string) : bool :=
  String.prefix (reverse suffix) (reverse s).

(** [os.path.join(a, b)] for POSIX paths. *)
Definition path_join (a b : string) : string :=
  if String.prefix "/" b then b
  else if String.eqb a "" || ends_with "/" a then a ++ b
  else a ++ "/" ++ b.

(** ** PDF generation

    [pisa.CreatePDF] belongs to xhtml2pdf.  A call writes bytes to its
    destination, then either returns a status with an error count [err]
    or raises.  The files are a map from paths to contents, the newest
    binding of a path first.  [open(path, "wb")] creates or empties the
    file at [path], or raises without touching the files: a directory
    that does not exist, a name that is too long or has a NUL, a
    permission that is missing. *)

Inductive completion : Type :=
| Returned (err : nat)
| Failed (message : string).

Record rasterization : Type :=
  { written : string; completion_of : completion }.

Definition files : Type := list (string * string).

Section Rasterizer.

(** The text of the exception [open(path, "wb")] raises, if it raises. *)
Variable open_error : string -> option string.

Variable CreatePDF : string -> rasterization.

(** [HTMLPDFGenerator.generate_pdf(resume_data, filename)], for a
    generator created with [output_dir], called when the clock reads
    [timestamp] in the format [%Y%m%d_%H%M%S].  A [filename] that is
    [None] or empty is replaced by one made of the name and the time.
    The file is opened for writing before the rasterizer runs; when
    [open] raises, the handler of the [try] block answers and no file
    is written.  An opened file is closed, with what was written,
    however the rasterizer ends. *)
Definition generate_pdf (output_dir timestamp : string)
    (resume_data : Resume) (filename : option string) (fs : files)
  : files * dict :=
  let filename :=
    match filename with
    | Some f =>
        if filled f then f
        else slug (lower (header_name (header resume_data)))
             ++ "_" ++ timestamp ++ ".pdf"
    | None =>
        slug (lower (header_name (header resume_data)))
        ++ "_" ++ timestamp ++ ".pdf"
    end in
  let filename :=
    if ends_with ".pdf" filename then filename else filename ++ ".pdf" in
  let filepath := path_join output_dir filename in
  let html_content := render resume_data in
  match open_error filepath with
  | Some message =>
      (fs,
       [("status", VStr "error");
        ("message", VStr ("Failed to generate PDF: " ++ message));
        ("file_path", VNone)])
  | None =>
      let pisa_status := CreatePDF html_content in
      let fs' := (filepath, written pisa_status) :: fs in
      match completion_of pisa_status with
      | Returned err =>
          if negb (err =? 0)%nat then
            (fs',
             [("status", VStr "error");
              ("message",
               VStr ("PDF generation had errors: "
                     ++ decimal (Z.of_nat err)));
              ("file_path", VNone)])
          else
            (fs',
             [("status", VStr "success");
              ("file_path", VStr filepath);
              ("filename", VStr filename);
              ("message", VStr "Resume PDF generated successfully")])
      | Failed message =>
          (fs',
           [("status", VStr "error");
            ("message", VStr ("Failed to generate PDF: " ++ message));
            ("file_path", VNone)])
      end
  end.

(** [HTMLPDFGenerator.generate_pdf_bytes(resume_data)]: the contents of
    the buffer the rasterizer wrote to; the status the rasterizer
    returns is not bound to any name. *)
Definition generate_pdf_bytes (resume_data : Resume) : result string :=
  let html_content := render resume_data in
  let pisa_status := CreatePDF html_content in
  match completion_of pisa_status with
  | Returned _ => Ok (written pisa_status)
  | Failed message => Raise (Exception message)
  end.

End Rasterizer.

(** ** Validation *)

(** The keys of [required_structure], in the order of its display. *)
Definition required_structure : list string :=
  ["header"; "contact"; "summary"; "skills"; "experience"; "education"].

(** The loop over [required_structure.items()]. *)
Definition missing_fields (data : dict) : list string :=
  filter (fun field => negb (contains_key data field)) required_structure.

(** [HTMLPDFGenerator.validate_resume_data(data)] *)
Definition validate_resume_data (data : dict) : dict :=
  let missing := missing_fields data in
  [("valid", VBool (List.length missing =? 0)%nat);
   ("missing_fields", VList (map VStr missing));
   ("message",
    VStr (if (List.length missing =? 0)%nat then "Valid resume data"
          else "Missing fields: " ++ py_repr (VList (map VStr missing))))].

End HTMLPDFGenerator.

(* ================================================================== *)
(** * Notions used in the statements *)
(* ================================================================== *)

Import Py ResumeAgent HTMLPDFGenerator.
#[local] Open Scope py_scope.

(** ** Results of the normaliser *)

(** The document built from the values of its fields. *)
Definition document (name title phone email address website linkedin
    summary : value) (skills projects experience education : list value)
  : dict :=
  [("header", VDict [("name", name); ("title", title)]);
   ("contact",
    VDict [("phone", phone); ("email", email); ("address", address);
           ("website", website); ("linkedin", linkedin)]);
   ("summary", summary);
   ("skills", VList skills);
   ("projects", VList projects);
   ("experience", VList experience);
   ("education", VList education)].

(** A section that is absent from the input or is a dictionary. *)
Definition mapping_or_absent (data : dict) (key : string) : Prop :=
  exists d, get data key (VDict []) = VDict d.

(** A section that is absent from the input or is a list. *)
Definition list_or_absent (data : dict) (key : string) : Prop :=
  exists entries, get data key (VList []) = VList entries.

(** The levels of the structured skills can be read as integers. *)
Definition levels_convert (data : dict) : Prop :=
  forall entries d,
    get data "skills" (VList []) = VList entries ->
    In (VDict d) entries ->
    exists n, py_int (get d "level" (VInt 50)) = Ok n.

(** The skill entries the loop keeps: dictionaries and strings. *)
Definition is_dict_or_str (v : value) : bool :=
  match v with
  | VDict _ | VStr _ => true
  | _ => false
  end.

(** The entries [_validate_and_clean] builds for a skill, a project, an
    experience and an education. *)
Definition canonical_skill (v : value) : Prop :=
  exists name n, v = VDict [("name", name); ("level", VInt n)].

Definition canonical_project (v : value) : Prop :=
  exists title tech points,
    v = VDict [("title", title); ("tech_stack", tech); ("points", points)].

Definition canonical_experience (v : value) : Prop :=
  exists role company location duration points,
    v = VDict [("role", role); ("company", company);
               ("location", location); ("duration", duration);
               ("points", points)].

Definition canonical_education (v : value) : Prop :=
  exists degree institution year details,
    v = VDict [("degree", degree); ("institution", institution);
               ("year", VStr year); ("details", details)].

(** ** Occurrences of a text in a string *)

(** [s.startswith(p)] *)
Fixpoint starts_with (p s : string) : bool :=
  match p, s with
  | "", _ => true
  | String _ _, "" => false
  | String a p', String b s' => Ascii.eqb a b && starts_with p' s'
  end.

(** [p in s] *)
Fixpoint contains (p s : string) : bool :=
  starts_with p s
  || match s with
     | "" => false
     | String _ s' => contains p s'
     end.

(** The same as a proposition: [s] is [p] between two strings. *)
Definition occurs (p s : string) : Prop := exists a b, s = a ++ p ++ b.

(** The number of positions of [s] at which [m] starts. *)
Fixpoint occurrences (m s : string) : nat :=
  match s with
  | "" => 0
  | String _ s' => (if starts_with m s then 1 else 0) + occurrences m s'
  end.

(** ** Tags of the template in a stream *)

(** The element the template has for the title of a section. *)
Definition section_title (title : string) : string :=
  markup ["<div class='section-title'>" ++ title ++ "</div>"].

(** The filled part of a skill bar of a given width, in percent. *)
Definition skill_fill (width : string) : string :=
  markup ["<div class='skill-fill' style='width: "] ++ width
  ++ markup ["%;'></div>"].

(** The element that opens the block of one project. *)
Definition project_block : string := markup ["<div class='project-item'>"].

(** The occurrences of [marker] in a piece of the template's own text.
    The text bound from the document is not template text: it is
    copied to the page as it is. *)
Definition markup_occurrences (marker : string) (p : piece) : nat :=
  match p with
  | Markup c => occurrences marker c
  | Text _ => 0
  end.

(** The occurrences of [marker] in the template text of a stream. *)
Definition count_markup (marker : string) (ps : list piece) : nat :=
  list_sum (map (markup_occurrences marker) ps).

(** ** Texts without markup *)

Definition plain (s : string) : bool := negb (has_char "<" s).

(** A suffix of [s], not empty, that is a beginning of [m] without being
    all of [m]: an occurrence of [m] that starts there would end in what
    follows [s]. *)
Fixpoint dangling (m s : string) : bool :=
  match s with
  | "" => false
  | String _ s' =>
      (starts_with s m && negb (starts_with m s)) || dangling m s'
  end.

Definition plain_text (p : piece) : bool :=
  match p with
  | Text t => plain t
  | Markup _ => true
  end.

Definition closed_markup (m : string) (p : piece) : bool :=
  match p with
  | Markup c => negb (dangling m c)
  | Text _ => true
  end.

Definition plain_education (e : Education) : bool :=
  plain (year e) && plain (degree e) && plain (details e)
  && plain (institution e).

Definition plain_skill (s : Skill) : bool := plain (skill_name s).

Definition plain_experience (e : Experience) : bool :=
  plain (duration e) && plain (role e) && plain (company e)
  && plain (location e) && forallb plain (points e).

Definition plain_project (p : Project) : bool :=
  plain (project_title p) && forallb plain (tech_stack p)
  && forallb plain (project_points p).

(** No text of the document has the character [<]. *)
Definition plain_doc (doc : Resume) : bool :=
  plain (header_name (header doc)) && plain (header_title (header doc))
  && plain (phone (contact doc)) && plain (email (contact doc))
  && plain (address (contact doc)) && plain (website (contact doc))
  && plain (linkedin (contact doc)) && plain (summary doc)
  && forallb plain_education (education doc)
  && forallb plain_skill (skills doc)
  && forallb plain_experience (experience doc)
  && forallb plain_project (projects doc).

(** ** Sample inputs *)

(** The document of the end-to-end scenario. *)
Definition jane_doe : Resume :=
  {| header := {| header_name := "Jane Doe"; header_title := "" |};
     contact := {| phone := ""; email := "jane@x.com"; address := "";
                   website := ""; linkedin := "" |};
     summary := "";
     skills := [{| skill_name := "Python"; level := 70 |}];
     projects := []; experience := []; education := [] |}.

(** A document with entries in every section. *)
Definition john_roe : Resume :=
  {| header := {| header_name := "John Roe"; header_title := "Engineer" |};
     contact := {| phone := "555-0100"; email := "john@x.com"; address := "";
                   website := ""; linkedin := "in/johnroe" |};
     summary := "Builds compilers & proof tools";
     skills := [{| skill_name := "OCaml"; level := 90 |};
                {| skill_name := "Rocq"; level := 80 |}];
     projects := [{| project_title := "Checker";
                     tech_stack := ["OCaml"; "Menhir"];
                     project_points := ["Type checker for a DSL"] |}];
     experience := [{| role := "Engineer"; company := "Acme";
                       location := "Paris"; duration := "2020-2024";
                       points := ["Wrote the parser"; "Led the team"] |};
                    {| role := "Intern"; company := "Initech";
                       location := ""; duration := "2019";
                       points := [] |}];
     education := [{| degree := "MSc"; institution := "MIT"; year := "2019";
                      details := "" |}] |}.

(** A document without projects whose summary is the markup of the
    title of the Projects section. *)
Definition title_in_summary : Resume :=
  {| header := {| header_name := "Jane Doe"; header_title := "" |};
     contact := {| phone := ""; email := ""; address := "";
                   website := ""; linkedin := "" |};
     summary := section_title "Projects";
     skills := []; projects := []; experience := []; education := [] |}.

(** A document with one project, whose title is the markup that opens
    the block of a project. *)
Definition block_in_title : Resume :=
  {| header := {| header_name := "Jane Doe"; header_title := "" |};
     contact := {| phone := ""; email := ""; address := "";
                   website := ""; linkedin := "" |};
     summary := "";
     skills := [];
     projects := [{| project_title := project_block; tech_stack := [];
                     project_points := [] |}];
     experience := []; education := [] |}.

(** A rasterizer that writes the start of a document, then gives up and
    returns a status with one error. *)
Definition failing_rasterizer (html : string) : rasterization :=
  {| written := "%PDF-1.4 (truncated)"; completion_of := Returned 1 |}.

(** A rasterizer that writes a document and returns without an error. *)
Definition working_rasterizer (html : string) : rasterization :=
  {| written := "%PDF-1.4"; completion_of := Returned 0 |}.

(** An environment in which every path can be opened for writing. *)
Definition writable (path : string) : option string := None.

(** An environment in which only the paths under [resumes/] can be
    opened: [open] raises [FileNotFoundError] for the others. *)
Definition resumes_only (path : string) : option string :=
  if String.prefix "resumes/" path then None
  else Some ("[Errno 2] No such file or directory: " ++ str_repr path).

(** ** Reading a dictionary of the schema as a document

    The template reads the fields of the dictionary it is given.  When
    every field has the type the schema names, what it reads is the
    [Resume] below; a dictionary with a field of another type, or a
    missing field, has no reading. *)

Definition as_str (v : value) : option string :=
  match v with
  | VStr s => Some s
  | _ => None
  end.

Definition as_int (v : value) : option Z :=
  match v with
  | VInt n => Some n
  | _ => None
  end.

Definition as_dict (v : value) : option dict :=
  match v with
  | VDict d => Some d
  | _ => None
  end.

Fixpoint read_all {A : Type} (read : value -> option A) (l : list value)
  : option (list A) :=
  match l with
  | [] => Some []
  | v :: l' =>
      match read v, read_all read l' with
      | Some x, Some xs => Some (x :: xs)
      | _, _ => None
      end
  end.

Definition as_list {A : Type} (read : value -> option A) (v : value)
  : option (list A) :=
  match v with
  | VList l => read_all read l
  | _ => None
  end.

Definition field {A : Type} (read : value -> option A) (d : dict)
    (key : string) : option A :=
  match lookup key d with
  | Some v => read v
  | None => None
  end.

Notation "x <-? m ;; k" :=
  (match m with Some x => k | None => None end)
  (at level 61, m at next level, right associativity).

Definition read_skill (v : value) : option Skill :=
  d <-? as_dict v ;;
  n <-? field as_str d "name" ;;
  l <-? field as_int d "level" ;;
  Some {| skill_name := n; level := l |}.

Definition read_project (v : value) : option Project :=
  d <-? as_dict v ;;
  t <-? field as_str d "title" ;;
  ts <-? field (as_list as_str) d "tech_stack" ;;
  ps <-? field (as_list as_str) d "points" ;;
  Some {| project_title := t; tech_stack := ts; project_points := ps |}.

Definition read_experience (v : value) : option Experience :=
  d <-? as_dict v ;;
  r <-? field as_str d "role" ;;
  c <-? field as_str d "company" ;;
  l <-? field as_str d "location" ;;
  du <-? field as_str d "duration" ;;
  ps <-? field (as_list as_str) d "points" ;;
  Some {| role := r; company := c; location := l; duration := du;
          points := ps |}.

Definition read_education (v : value) : option Education :=
  d <-? as_dict v ;;
  dg <-? field as_str d "degree" ;;
  i <-? field as_str d "institution" ;;
  y <-? field as_str d "year" ;;
  dt <-? field as_str d "details" ;;
  Some {| degree := dg; institution := i; year := y; details := dt |}.

Definition read_resume (data : dict) : option Resume :=
  h <-? field as_dict data "header" ;;
  hn <-? field as_str h "name" ;;
  ht <-? field as_str h "title" ;;
  c <-? field as_dict data "contact" ;;
  ph <-? field as_str c "phone" ;;
  em <-? field as_str c "email" ;;
  ad <-? field as_str c "address" ;;
  we <-? field as_str c "website" ;;
  li <-? field as_str c "linkedin" ;;
  su <-? field as_str data "summary" ;;
  sk <-? field (as_list read_skill) data "skills" ;;
  pr <-? field (as_list read_project) data "projects" ;;
  ex <-? field (as_list read_experience) data "experience" ;;
  ed <-? field (as_list read_education) data "education" ;;
  Some {| header := {| header_name := hn; header_title := ht |};
          contact := {| phone := ph; email := em; address := ad;
                        website := we; linkedin := li |};
          summary := su; skills := sk; projects := pr; experience := ex;
          education := ed |}.

(** ** Inputs of the normaliser *)

(** A section that is absent from the input or can be iterated: a list,
    a string or a dictionary. *)
Definition iterable (data : dict) (key : string) : Prop :=
  exists entries, iterate (get data key (VList [])) = Ok entries.

(** The inputs on which [_validate_and_clean] returns. *)
Definition shaped (data : dict) : Prop :=
  mapping_or_absent data "header" /\ mapping_or_absent data "contact"
  /\ iterable data "skills" /\ iterable data "projects"
  /\ iterable data "experience" /\ iterable data "education"
  /\ (forall entries d,
         iterate (get data "skills" (VList [])) = Ok entries ->
         In (VDict d) entries ->
         exists n, py_int (get d "level" (VInt 50)) = Ok n).

Definition is_dict (v : value) : bool :=
  match v with
  | VDict _ => true
  | _ => false
  end.

(** The top-level keys [_validate_and_clean] reads. *)
Definition schema_keys : list string :=
  ["header"; "contact"; "summary"; "skills"; "projects"; "experience";
   "education"].


(** ** Files *)

(** The content of the file at [path], if there is one. *)
Fixpoint read_file (path : string) (fs : files) : option string :=
  match fs with
  | [] => None
  | (p, content) :: fs' =>
      if String.eqb path p then Some content else read_file path fs'
  end.


(** The name [generate_pdf] gives the file: the one it is given, or one
    made of the name of the document and the time, with [.pdf] added
    when it is not its end. *)
Definition pdf_filename (timestamp : string) (doc : Resume)
    (filename : option string) : string :=
  let chosen :=
    match filename with
    | Some f =>
        if filled f then f
        else slug (lower (header_name (header doc)))
             ++ "_" ++ timestamp ++ ".pdf"
    | None =>
        slug (lower (header_name (header doc))) ++ "_" ++ timestamp ++ ".pdf"
    end in
  if ends_with ".pdf" chosen then chosen else chosen ++ ".pdf".

(** The path [generate_pdf] opens. *)
Definition pdf_path (output_dir timestamp : string) (doc : Resume)
    (filename : option string) : string :=
  path_join output_dir (pdf_filename timestamp doc filename).

(** ** Generators *)

(** A generator that answers every prompt with the same value. *)
Definition constant_generator (answer : value)
  : string -> string -> float -> result value :=
  fun _ _ _ => Ok answer.

(** ** Blocks of the page *)

(** The element that opens an item of a section or a row of the
    contact. *)
Definition item_block (kind : string) : string :=
  markup ["<div class='" ++ kind ++ "-item'>"].

(** The element that opens a bullet. *)
Definition bullet : string := "<li>".

(** The number of fields of the contact that are not empty. *)
Definition contact_fields (c : Contact) : nat :=
  (if filled (phone c) then 1 else 0) + (if filled (email c) then 1 else 0)
  + (if filled (address c) then 1 else 0)
  + (if filled (website c) then 1 else 0)
  + (if filled (linkedin c) then 1 else 0).

(** The number of points of the experiences and of the projects. *)
Definition bullet_points (doc : Resume) : nat :=
  list_sum (map (fun e => List.length (points e)) (experience doc))
  + list_sum (map (fun p => List.length (project_points p)) (projects doc)).

(** The company line of an experience: the location follows the company
    after a comma when it is not empty. *)
Definition company_line (e : Experience) : string :=
  markup ["<div class='experience-company'>"] ++ company e
  ++ (if filled (location e) then ", " ++ location e else "") ++ "</div>".

(* ================================================================== *)
(** * Properties of the normaliser *)
(* ================================================================== *)

(** ** The error monad and the loop *)

Lemma bind_ok {A B : Type} (m : result A) (k : A -> result B) (b : B) :
  bind m k = Ok b -> exists a, m = Ok a /\ k a = Ok b.
Proof.
  destruct m as [a | e]; simpl; intros H.
  - exists a. split; [reflexivity | exact H].
  - discriminate H.
Qed.

Lemma bind_raise {A B : Type} (m : result A) (k : A -> result B) (e : exn) :
  m = Raise e -> bind m k = Raise e.
Proof. intros ->. reflexivity. Qed.

Ltac bind_inv H :=
  let a := fresh "a" in
  let Ha := fresh "E" in
  apply bind_ok in H; destruct H as (a & Ha & H).

Ltac ok_inv H := injection H as H; subst.

Lemma for_each_cons_ok body x rest r :
  for_each body (x :: rest) = Ok r ->
  exists rx rr, body x = Ok rx /\ for_each body rest = Ok rr
                /\ r = (rx ++ rr)%list.
Proof.
  simpl. intros H. bind_inv H. bind_inv H. ok_inv H.
  eauto.
Qed.

(** What the loop appends for an element of the input is in its result. *)
Lemma for_each_in body l r x :
  for_each body l = Ok r -> In x l ->
  exists rx, body x = Ok rx /\ incl rx r.
Proof.
  revert r. induction l as [| y l IH]; intros r H Hin.
  - destruct Hin.
  - apply for_each_cons_ok in H. destruct H as (ry & rr & Hy & Hr & ->).
    destruct Hin as [-> | Hin].
    + exists ry. split; [exact Hy | apply incl_appl, incl_refl].
    + destruct (IH rr Hr Hin) as (rx & Hx & Hincl).
      exists rx. split; [exact Hx | apply incl_appr, Hincl].
Qed.

(** A property of everything a body appends holds of the whole result. *)
Lemma for_each_forall (P : value -> Prop) body l r :
  (forall x rx, body x = Ok rx -> Forall P rx) ->
  for_each body l = Ok r -> Forall P r.
Proof.
  intros Hbody. revert r. induction l as [| y l IH]; intros r H.
  - simpl in H. ok_inv H. constructor.
  - apply for_each_cons_ok in H. destruct H as (ry & rr & Hy & Hr & ->).
    apply Forall_app. split; [eapply Hbody, Hy | apply IH, Hr].
Qed.

(** A list of elements the body maps to themselves is left unchanged. *)
Lemma for_each_fixed body r :
  Forall (fun x => body x = Ok [x]) r -> for_each body r = Ok r.
Proof.
  induction 1 as [| x r Hx _ IH]; simpl.
  - reflexivity.
  - rewrite Hx, IH. reflexivity.
Qed.

(** The number of entries appended by a body that appends one entry for
    the elements it keeps and none for the others. *)
Lemma for_each_length body (keeps : value -> bool) l r :
  (forall x rx, body x = Ok rx ->
                List.length rx = if keeps x then 1 else 0) ->
  for_each body l = Ok r ->
  List.length r = List.length (filter keeps l).
Proof.
  intros Hbody. revert r. induction l as [| y l IH]; intros r H.
  - simpl in H. ok_inv H. reflexivity.
  - apply for_each_cons_ok in H. destruct H as (ry & rr & Hy & Hr & ->).
    rewrite length_app, (Hbody _ _ Hy), (IH _ Hr). simpl.
    destruct (keeps y); reflexivity.
Qed.

(** ** The shape of a result of [_validate_and_clean] *)

Lemma validate_and_clean_inv data user_profile out :
  _validate_and_clean data user_profile = Ok out ->
  exists name title phone email address website linkedin
         skills projects experience education,
    get_in data "header" "name" (get user_profile "name" (VStr "")) = Ok name
    /\ get_in data "header" "title" (VStr "") = Ok title
    /\ get_in data "contact" "phone" (get user_profile "phone" (VStr ""))
       = Ok phone
    /\ get_in data "contact" "email" (get user_profile "email" (VStr ""))
       = Ok email
    /\ get_in data "contact" "address"
         (get user_profile "location" (VStr "")) = Ok address
    /\ get_in data "contact" "website"
         (get user_profile "website" (VStr "")) = Ok website
    /\ get_in data "contact" "linkedin"
         (get user_profile "linkedin" (VStr "")) = Ok linkedin
    /\ clean_section clean_skill data "skills" = Ok skills
    /\ clean_section clean_project data "projects" = Ok projects
    /\ clean_section clean_experience data "experience" = Ok experience
    /\ clean_section clean_education data "education" = Ok education
    /\ out = document name title phone email address website linkedin
               (get data "summary" (VStr ""))
               skills projects experience education.
Proof.
  unfold _validate_and_clean. intros H.
  do 11 bind_inv H. ok_inv H.
  do 11 eexists. repeat (split; [eassumption |]). reflexivity.
Qed.

Lemma validate_and_clean_intro data user_profile
    name title phone email address website linkedin
    skills projects experience education :
  get_in data "header" "name" (get user_profile "name" (VStr "")) = Ok name ->
  get_in data "header" "title" (VStr "") = Ok title ->
  get_in data "contact" "phone" (get user_profile "phone" (VStr ""))
  = Ok phone ->
  get_in data "contact" "email" (get user_profile "email" (VStr ""))
  = Ok email ->
  get_in data "contact" "address" (get user_profile "location" (VStr ""))
  = Ok address ->
  get_in data "contact" "website" (get user_profile "website" (VStr ""))
  = Ok website ->
  get_in data "contact" "linkedin" (get user_profile "linkedin" (VStr ""))
  = Ok linkedin ->
  clean_section clean_skill data "skills" = Ok skills ->
  clean_section clean_project data "projects" = Ok projects ->
  clean_section clean_experience data "experience" = Ok experience ->
  clean_section clean_education data "education" = Ok education ->
  _validate_and_clean data user_profile
  = Ok (document name title phone email address website linkedin
          (get data "summary" (VStr ""))
          skills projects experience education).
Proof.
  intros H1 H2 H3 H4 H5 H6 H7 H8 H9 H10 H11. unfold _validate_and_clean.
  rewrite H1, H2, H3, H4, H5, H6, H7, H8, H9, H10, H11. reflexivity.
Qed.

Lemma validate_and_clean_keys data user_profile out :
  _validate_and_clean data user_profile = Ok out ->
  map fst out
  = ["header"; "contact"; "summary"; "skills"; "projects"; "experience";
     "education"].
Proof.
  intros H. apply validate_and_clean_inv in H.
  destruct H as (? & ? & ? & ? & ? & ? & ? & ? & ? & ? & ? & H).
  do 11 (destruct H as [_ H]). subst out. reflexivity.
Qed.

(** The entries of a section of the input that is a list. *)
Lemma clean_section_list body data key entries r :
  get data key (VList []) = VList entries ->
  clean_section body data key = Ok r ->
  for_each body entries = Ok r.
Proof.
  unfold clean_section. intros ->. simpl. trivial.
Qed.

(** ** Inputs on which normalisation returns *)

Lemma for_each_total body l :
  (forall x, In x l -> exists rx, body x = Ok rx) ->
  exists r, for_each body l = Ok r.
Proof.
  induction l as [| x l IH]; intros H.
  - exists []. reflexivity.
  - destruct (H x (or_introl eq_refl)) as (rx & Hx).
    destruct IH as (r & Hr); [intros y Hy; apply H; right; exact Hy |].
    exists (rx ++ r)%list. simpl. rewrite Hx, Hr. reflexivity.
Qed.

Lemma get_in_mapping data section key default :
  mapping_or_absent data section ->
  exists v, get_in data section key default = Ok v.
Proof.
  intros (d & Hd). unfold get_in. rewrite Hd. simpl. eauto.
Qed.

Lemma clean_section_total body data key :
  list_or_absent data key ->
  (forall entries x,
      get data key (VList []) = VList entries -> In x entries ->
      exists rx, body x = Ok rx) ->
  exists r, clean_section body data key = Ok r.
Proof.
  intros (entries & He) Hbody. unfold clean_section. rewrite He. simpl.
  apply for_each_total. intros x Hx. exact (Hbody entries x He Hx).
Qed.

(** On an input whose header and contact are dictionaries, whose four
    sections are lists and whose skill levels convert, normalisation
    returns a document with the seven fields. *)
Lemma validate_and_clean_returns data user_profile :
  mapping_or_absent data "header" ->
  mapping_or_absent data "contact" ->
  list_or_absent data "skills" ->
  list_or_absent data "projects" ->
  list_or_absent data "experience" ->
  list_or_absent data "education" ->
  levels_convert data ->
  exists out,
    _validate_and_clean data user_profile = Ok out
    /\ map fst out
       = ["header"; "contact"; "summary"; "skills"; "projects";
          "experience"; "education"].
Proof.
  intros Hh Hc Hs Hp Hx He Hl.
  destruct (get_in_mapping data "header" "name"
              (get user_profile "name" (VStr "")) Hh) as (name & H1).
  destruct (get_in_mapping data "header" "title" (VStr "") Hh)
    as (title & H2).
  destruct (get_in_mapping data "contact" "phone"
              (get user_profile "phone" (VStr "")) Hc) as (ph & H3).
  destruct (get_in_mapping data "contact" "email"
              (get user_profile "email" (VStr "")) Hc) as (em & H4).
  destruct (get_in_mapping data "contact" "address"
              (get user_profile "location" (VStr "")) Hc) as (ad & H5).
  destruct (get_in_mapping data "contact" "website"
              (get user_profile "website" (VStr "")) Hc) as (we & H6).
  destruct (get_in_mapping data "contact" "linkedin"
              (get user_profile "linkedin" (VStr "")) Hc) as (li & H7).
  destruct (clean_section_total clean_skill data "skills" Hs) as (sk & H8).
  { intros entries x Hentries Hin. destruct x; simpl; eauto.
    destruct (Hl entries d Hentries Hin) as (n & Hn).
    rewrite Hn. simpl. eauto. }
  destruct (clean_section_total clean_project data "projects" Hp)
    as (pr & H9).
  { intros entries x _ _. destruct x; simpl; eauto. }
  destruct (clean_section_total clean_experience data "experience" Hx)
    as (ex & H10).
  { intros entries x _ _. destruct x; simpl; eauto. }
  destruct (clean_section_total clean_education data "education" He)
    as (ed & H11).
  { intros entries x _ _. destruct x; simpl; eauto. }
  eexists. split.
  - apply validate_and_clean_intro; eassumption.
  - reflexivity.
Qed.

(** The empty mapping is normalised to the defaults of the profile. *)
Lemma validate_and_clean_empty user_profile :
  _validate_and_clean [] user_profile
  = Ok (document (get user_profile "name" (VStr "")) (VStr "")
          (get user_profile "phone" (VStr ""))
          (get user_profile "email" (VStr ""))
          (get user_profile "location" (VStr ""))
          (get user_profile "website" (VStr ""))
          (get user_profile "linkedin" (VStr ""))
          (VStr "") [] [] [] []).
Proof. reflexivity. Qed.

(** C1.  Normalisation is not total, and what it returns need not be
    typed as the schema says.  A header that is a string has no [get]
    and the call raises [AttributeError]; a skills value that is [None]
    cannot be iterated ([TypeError]); a level that is not a numeral
    makes [int] raise [ValueError]; and a summary that is a number is
    returned as it is, a number where the schema has a string. *)
Theorem validate_and_clean_raises_on_malformed_input :
  _validate_and_clean [("header", VStr "Jane Doe")] [] = Raise AttributeError
  /\ _validate_and_clean [("skills", VNone)] [] = Raise TypeError
  /\ _validate_and_clean
       [("skills",
         VList [VDict [("name", VStr "Python");
                       ("level", VStr "not a number")]])] []
     = Raise ValueError
  /\ _validate_and_clean [("summary", VInt 5)] []
     = Ok (document (VStr "") (VStr "") (VStr "") (VStr "") (VStr "")
             (VStr "") (VStr "") (VInt 5) [] [] [] []).
Proof. repeat split; vm_compute; reflexivity. Qed.

(** ** Skills *)

Lemma validate_and_clean_skills data user_profile out entries :
  _validate_and_clean data user_profile = Ok out ->
  get data "skills" (VList []) = VList entries ->
  exists skills,
    lookup "skills" out = Some (VList skills)
    /\ for_each clean_skill entries = Ok skills.
Proof.
  intros H He. apply validate_and_clean_inv in H.
  destruct H as (? & ? & ? & ? & ? & ? & ? & skills & ? & ? & ? & H).
  do 7 (destruct H as [_ H]). destruct H as (Hs & _ & _ & _ & ->).
  exists skills. split; [reflexivity |].
  eapply clean_section_list; eassumption.
Qed.

Lemma clean_skill_length skill rx :
  clean_skill skill = Ok rx ->
  List.length rx = if is_dict_or_str skill then 1 else 0.
Proof.
  destruct skill; simpl; intros H; try (ok_inv H; reflexivity).
  bind_inv H. ok_inv H. reflexivity.
Qed.

(** C2, counterexample.  Levels below 0 and above 100 are returned as
    they are, not clamped to 0 and 100. *)
Lemma level_outside_range_is_kept :
  _validate_and_clean
    [("skills", VList [VDict [("name", VStr "Python"); ("level", VInt (-5))];
                       VDict [("name", VStr "Rocq"); ("level", VInt 150)]])]
    []
  = Ok (document (VStr "") (VStr "") (VStr "") (VStr "") (VStr "")
          (VStr "") (VStr "") (VStr "")
          [VDict [("name", VStr "Python"); ("level", VInt (-5))];
           VDict [("name", VStr "Rocq"); ("level", VInt 150)]]
          [] [] []).
Proof. vm_compute. reflexivity. Qed.

(** What [int] makes of the levels it accepts: an integer is kept, a
    string of digits is read, a number with a fraction is truncated
    toward zero, a truth value is 1 or 0, and the level of an entry
    that has none is 50.  No level is clamped. *)
Example level_is_coerced_by_int :
  _validate_and_clean
    [("skills",
      VList [VDict [("name", VStr "a"); ("level", VInt 100)];
             VDict [("name", VStr "b"); ("level", VStr "85")];
             VDict [("name", VStr "c");
                    ("level", VFloat 0x1.2f33333333333p+5)];
             VDict [("name", VStr "d"); ("level", VBool true)];
             VDict [("name", VStr "e")];
             VDict [("name", VStr "f"); ("level", VStr " -7 ")];
             VDict [("name", VStr "g"); ("level", VFloat 250.5)]])]
    []
  = Ok (document (VStr "") (VStr "") (VStr "") (VStr "") (VStr "")
          (VStr "") (VStr "") (VStr "")
          [VDict [("name", VStr "a"); ("level", VInt 100)];
           VDict [("name", VStr "b"); ("level", VInt 85)];
           VDict [("name", VStr "c"); ("level", VInt 37)];
           VDict [("name", VStr "d"); ("level", VInt 1)];
           VDict [("name", VStr "e"); ("level", VInt 50)];
           VDict [("name", VStr "f"); ("level", VInt (-7))];
           VDict [("name", VStr "g"); ("level", VInt 250)]]
          [] [] []).
Proof. vm_compute. reflexivity. Qed.

(** C2, amended.  For every structured skill entry [d] of the input
    whose level [int] accepts, with the value [n], the normalised
    skills have the entry with the name of [d] and the level [n]
    itself: the level is what [int] makes of the level of [d], or of
    50 when [d] has none, and is never clamped. *)
Theorem skill_level_is_kept data user_profile out entries d n :
  _validate_and_clean data user_profile = Ok out ->
  get data "skills" (VList []) = VList entries ->
  In (VDict d) entries ->
  py_int (get d "level" (VInt 50)) = Ok n ->
  exists skills,
    lookup "skills" out = Some (VList skills)
    /\ In (VDict [("name", get d "name" (VStr "")); ("level", VInt n)])
         skills.
Proof.
  intros H He Hin Hl.
  destruct (validate_and_clean_skills _ _ _ _ H He) as (skills & Hs & Hf).
  exists skills. split; [exact Hs |].
  destruct (for_each_in _ _ _ _ Hf Hin) as (rx & Hx & Hincl).
  simpl in Hx. rewrite Hl in Hx. simpl in Hx. ok_inv Hx.
  apply Hincl. left. reflexivity.
Qed.

Lemma skill_level_is_kept_witness :
  exists skills,
    lookup "skills"
      (document (VStr "") (VStr "") (VStr "") (VStr "") (VStr "") (VStr "")
         (VStr "") (VStr "")
         [VDict [("name", VStr "Python"); ("level", VInt 150)];
          VDict [("name", VStr "SQL"); ("level", VInt 85)]] [] [] [])
    = Some (VList skills)
    /\ In (VDict [("name",
                   get [("name", VStr "SQL"); ("level", VStr "85")] "name"
                     (VStr ""));
                  ("level", VInt 85)]) skills.
Proof.
  apply (skill_level_is_kept
           [("skills",
             VList [VDict [("name", VStr "Python"); ("level", VInt 150)];
                    VDict [("name", VStr "SQL"); ("level", VStr "85")]])]
           []
           _
           [VDict [("name", VStr "Python"); ("level", VInt 150)];
            VDict [("name", VStr "SQL"); ("level", VStr "85")]]
           [("name", VStr "SQL"); ("level", VStr "85")] 85%Z).
  - reflexivity.
  - reflexivity.
  - right. left. reflexivity.
  - reflexivity.
Defined.

(** C5, counterexample.  Entries with an empty name are not dropped: the
    empty string and the object without a name both stay in the list. *)
Lemma empty_name_is_kept :
  _validate_and_clean
    [("skills", VList [VStr ""; VDict [("level", VInt 80)]; VStr "Python"])]
    []
  = Ok (document (VStr "") (VStr "") (VStr "") (VStr "") (VStr "")
          (VStr "") (VStr "") (VStr "")
          [VDict [("name", VStr ""); ("level", VInt 70)];
           VDict [("name", VStr ""); ("level", VInt 80)];
           VDict [("name", VStr "Python"); ("level", VInt 70)]]
          [] [] []).
Proof. vm_compute. reflexivity. Qed.

(** C5, amended.  No entry is dropped for its name.  The normalised
    skills have one entry for each element of the raw list that is an
    object or a string (elements of other types are skipped); a bare
    string [s], empty or not, becomes the entry with name [s] and level
    70, and an object becomes an entry with the name it has, the empty
    string when it has none. *)
Theorem skills_are_not_filtered_by_name data user_profile out entries :
  _validate_and_clean data user_profile = Ok out ->
  get data "skills" (VList []) = VList entries ->
  exists skills,
    lookup "skills" out = Some (VList skills)
    /\ List.length skills = List.length (filter is_dict_or_str entries)
    /\ (forall s, In (VStr s) entries ->
          In (VDict [("name", VStr s); ("level", VInt 70)]) skills)
    /\ (forall d, In (VDict d) entries ->
          exists n,
            In (VDict [("name", get d "name" (VStr "")); ("level", VInt n)])
              skills).
Proof.
  intros H He.
  destruct (validate_and_clean_skills _ _ _ _ H He) as (skills & Hs & Hf).
  exists skills. split; [exact Hs |]. split; [| split].
  - eapply for_each_length; [| exact Hf]. apply clean_skill_length.
  - intros s Hin.
    destruct (for_each_in _ _ _ _ Hf Hin) as (rx & Hx & Hincl).
    simpl in Hx. ok_inv Hx. apply Hincl. left. reflexivity.
  - intros d Hin.
    destruct (for_each_in _ _ _ _ Hf Hin) as (rx & Hx & Hincl).
    simpl in Hx. bind_inv Hx. ok_inv Hx.
    exists a. apply Hincl. left. reflexivity.
Qed.

Lemma skills_are_not_filtered_by_name_witness :
  exists skills,
    lookup "skills"
      (document (VStr "") (VStr "") (VStr "") (VStr "") (VStr "") (VStr "")
         (VStr "") (VStr "")
         [VDict [("name", VStr ""); ("level", VInt 70)];
          VDict [("name", VStr "Python"); ("level", VInt 70)]] [] [] [])
    = Some (VList skills)
    /\ List.length skills
       = List.length (filter is_dict_or_str [VStr ""; VInt 3; VStr "Python"])
    /\ (forall s, In (VStr s) [VStr ""; VInt 3; VStr "Python"] ->
          In (VDict [("name", VStr s); ("level", VInt 70)]) skills)
    /\ (forall d, In (VDict d) [VStr ""; VInt 3; VStr "Python"] ->
          exists n,
            In (VDict [("name", get d "name" (VStr "")); ("level", VInt n)])
              skills).
Proof.
  apply (skills_are_not_filtered_by_name
           [("skills", VList [VStr ""; VInt 3; VStr "Python"])] []).
  - reflexivity.
  - reflexivity.
Defined.

(** ** Education *)

(** The year of an entry is the text of what the input has under [year]:
    an integer prints in decimal, a string is itself, and a missing year
    is the empty string. *)
Lemma education_year_is_text d :
  exists degree institution details,
    clean_education (VDict d)
    = Ok [VDict [("degree", degree); ("institution", institution);
                 ("year", VStr (py_str (get d "year" (VStr ""))));
                 ("details", details)]]
    /\ (forall n, lookup "year" d = Some (VInt n) ->
          py_str (get d "year" (VStr "")) = decimal n)
    /\ (forall s, lookup "year" d = Some (VStr s) ->
          py_str (get d "year" (VStr "")) = s)
    /\ (lookup "year" d = None -> py_str (get d "year" (VStr "")) = "").
Proof.
  do 3 eexists. split; [reflexivity |].
  unfold get. repeat split; intros; rewrite H; reflexivity.
Qed.

(** The details of an entry are read under [details] only. *)
Lemma education_details_only d :
  lookup "details" d = None ->
  exists degree institution year,
    clean_education (VDict d)
    = Ok [VDict [("degree", degree); ("institution", institution);
                 ("year", year); ("details", VStr "")]].
Proof.
  intros H. do 3 eexists. simpl. unfold get at 4. rewrite H. reflexivity.
Qed.

(** C9.  The year is coerced to a string, but the details are not
    taken from [gpa]: an education entry with a numeric year and a
    [gpa] and no [details] is normalised to the year in decimal and
    empty details. *)
Theorem education_gpa_is_not_read :
  _validate_and_clean
    [("education",
      VList [VDict [("degree", VStr "BSc"); ("institution", VStr "MIT");
                    ("year", VInt 2020); ("gpa", VStr "3.9")]])]
    []
  = Ok (document (VStr "") (VStr "") (VStr "") (VStr "") (VStr "")
          (VStr "") (VStr "") (VStr "") [] [] []
          [VDict [("degree", VStr "BSc"); ("institution", VStr "MIT");
                  ("year", VStr "2020"); ("details", VStr "")]]).
Proof. vm_compute. reflexivity. Qed.

(** ** Idempotence *)

Lemma clean_skill_canonical skill rx :
  clean_skill skill = Ok rx -> Forall canonical_skill rx.
Proof.
  destruct skill; simpl; intros H;
    try (ok_inv H; repeat constructor; fail).
  - ok_inv H. repeat constructor. do 2 eexists. reflexivity.
  - bind_inv H. ok_inv H. repeat constructor. do 2 eexists. reflexivity.
Qed.

Lemma clean_project_canonical proj rx :
  clean_project proj = Ok rx -> Forall canonical_project rx.
Proof.
  destruct proj; simpl; intros H; ok_inv H; repeat constructor.
  do 3 eexists. reflexivity.
Qed.

Lemma clean_experience_canonical exp rx :
  clean_experience exp = Ok rx -> Forall canonical_experience rx.
Proof.
  destruct exp; simpl; intros H; ok_inv H; repeat constructor.
  do 5 eexists. reflexivity.
Qed.

Lemma clean_education_canonical edu rx :
  clean_education edu = Ok rx -> Forall canonical_education rx.
Proof.
  destruct edu; simpl; intros H; ok_inv H; repeat constructor.
  do 4 eexists. reflexivity.
Qed.

Lemma clean_skill_fixed v : canonical_skill v -> clean_skill v = Ok [v].
Proof. intros (name & n & ->). reflexivity. Qed.

Lemma clean_project_fixed v : canonical_project v -> clean_project v = Ok [v].
Proof. intros (t & ts & ps & ->). reflexivity. Qed.

Lemma clean_experience_fixed v :
  canonical_experience v -> clean_experience v = Ok [v].
Proof. intros (r & c & l & d & ps & ->). reflexivity. Qed.

Lemma clean_education_fixed v :
  canonical_education v -> clean_education v = Ok [v].
Proof. intros (dg & i & y & dt & ->). reflexivity. Qed.

(** A section that was cleaned is left unchanged by cleaning it again. *)
Lemma clean_section_fixed body (P : value -> Prop) data key r :
  (forall x rx, body x = Ok rx -> Forall P rx) ->
  (forall v, P v -> body v = Ok [v]) ->
  clean_section body data key = Ok r ->
  for_each body r = Ok r.
Proof.
  intros Hcanon Hfixed H. unfold clean_section in H. bind_inv H.
  apply for_each_fixed.
  eapply Forall_impl; [exact Hfixed |].
  eapply for_each_forall; eassumption.
Qed.

(** A document that normalisation returned is normalised to itself. *)
Lemma validate_and_clean_fixed raw user_profile out :
  _validate_and_clean raw user_profile = Ok out ->
  _validate_and_clean out user_profile = Ok out.
Proof.
  intros H. apply validate_and_clean_inv in H.
  destruct H as (name & title & ph & em & ad & we & li
                 & sk & pr & ex & ed & H).
  do 7 (destruct H as [_ H]). destruct H as (Hs & Hp & Hx & He & ->).
  erewrite validate_and_clean_intro; try reflexivity.
  - exact (clean_section_fixed _ _ _ _ _
             clean_skill_canonical clean_skill_fixed Hs).
  - exact (clean_section_fixed _ _ _ _ _
             clean_project_canonical clean_project_fixed Hp).
  - exact (clean_section_fixed _ _ _ _ _
             clean_experience_canonical clean_experience_fixed Hx).
  - exact (clean_section_fixed _ _ _ _ _
             clean_education_canonical clean_education_fixed He).
Qed.

(** C6.  Normalising the result of a normalisation with the same
    profile gives that result again: the second call, run on what the
    first returned, returns it unchanged, so the two calls in sequence
    are the first call alone. *)
Theorem validate_and_clean_idempotent raw user_profile :
  (out <- _validate_and_clean raw user_profile ;;
   _validate_and_clean out user_profile)
  = _validate_and_clean raw user_profile.
Proof.
  destruct (_validate_and_clean raw user_profile) as [out | e] eqn:H; simpl.
  - apply (validate_and_clean_fixed raw user_profile out H).
  - reflexivity.
Qed.

(* ================================================================== *)
(** * Properties of the renderer *)
(* ================================================================== *)

(** ** Occurrences of a text in a string *)

Lemma append_assoc (a b c : string) : (a ++ b) ++ c = a ++ b ++ c.
Proof. induction a as [| x a IH]; simpl; [| rewrite IH]; reflexivity. Qed.

Lemma append_nil_r (a : string) : a ++ "" = a.
Proof. induction a as [| x a IH]; simpl; [| rewrite IH]; reflexivity. Qed.

Lemma starts_with_app p r : starts_with p (p ++ r) = true.
Proof.
  induction p as [| x p IH]; simpl.
  - reflexivity.
  - rewrite Ascii.eqb_refl, IH. reflexivity.
Qed.

Lemma starts_with_split p s :
  starts_with p s = true -> exists r, s = p ++ r.
Proof.
  revert s. induction p as [| x p IH]; intros s H.
  - exists s. reflexivity.
  - destruct s as [| y s]; simpl in H; [discriminate |].
    apply andb_true_iff in H. destruct H as (Hxy & H).
    apply Ascii.eqb_eq in Hxy. subst y.
    destruct (IH s H) as (r & ->). exists r. reflexivity.
Qed.

Lemma contains_starts p s : starts_with p s = true -> contains p s = true.
Proof. intros H. destruct s; simpl; rewrite H; reflexivity. Qed.

Lemma contains_occurs p s : contains p s = true <-> occurs p s.
Proof.
  split.
  - induction s as [| c s IH]; simpl; intros H.
    + rewrite orb_false_r in H. apply starts_with_split in H.
      destruct H as (r & ->). exists "", r. reflexivity.
    + apply orb_true_iff in H. destruct H as [H | H].
      * apply starts_with_split in H. destruct H as (r & ->).
        exists "", r. reflexivity.
      * destruct (IH H) as (a & b & ->). exists (String c a), b. reflexivity.
  - intros (a & b & ->). induction a as [| c a IH]; simpl.
    + apply contains_starts, starts_with_app.
    + rewrite IH. apply orb_true_r.
Qed.

Lemma occurs_refl p : occurs p p.
Proof. exists "", "". simpl. rewrite append_nil_r. reflexivity. Qed.

Lemma occurs_app_l p s t : occurs p s -> occurs p (s ++ t).
Proof.
  intros (a & b & ->). exists a, (b ++ t).
  rewrite !append_assoc. reflexivity.
Qed.

Lemma occurs_app_r p s t : occurs p t -> occurs p (s ++ t).
Proof.
  intros (a & b & ->). exists (s ++ a), b.
  rewrite !append_assoc. reflexivity.
Qed.

Lemma flatten_app ps qs : flatten (ps ++ qs) = flatten ps ++ flatten qs.
Proof.
  induction ps as [| p ps IH]; simpl.
  - reflexivity.
  - rewrite IH, append_assoc. reflexivity.
Qed.

(** What occurs in a piece of a stream occurs in the rendered string. *)
Lemma occurs_flatten m p ps :
  In p ps -> occurs m (piece_text p) -> occurs m (flatten ps).
Proof.
  induction ps as [| q ps IH]; intros Hin Hm.
  - destruct Hin.
  - simpl. destruct Hin as [-> | Hin].
    + apply occurs_app_l, Hm.
    + apply occurs_app_r, IH; assumption.
Qed.

(** ** Section titles *)

(** C10.  Whatever the document, and so also when its five contact
    fields are empty, the rendered page has the title of the Contact
    section: the title is outside every conditional of the template. *)
Theorem contact_title_is_always_rendered (doc : Resume) :
  contains (section_title "Contact") (render doc) = true
  /\ contains (section_title "Contact") (generate_html_preview doc) = true.
Proof.
  assert (H : occurs (section_title "Contact") (render doc)).
  { unfold render, render_stream. rewrite flatten_app.
    apply occurs_app_l.
    apply occurs_flatten with (p := Markup banner_close_contact_open).
    - unfold banner. do 6 right. left. reflexivity.
    - apply contains_occurs. vm_compute. reflexivity. }
  apply contains_occurs in H. split; exact H.
Qed.

(** ** Skill bars *)

Lemma flat_map_in_split {A : Type} (f : A -> list piece) (l : list A) x :
  In x l -> exists before after, flat_map f l = (before ++ f x ++ after)%list.
Proof.
  intros H. apply in_split in H. destruct H as (l1 & l2 & ->).
  exists (flat_map f l1), (flat_map f l2).
  rewrite flat_map_app. reflexivity.
Qed.

Lemma skill_item_has_fill (skill : Skill) :
  occurs (skill_fill (decimal (level skill))) (flatten (skill_item skill)).
Proof.
  unfold skill_item, skill_fill. cbn [flatten piece_text].
  generalize (decimal (level skill)). intros w.
  assert (E1 : exists x,
             skill_level_close
             = x ++ markup ["<div class='skill-fill' style='width: "]).
  { exists (String.substring 0
              (String.length skill_level_close
               - String.length
                   (markup ["<div class='skill-fill' style='width: "]))
              skill_level_close).
    vm_compute. reflexivity. }
  assert (E2 : exists y, skill_item_close = markup ["%;'></div>"] ++ y).
  { apply starts_with_split. vm_compute. reflexivity. }
  destruct E1 as (x & E1). destruct E2 as (y & E2). rewrite E1, E2.
  exists (skill_item_open ++ skill_name skill ++ skill_name_close
          ++ w ++ x), y.
  rewrite !append_assoc, append_nil_r. reflexivity.
Qed.

Lemma skills_section_has_fill (l : list Skill) (skill : Skill) :
  In skill l ->
  occurs (skill_fill (decimal (level skill))) (flatten (skills_section l)).
Proof.
  intros Hin. unfold skills_section.
  assert (Hp : populated l = true) by (destruct l; [destruct Hin | reflexivity]).
  rewrite Hp. unfold when, for_in.
  destruct (flat_map_in_split skill_item _ _ Hin) as (b & a & ->).
  rewrite !flatten_app.
  apply occurs_app_r, occurs_app_l, occurs_app_r, occurs_app_l.
  apply skill_item_has_fill.
Qed.

(** C8.  For every skill of the document, the rendered page has a bar
    whose filled part has for width, in percent, the level of the skill
    in decimal. *)
Theorem skill_bar_width_is_level (doc : Resume) (skill : Skill) :
  In skill (skills doc) ->
  contains (skill_fill (decimal (level skill))) (render doc) = true.
Proof.
  intros Hin. apply contains_occurs.
  unfold render, render_stream.
  rewrite !flatten_app.
  do 7 apply occurs_app_r. apply occurs_app_l.
  apply skills_section_has_fill, Hin.
Qed.

Lemma skill_bar_width_is_level_witness :
  contains
    (skill_fill (decimal (level {| skill_name := "Python"; level := 37 |})))
    (render
       {| header := {| header_name := "Jane Doe"; header_title := "" |};
          contact := {| phone := ""; email := "jane@x.com"; address := "";
                        website := ""; linkedin := "" |};
          summary := "";
          skills := [{| skill_name := "Python"; level := 37 |}];
          projects := []; experience := []; education := [] |})
  = true.
Proof.
  apply (skill_bar_width_is_level
           {| header := {| header_name := "Jane Doe"; header_title := "" |};
              contact := {| phone := ""; email := "jane@x.com";
                            address := ""; website := ""; linkedin := "" |};
              summary := "";
              skills := [{| skill_name := "Python"; level := 37 |}];
              projects := []; experience := []; education := [] |}
           {| skill_name := "Python"; level := 37 |}).
  left. reflexivity.
Defined.

(** For a conformant document the width of every bar is a level from 0
    to 100: level 0 gives an empty bar and level 100 a full one. *)
Corollary skill_bar_within_track (doc : Resume) (skill : Skill) :
  conformant doc -> In skill (skills doc) ->
  exists n, (0 <= n <= 100)%Z
            /\ contains (skill_fill (decimal n)) (render doc) = true.
Proof.
  intros Hc Hin. exists (level skill). split.
  - unfold conformant in Hc. rewrite Forall_forall in Hc. exact (Hc skill Hin).
  - apply contains_occurs. unfold render, render_stream.
    rewrite !flatten_app. do 7 apply occurs_app_r. apply occurs_app_l.
    apply skills_section_has_fill, Hin.
Qed.

Example skill_bar_widths :
  let doc :=
    {| header := {| header_name := "Jane Doe"; header_title := "" |};
       contact := {| phone := ""; email := ""; address := "";
                     website := ""; linkedin := "" |};
       summary := "";
       skills := [{| skill_name := "Rocq"; level := 0 |};
                  {| skill_name := "Python"; level := 37 |};
                  {| skill_name := "SQL"; level := 100 |}];
       projects := []; experience := []; education := [] |} in
  contains (skill_fill "0") (render doc) = true
  /\ contains (skill_fill "37") (render doc) = true
  /\ contains (skill_fill "100") (render doc) = true
  /\ contains (skill_fill "38") (render doc) = false.
Proof. vm_compute. repeat split. Qed.

(** ** Sections and their blocks *)

Lemma count_markup_nil m : count_markup m [] = 0.
Proof. reflexivity. Qed.

Lemma count_markup_app m ps qs :
  count_markup m (ps ++ qs) = count_markup m ps + count_markup m qs.
Proof. unfold count_markup. rewrite map_app, list_sum_app. reflexivity. Qed.

Lemma count_markup_text m t ps :
  count_markup m (Text t :: ps) = count_markup m ps.
Proof. reflexivity. Qed.

Lemma count_markup_markup m c ps :
  count_markup m (Markup c :: ps) = occurrences m c + count_markup m ps.
Proof. reflexivity. Qed.

Lemma count_markup_when m (b : bool) ps :
  count_markup m (when b ps) = if b then count_markup m ps else 0.
Proof. destruct b; reflexivity. Qed.

Lemma count_markup_for_in_zero {A : Type} m (l : list A) body :
  (forall x, count_markup m (body x) = 0) ->
  count_markup m (for_in l body) = 0.
Proof.
  intros H. unfold for_in. induction l as [| x l IH]; simpl.
  - reflexivity.
  - rewrite count_markup_app, H, IH. reflexivity.
Qed.

Lemma count_markup_for_in_one {A : Type} m (l : list A) body :
  (forall x, count_markup m (body x) = 1) ->
  count_markup m (for_in l body) = List.length l.
Proof.
  intros H. unfold for_in. induction l as [| x l IH]; simpl.
  - reflexivity.
  - rewrite count_markup_app, H, IH. reflexivity.
Qed.

Lemma if_same {A : Type} (b : bool) (x : A) : (if b then x else x) = x.
Proof. destruct b; reflexivity. Qed.

(** Evaluation of [occurrences marker chunk] on closed texts. *)
Ltac eval_occurrences :=
  repeat match goal with
  | |- context [occurrences ?a ?b] =>
      let v := eval vm_compute in (occurrences a b) in
      replace (occurrences a b) with v by (vm_compute; reflexivity)
  end.

Ltac count_push :=
  repeat first
    [ rewrite count_markup_app | rewrite count_markup_when
    | rewrite count_markup_text | rewrite count_markup_markup
    | rewrite count_markup_nil ].

Ltac unfold_sections :=
  unfold render_stream, banner, contact_rows, contact_row, summary_section,
    education_section, education_item, skills_section, skill_item,
    experience_section, experience_item, projects_section, project_item,
    point_item.

(** Counts the marker through the structure of the template. *)
Ltac count_solve :=
  intros; cbv beta; unfold_sections;
  repeat (count_push;
          try (first [ rewrite count_markup_for_in_zero by count_solve
                     | rewrite count_markup_for_in_one by count_solve ]));
  eval_occurrences; cbn [Nat.add Nat.mul populated];
  rewrite ?if_same; cbn [Nat.add Nat.mul];
  repeat match goal with
         | |- context [if ?b then _ else _] => destruct b
         end;
  try reflexivity; try lia.

Lemma count_projects_title doc :
  count_markup (section_title "Projects") (render_stream doc)
  = if populated (projects doc) then 1 else 0.
Proof. count_solve. Qed.

Lemma count_experience_title doc :
  count_markup (section_title "Professional Experience") (render_stream doc)
  = if populated (experience doc) then 1 else 0.
Proof. count_solve. Qed.

Lemma count_education_title doc :
  count_markup (section_title "Education") (render_stream doc)
  = if populated (education doc) then 1 else 0.
Proof. count_solve. Qed.

Lemma count_skills_title doc :
  count_markup (section_title "Relevant Skills") (render_stream doc)
  = if populated (skills doc) then 1 else 0.
Proof. count_solve. Qed.

Lemma count_summary_title doc :
  count_markup (section_title "Summary") (render_stream doc)
  = if filled (summary doc) then 1 else 0.
Proof. count_solve. Qed.

Lemma count_contact_title doc :
  count_markup (section_title "Contact") (render_stream doc) = 1.
Proof. count_solve. Qed.

Lemma count_project_blocks doc :
  count_markup project_block (render_stream doc)
  = List.length (projects doc).
Proof.
  destruct doc as [h c s sk pr ex ed]. unfold render_stream.
  cbn [header contact summary skills projects experience education].
  destruct pr as [| p pr]; count_solve.
Qed.

(** In the template's own text of the stream rendered for a document,
    the title of the Projects section is absent when the document has
    no project and occurs once otherwise, and there is one project
    block for each project.  In the same way the titles of the
    Professional Experience, Education and Relevant Skills sections are
    absent when their lists are empty, and the title of the Summary
    section when the summary is empty.  The texts bound from the
    document are not counted here. *)
Lemma template_omits_empty_sections (doc : Resume) :
  count_markup (section_title "Projects") (render_stream doc)
  = (if populated (projects doc) then 1 else 0)
  /\ count_markup project_block (render_stream doc)
     = List.length (projects doc)
  /\ count_markup (section_title "Professional Experience")
       (render_stream doc)
     = (if populated (experience doc) then 1 else 0)
  /\ count_markup (section_title "Education") (render_stream doc)
     = (if populated (education doc) then 1 else 0)
  /\ count_markup (section_title "Relevant Skills") (render_stream doc)
     = (if populated (skills doc) then 1 else 0)
  /\ count_markup (section_title "Summary") (render_stream doc)
     = (if filled (summary doc) then 1 else 0).
Proof.
  repeat split.
  - apply count_projects_title.
  - apply count_project_blocks.
  - apply count_experience_title.
  - apply count_education_title.
  - apply count_skills_title.
  - apply count_summary_title.
Qed.

(** ** Occurrences in the rendered page

    The stream is joined into one string.  For a document none of whose
    texts has the character [<], the occurrences of a tag in the page
    are the occurrences in the template's own text: a text cannot hold a
    tag, and no piece of template text stops in the middle of a
    beginning of one. *)

Lemma starts_with_app_mono m t r :
  starts_with m t = true -> starts_with m (t ++ r) = true.
Proof.
  intros H. apply starts_with_split in H. destruct H as (u & ->).
  rewrite append_assoc. apply starts_with_app.
Qed.

(** A beginning of [t ++ r] lies in [t], or [t] is a beginning of it. *)
Lemma starts_with_app_cases m t r :
  starts_with m (t ++ r) = true ->
  starts_with m t = true \/ starts_with t m = true.
Proof.
  revert t. induction m as [| a m IH]; intros t H.
  - left. reflexivity.
  - destruct t as [| b t].
    + right. reflexivity.
    + simpl in H. apply andb_true_iff in H. destruct H as (Hab & H).
      simpl. rewrite Hab. rewrite Ascii.eqb_sym in Hab. rewrite Hab.
      simpl. exact (IH t H).
Qed.

Lemma occurrences_app m t r :
  dangling m t = false ->
  occurrences m (t ++ r) = occurrences m t + occurrences m r.
Proof.
  induction t as [| c t IH]; intros H.
  - reflexivity.
  - cbn [dangling] in H. apply orb_false_iff in H. destruct H as (Hhead & H).
    change (String c t ++ r) with (String c (t ++ r)).
    cbn [occurrences]. rewrite (IH H).
    assert (E : starts_with m (String c (t ++ r))
                = starts_with m (String c t)).
    { destruct (starts_with m (String c t)) eqn:Hin.
      - exact (starts_with_app_mono m (String c t) r Hin).
      - destruct (starts_with m (String c (t ++ r))) eqn:Hout;
          [| reflexivity].
        destruct (starts_with_app_cases m (String c t) r Hout) as [K | K].
        + rewrite K in Hin. discriminate Hin.
        + rewrite K in Hhead. rewrite ?Hin in Hhead. discriminate Hhead. }
    rewrite E. lia.
Qed.

(** A tag does not start in a text that has no [<]. *)
Lemma plain_has_no_tag m t :
  starts_with "<" m = true -> plain t = true ->
  occurrences m t = 0 /\ dangling m t = false.
Proof.
  intros Hm. destruct m as [| a m]; [discriminate Hm |].
  cbn [starts_with] in Hm. rewrite andb_true_r in Hm.
  apply Ascii.eqb_eq in Hm. subst a.
  unfold plain. induction t as [| c t IH]; intros H.
  - split; reflexivity.
  - cbn [has_char] in H. rewrite negb_orb in H.
    apply andb_true_iff in H. destruct H as (Hc & H).
    apply negb_true_iff in Hc. destruct (IH H) as (IH1 & IH2).
    cbn [occurrences dangling starts_with].
    rewrite Hc, IH1, IH2. rewrite Ascii.eqb_sym in Hc. rewrite Hc.
    split; reflexivity.
Qed.

(** The occurrences of a tag in the page of a stream whose texts have no
    [<] and whose template text leaves no beginning of the tag open. *)
Lemma occurrences_flatten m ps :
  starts_with "<" m = true ->
  forallb plain_text ps = true ->
  forallb (closed_markup m) ps = true ->
  occurrences m (flatten ps) = count_markup m ps.
Proof.
  intros Hm. induction ps as [| p ps IH]; intros Hp Hc.
  - reflexivity.
  - cbn [forallb] in Hp, Hc.
    apply andb_true_iff in Hp. destruct Hp as (Hp1 & Hp).
    apply andb_true_iff in Hc. destruct Hc as (Hc1 & Hc).
    cbn [flatten]. destruct p as [c | t]; cbn [piece_text].
    + rewrite count_markup_markup.
      rewrite occurrences_app by (apply negb_true_iff, Hc1).
      rewrite (IH Hp Hc). reflexivity.
    + rewrite count_markup_text.
      destruct (plain_has_no_tag m t Hm Hp1) as (H0 & Hd).
      rewrite occurrences_app by exact Hd.
      rewrite H0, (IH Hp Hc). reflexivity.
Qed.

(** *** The template text leaves no tag open *)

Lemma forallb_cons_true {A : Type} (P : A -> bool) x l :
  P x = true -> forallb P l = true -> forallb P (x :: l) = true.
Proof. intros Hx Hl. simpl. rewrite Hx, Hl. reflexivity. Qed.

Lemma forallb_when_true (P : piece -> bool) (b : bool) ps :
  forallb P ps = true -> forallb P (when b ps) = true.
Proof. destruct b; [trivial | reflexivity]. Qed.

Lemma forallb_for_in {A : Type} (P : piece -> bool) (l : list A) body :
  (forall x, In x l -> forallb P (body x) = true) ->
  forallb P (for_in l body) = true.
Proof.
  unfold for_in. induction l as [| x l IH]; intros H; simpl.
  - reflexivity.
  - rewrite forallb_app, (H x (or_introl eq_refl)), IH; [reflexivity |].
    intros y Hy. apply H. right. exact Hy.
Qed.

(** Checks a property of the pieces through the structure of the
    template; [piece] proves it of one piece. *)
Ltac stream_check piece :=
  intros; cbv beta; unfold_sections;
  repeat first
    [ rewrite forallb_app; apply andb_true_intro; split
    | apply forallb_when_true
    | apply forallb_for_in; intros; cbv beta
    | apply forallb_cons_true; [piece |]
    | reflexivity ].

Ltac closed_check := stream_check ltac:(vm_compute; reflexivity).

Lemma closed_projects_title doc :
  forallb (closed_markup (section_title "Projects")) (render_stream doc)
  = true.
Proof. closed_check. Qed.

Lemma closed_project_block doc :
  forallb (closed_markup project_block) (render_stream doc) = true.
Proof. closed_check. Qed.

Lemma closed_experience_title doc :
  forallb (closed_markup (section_title "Professional Experience"))
    (render_stream doc) = true.
Proof. closed_check. Qed.

Lemma closed_education_title doc :
  forallb (closed_markup (section_title "Education")) (render_stream doc)
  = true.
Proof. closed_check. Qed.

Lemma closed_skills_title doc :
  forallb (closed_markup (section_title "Relevant Skills"))
    (render_stream doc) = true.
Proof. closed_check. Qed.

Lemma closed_summary_title doc :
  forallb (closed_markup (section_title "Summary")) (render_stream doc)
  = true.
Proof. closed_check. Qed.

(** *** The texts of a plain document *)

Lemma has_char_app c a b :
  has_char c (a ++ b) = has_char c a || has_char c b.
Proof.
  induction a as [| x a IH]; simpl.
  - reflexivity.
  - rewrite IH, orb_assoc. reflexivity.
Qed.

Lemma plain_app a b : plain a = true -> plain b = true -> plain (a ++ b) = true.
Proof.
  unfold plain. rewrite has_char_app, negb_orb. intros -> ->. reflexivity.
Qed.

Lemma upper_char_angle c :
  Ascii.eqb "<" (upper_char c) = Ascii.eqb "<" c.
Proof. destruct c as [[] [] [] [] [] [] [] []]; reflexivity. Qed.

Lemma plain_upper s : plain (upper s) = plain s.
Proof.
  unfold plain. f_equal. induction s as [| c s IH]; cbn [upper has_char].
  - reflexivity.
  - rewrite upper_char_angle, IH. reflexivity.
Qed.

Lemma plain_digits u : plain (NilEmpty.string_of_uint u) = true.
Proof.
  unfold plain. induction u; simpl; try reflexivity; exact IHu.
Qed.

Lemma plain_decimal n : plain (decimal n) = true.
Proof.
  unfold decimal, NilZero.string_of_int, NilZero.string_of_uint.
  destruct (Z.to_int n) as [u | u]; destruct u; try reflexivity;
    first [ apply plain_digits
          | apply (plain_app "-"); [reflexivity | apply plain_digits] ].
Qed.

Lemma plain_join l : forallb plain l = true -> plain (join ", " l) = true.
Proof.
  unfold join. induction l as [| x l IH]; intros H.
  - reflexivity.
  - cbn [forallb] in H. apply andb_true_iff in H. destruct H as (Hx & Hl).
    destruct l as [| y l]; [exact Hx |].
    change (String.concat ", " (x :: y :: l))
      with (x ++ ", " ++ String.concat ", " (y :: l)).
    apply plain_app; [exact Hx |].
    apply plain_app; [reflexivity | exact (IH Hl)].
Qed.

Ltac split_andb :=
  repeat match goal with
         | H : _ && _ = true |- _ =>
             apply andb_true_iff in H; destruct H
         end.

(** The hypotheses on the element of a list that a loop visits. *)
Ltac visit :=
  match goal with
  | H : forallb ?P ?l = true, Hx : In ?x ?l |- _ =>
      let K := fresh "K" in
      pose proof (proj1 (forallb_forall P l) H x Hx) as K;
      clear Hx; cbv beta in K;
      try unfold plain_education, plain_skill, plain_experience,
        plain_project in K;
      split_andb
  end.

Ltac plain_piece :=
  cbn [plain_text];
  first [ reflexivity | assumption
        | rewrite plain_upper; assumption
        | apply plain_decimal
        | apply plain_join; assumption ].

Lemma plain_stream doc :
  plain_doc doc = true -> forallb plain_text (render_stream doc) = true.
Proof.
  unfold plain_doc. intros H. split_andb.
  stream_check ltac:(repeat visit; plain_piece).
Qed.

(** C7, counterexample.  A text of the document that holds markup is
    copied to the page as it is.  The first document has no project and
    the page has the title of the Projects section, from its summary;
    the second has one project and the page has two project blocks, one
    of them from the title of the project. *)
Lemma markup_in_text_is_rendered :
  conformant title_in_summary
  /\ projects title_in_summary = []
  /\ occurrences (section_title "Projects") (render title_in_summary) = 1
  /\ contains (section_title "Projects") (render title_in_summary) = true
  /\ conformant block_in_title
  /\ List.length (projects block_in_title) = 1
  /\ occurrences project_block (render block_in_title) = 2.
Proof.
  repeat split; try apply Forall_nil; vm_compute; reflexivity.
Qed.

(** C7, amended.  In the page rendered for a document whose texts have
    no [<], the title of the Projects section is absent when the
    document has no project and occurs once otherwise, and the project
    blocks are as many as the projects, so exactly one for a single
    project.  In the same way the titles of the Professional Experience,
    Education and Relevant Skills sections are absent when their lists
    are empty and occur once otherwise, and so is the title of the
    Summary section for the summary. *)
Theorem empty_sections_are_omitted (doc : Resume) :
  plain_doc doc = true ->
  occurrences (section_title "Projects") (render doc)
  = (if populated (projects doc) then 1 else 0)
  /\ occurrences project_block (render doc) = List.length (projects doc)
  /\ occurrences (section_title "Professional Experience") (render doc)
     = (if populated (experience doc) then 1 else 0)
  /\ occurrences (section_title "Education") (render doc)
     = (if populated (education doc) then 1 else 0)
  /\ occurrences (section_title "Relevant Skills") (render doc)
     = (if populated (skills doc) then 1 else 0)
  /\ occurrences (section_title "Summary") (render doc)
     = (if filled (summary doc) then 1 else 0).
Proof.
  intros H. apply plain_stream in H. unfold render.
  repeat split.
  - rewrite occurrences_flatten;
      [apply count_projects_title | reflexivity | exact H
       | apply closed_projects_title].
  - rewrite occurrences_flatten;
      [apply count_project_blocks | reflexivity | exact H
       | apply closed_project_block].
  - rewrite occurrences_flatten;
      [apply count_experience_title | reflexivity | exact H
       | apply closed_experience_title].
  - rewrite occurrences_flatten;
      [apply count_education_title | reflexivity | exact H
       | apply closed_education_title].
  - rewrite occurrences_flatten;
      [apply count_skills_title | reflexivity | exact H
       | apply closed_skills_title].
  - rewrite occurrences_flatten;
      [apply count_summary_title | reflexivity | exact H
       | apply closed_summary_title].
Qed.

Lemma empty_sections_are_omitted_witness :
  occurrences (section_title "Projects") (render jane_doe)
  = (if populated (projects jane_doe) then 1 else 0)
  /\ occurrences project_block (render jane_doe)
     = List.length (projects jane_doe)
  /\ occurrences (section_title "Professional Experience") (render jane_doe)
     = (if populated (experience jane_doe) then 1 else 0)
  /\ occurrences (section_title "Education") (render jane_doe)
     = (if populated (education jane_doe) then 1 else 0)
  /\ occurrences (section_title "Relevant Skills") (render jane_doe)
     = (if populated (skills jane_doe) then 1 else 0)
  /\ occurrences (section_title "Summary") (render jane_doe)
     = (if filled (summary jane_doe) then 1 else 0).
Proof.
  apply (empty_sections_are_omitted jane_doe). reflexivity.
Defined.

(* ================================================================== *)
(** * Properties of PDF generation and validation *)
(* ================================================================== *)

(** ** Rasterization errors *)

Section RasterizerFacts.

Variable open_error : string -> option string.

Variable CreatePDF : string -> rasterization.

(** The cases of [generate_pdf]: [open] raises; the rasterizer returns
    without an error, returns with errors, or raises. *)
Lemma generate_pdf_cases output_dir timestamp doc filename fs :
  generate_pdf open_error CreatePDF output_dir timestamp doc filename fs
  = match open_error (pdf_path output_dir timestamp doc filename) with
    | Some message =>
        (fs,
         [("status", VStr "error");
          ("message", VStr ("Failed to generate PDF: " ++ message));
          ("file_path", VNone)])
    | None =>
        ((pdf_path output_dir timestamp doc filename,
          written (CreatePDF (render doc))) :: fs,
         match completion_of (CreatePDF (render doc)) with
         | Returned 0 =>
             [("status", VStr "success");
              ("file_path",
               VStr (pdf_path output_dir timestamp doc filename));
              ("filename", VStr (pdf_filename timestamp doc filename));
              ("message", VStr "Resume PDF generated successfully")]
         | Returned (S err) =>
             [("status", VStr "error");
              ("message",
               VStr ("PDF generation had errors: "
                     ++ decimal (Z.of_nat (S err))));
              ("file_path", VNone)]
         | Failed message =>
             [("status", VStr "error");
              ("message", VStr ("Failed to generate PDF: " ++ message));
              ("file_path", VNone)]
         end)
    end.
Proof.
  unfold generate_pdf, pdf_path, pdf_filename. cbv zeta.
  destruct (open_error _); [reflexivity |].
  destruct (completion_of (CreatePDF (render doc))) as [[| err] | message];
    reflexivity.
Qed.

(** When [open] raises, [generate_pdf] answers with the status [error],
    the text of the exception and no file path; no file is written and
    the rasterizer has no part in the answer. *)
Lemma generate_pdf_reports_open_failure output_dir timestamp doc filename fs
    message :
  open_error (pdf_path output_dir timestamp doc filename) = Some message ->
  generate_pdf open_error CreatePDF output_dir timestamp doc filename fs
  = (fs,
     [("status", VStr "error");
      ("message", VStr ("Failed to generate PDF: " ++ message));
      ("file_path", VNone)]).
Proof. intros H. rewrite generate_pdf_cases, H. reflexivity. Qed.

(** When the rasterizer returns a status with errors, [generate_pdf]
    answers with the status [error], a message with the error count and
    no file path; the file it opened stays, with what was written. *)
Lemma generate_pdf_reports_errors output_dir timestamp doc filename fs err :
  open_error (pdf_path output_dir timestamp doc filename) = None ->
  completion_of (CreatePDF (render doc)) = Returned (S err) ->
  generate_pdf open_error CreatePDF output_dir timestamp doc filename fs
  = ((pdf_path output_dir timestamp doc filename,
      written (CreatePDF (render doc))) :: fs,
     [("status", VStr "error");
      ("message",
       VStr ("PDF generation had errors: " ++ decimal (Z.of_nat (S err))));
      ("file_path", VNone)]).
Proof. intros Ho H. rewrite generate_pdf_cases, Ho, H. reflexivity. Qed.

(** When the rasterizer raises, [generate_pdf] answers with the status
    [error], the text of the exception and no file path. *)
Lemma generate_pdf_reports_exceptions output_dir timestamp doc filename fs
    message :
  open_error (pdf_path output_dir timestamp doc filename) = None ->
  completion_of (CreatePDF (render doc)) = Failed message ->
  generate_pdf open_error CreatePDF output_dir timestamp doc filename fs
  = ((pdf_path output_dir timestamp doc filename,
      written (CreatePDF (render doc))) :: fs,
     [("status", VStr "error");
      ("message", VStr ("Failed to generate PDF: " ++ message));
      ("file_path", VNone)]).
Proof. intros Ho H. rewrite generate_pdf_cases, Ho, H. reflexivity. Qed.

(** [generate_pdf_bytes] returns what the rasterizer wrote whenever the
    rasterizer returns, whatever the error count of its status. *)
Lemma generate_pdf_bytes_returns_buffer doc err :
  completion_of (CreatePDF (render doc)) = Returned err ->
  generate_pdf_bytes CreatePDF doc = Ok (written (CreatePDF (render doc))).
Proof. intros H. unfold generate_pdf_bytes. rewrite H. reflexivity. Qed.

End RasterizerFacts.

(** C3.  With a rasterizer that reports an error after writing part of
    the document, [generate_pdf] signals the failure (status [error], the
    error count in the message, no file path), while
    [generate_pdf_bytes] returns the partial bytes as its result.  The
    file of [generate_pdf] is in the output directory and can be
    opened. *)
Theorem generate_pdf_bytes_returns_partial_output :
  generate_pdf_bytes failing_rasterizer jane_doe
  = Ok "%PDF-1.4 (truncated)"
  /\ snd (generate_pdf writable failing_rasterizer "resumes"
            "20260101_093000" jane_doe None [])
     = [("status", VStr "error");
        ("message", VStr "PDF generation had errors: 1");
        ("file_path", VNone)]
  /\ fst (generate_pdf writable failing_rasterizer "resumes"
            "20260101_093000" jane_doe None [])
     = [("resumes/jane_doe_20260101_093000.pdf", "%PDF-1.4 (truncated)")].
Proof. repeat split; vm_compute; reflexivity. Qed.

(** A file name with a directory that does not exist: [open] raises,
    the answer has the text of the exception, and no file is written,
    whatever the rasterizer would do. *)
Example open_failure_is_reported :
  generate_pdf resumes_only working_rasterizer "resumes" "20260101_093000"
    jane_doe (Some "/no/such/dir/cv") []
  = ([],
     [("status", VStr "error");
      ("message",
       VStr ("Failed to generate PDF: [Errno 2] No such file or directory: "
             ++ "'/no/such/dir/cv.pdf'"));
      ("file_path", VNone)]).
Proof. vm_compute. reflexivity. Qed.

(** ** Validation *)

(** The fields reported missing are the absent ones of the six fields
    of [required_structure]. *)
Lemma missing_fields_spec data field :
  In field (missing_fields data)
  <-> In field required_structure /\ contains_key data field = false.
Proof.
  unfold missing_fields. rewrite filter_In, negb_true_iff. reflexivity.
Qed.

Lemma projects_never_missing data : ~ In "projects" (missing_fields data).
Proof.
  rewrite missing_fields_spec. intros (H & _).
  repeat (destruct H as [H | H]; [discriminate H |]). destruct H.
Qed.

(** The result is valid exactly when none of the six fields is absent. *)
Lemma validate_resume_data_valid data :
  lookup "valid" (validate_resume_data data)
  = Some (VBool (forallb (contains_key data) required_structure)).
Proof.
  unfold validate_resume_data, missing_fields, required_structure.
  cbn [lookup String.eqb Ascii.eqb Bool.eqb filter forallb].
  repeat (destruct (contains_key data _)); reflexivity.
Qed.

(** C4.  A document that has the six fields of [required_structure]
    and no [projects] is reported valid, with no missing field. *)
Theorem validate_resume_data_ignores_projects :
  validate_resume_data
    [("header", VDict [("name", VStr "Jane Doe"); ("title", VStr "")]);
     ("contact", VDict []);
     ("summary", VStr "");
     ("skills", VList []);
     ("experience", VList []);
     ("education", VList [])]
  = [("valid", VBool true);
     ("missing_fields", VList []);
     ("message", VStr "Valid resume data")].
Proof. vm_compute. reflexivity. Qed.

(** A document without [header] and [skills] is reported invalid, and
    the message prints the list of the missing fields. *)
Example validate_resume_data_missing :
  validate_resume_data [("contact", VDict []); ("summary", VStr "");
                        ("experience", VList []); ("education", VList [])]
  = [("valid", VBool false);
     ("missing_fields", VList [VStr "header"; VStr "skills"]);
     ("message", VStr "Missing fields: ['header', 'skills']")].
Proof. vm_compute. reflexivity. Qed.

(* ================================================================== *)
(** * More about the normaliser *)
(* ================================================================== *)

(** ** When the call returns and when it raises *)

Lemma py_int_errors v e :
  py_int v = Raise e -> e = TypeError \/ e = ValueError \/ e = OverflowError.
Proof.
  destruct v; simpl; intros H; try (injection H as <-; auto; fail).
  - destruct b; discriminate H.
  - discriminate H.
  - unfold int_of_float in H.
    destruct (Prim2SF x); try discriminate H; injection H as <-; auto.
  - unfold int_of_string in H.
    destruct (match strip s with
              | String "-" ds => option_map Z.opp (digits_value false 0%Z ds)
              | String "+" ds => digits_value false 0%Z ds
              | _ => digits_value false 0%Z (strip s)
              end); [discriminate H | injection H as <-; auto].
Qed.

Lemma for_each_raise body l e :
  for_each body l = Raise e -> exists x, In x l /\ body x = Raise e.
Proof.
  induction l as [| y l IH]; simpl; intros H.
  - discriminate H.
  - destruct (body y) as [ry | ey] eqn:Hy; simpl in H.
    + destruct (for_each body l) as [r | e'] eqn:Hl; simpl in H.
      * discriminate H.
      * injection H as ->. destruct (IH eq_refl) as (x & Hx & Hb).
        exists x. split; [right; exact Hx | exact Hb].
    + injection H as ->. exists y. split; [left; reflexivity | exact Hy].
Qed.

Lemma iterate_raise v e : iterate v = Raise e -> e = TypeError.
Proof. destruct v; simpl; intros H; congruence. Qed.

Lemma clean_section_ok body data key r :
  clean_section body data key = Ok r ->
  exists entries,
    iterate (get data key (VList [])) = Ok entries
    /\ for_each body entries = Ok r.
Proof. unfold clean_section. intros H. bind_inv H. eauto. Qed.

Lemma clean_section_raise body data key e :
  clean_section body data key = Raise e ->
  e = TypeError
  \/ exists entries x,
       iterate (get data key (VList [])) = Ok entries
       /\ In x entries /\ body x = Raise e.
Proof.
  unfold clean_section. intros H.
  destruct (iterate (get data key (VList []))) as [entries | e'] eqn:Hi;
    simpl in H.
  - right. apply for_each_raise in H. destruct H as (x & Hx & Hb). eauto.
  - left. injection H as <-. exact (iterate_raise _ _ Hi).
Qed.

Lemma clean_skill_raise skill e :
  clean_skill skill = Raise e ->
  e = TypeError \/ e = ValueError \/ e = OverflowError.
Proof.
  destruct skill; simpl; intros H; try discriminate H.
  destruct (py_int (get d "level" (VInt 50))) as [n | e'] eqn:Hn;
    simpl in H; [discriminate H |].
  injection H as <-. exact (py_int_errors _ _ Hn).
Qed.

Lemma clean_project_ok proj : exists r, clean_project proj = Ok r.
Proof. destruct proj; simpl; eauto. Qed.

Lemma clean_experience_ok exp : exists r, clean_experience exp = Ok r.
Proof. destruct exp; simpl; eauto. Qed.

Lemma clean_education_ok edu : exists r, clean_education edu = Ok r.
Proof. destruct edu; simpl; eauto. Qed.

Lemma get_in_ok data section key default v :
  get_in data section key default = Ok v ->
  exists d, get data section (VDict []) = VDict d /\ v = get d key default.
Proof.
  unfold get_in. intros H. bind_inv H. ok_inv H.
  destruct (get data section (VDict [])); try discriminate E.
  injection E as ->. eauto.
Qed.

Lemma get_in_dict data section key default d :
  get data section (VDict []) = VDict d ->
  get_in data section key default = Ok (get d key default).
Proof. unfold get_in. intros ->. reflexivity. Qed.

Lemma clean_section_iterable body data key :
  iterable data key ->
  (forall entries x,
      iterate (get data key (VList [])) = Ok entries -> In x entries ->
      exists rx, body x = Ok rx) ->
  exists r, clean_section body data key = Ok r.
Proof.
  intros (entries & He) Hbody. unfold clean_section. rewrite He. simpl.
  apply for_each_total. intros x Hx. exact (Hbody entries x He Hx).
Qed.

(** X1.  [_validate_and_clean] returns a document exactly when the
    header and the contact of the input are absent or dictionaries, its
    four sections are absent or can be iterated (a list, a string or a
    dictionary) and [int] accepts the level of every dictionary among
    the skills.  The profile plays no part in it. *)
Theorem validate_and_clean_returns_iff data user_profile :
  (exists out, _validate_and_clean data user_profile = Ok out)
  <-> shaped data.
Proof.
  split.
  - intros (out & H). apply validate_and_clean_inv in H.
    destruct H as (name & title & ph & em & ad & we & li
                   & sk & pr & ex & ed & H).
    destruct H as (Hn & _ & Hp & _ & _ & _ & _ & Hs & Hpr & Hex & Hed & _).
    apply get_in_ok in Hn. destruct Hn as (h & Hh & _).
    apply get_in_ok in Hp. destruct Hp as (c & Hc & _).
    apply clean_section_ok in Hs. destruct Hs as (es & Hes & Hfs).
    apply clean_section_ok in Hpr. destruct Hpr as (ep & Hep & _).
    apply clean_section_ok in Hex. destruct Hex as (ee & Hee & _).
    apply clean_section_ok in Hed. destruct Hed as (ed' & Hed' & _).
    repeat split; try (eexists; eassumption).
    intros entries d He Hin. rewrite Hes in He. injection He as <-.
    destruct (for_each_in _ _ _ _ Hfs Hin) as (rx & Hx & _).
    simpl in Hx. bind_inv Hx. eauto.
  - intros (Hh & Hc & Hs & Hp & Hx & He & Hl).
    destruct (get_in_mapping data "header" "name"
                (get user_profile "name" (VStr "")) Hh) as (name & H1).
    destruct (get_in_mapping data "header" "title" (VStr "") Hh)
      as (title & H2).
    destruct (get_in_mapping data "contact" "phone"
                (get user_profile "phone" (VStr "")) Hc) as (ph & H3).
    destruct (get_in_mapping data "contact" "email"
                (get user_profile "email" (VStr "")) Hc) as (em & H4).
    destruct (get_in_mapping data "contact" "address"
                (get user_profile "location" (VStr "")) Hc) as (ad & H5).
    destruct (get_in_mapping data "contact" "website"
                (get user_profile "website" (VStr "")) Hc) as (we & H6).
    destruct (get_in_mapping data "contact" "linkedin"
                (get user_profile "linkedin" (VStr "")) Hc) as (li & H7).
    destruct (clean_section_iterable clean_skill data "skills" Hs)
      as (sk & H8).
    { intros entries x Hentries Hin. destruct x; simpl; eauto.
      destruct (Hl entries d Hentries Hin) as (n & Hn).
      rewrite Hn. simpl. eauto. }
    destruct (clean_section_iterable clean_project data "projects" Hp)
      as (pr & H9); [intros; apply clean_project_ok |].
    destruct (clean_section_iterable clean_experience data "experience" Hx)
      as (ex & H10); [intros; apply clean_experience_ok |].
    destruct (clean_section_iterable clean_education data "education" He)
      as (ed & H11); [intros; apply clean_education_ok |].
    eexists. apply validate_and_clean_intro; eassumption.
Qed.

(** X2.  [_validate_and_clean] raises [AttributeError] exactly when the
    header or the contact of the input is present and is not a
    dictionary; the errors of the sections are other exceptions. *)
Theorem validate_and_clean_attribute_error data user_profile :
  _validate_and_clean data user_profile = Raise AttributeError
  <-> ~ (mapping_or_absent data "header" /\ mapping_or_absent data "contact").
Proof.
  split.
  - intros H ((h & Hh) & (c & Hc)).
    unfold _validate_and_clean in H.
    rewrite !(get_in_dict _ "header" _ _ h Hh) in H.
    rewrite !(get_in_dict _ "contact" _ _ c Hc) in H.
    cbn [bind] in H.
    destruct (clean_section clean_skill data "skills") as [sk | e] eqn:Hs;
      cbn [bind] in H.
    2:{ injection H as ->. apply clean_section_raise in Hs.
        destruct Hs as [Hs | (es & x & _ & _ & Hs)]; [discriminate Hs |].
        apply clean_skill_raise in Hs.
        destruct Hs as [Hs | [Hs | Hs]]; discriminate Hs. }
    destruct (clean_section clean_project data "projects") as [pr | e] eqn:Hp;
      cbn [bind] in H.
    2:{ injection H as ->. apply clean_section_raise in Hp.
        destruct Hp as [Hp | (es & x & _ & _ & Hp)]; [discriminate Hp |].
        destruct (clean_project_ok x) as (r & Hr). congruence. }
    destruct (clean_section clean_experience data "experience")
      as [ex | e] eqn:Hx; cbn [bind] in H.
    2:{ injection H as ->. apply clean_section_raise in Hx.
        destruct Hx as [Hx | (es & x & _ & _ & Hx)]; [discriminate Hx |].
        destruct (clean_experience_ok x) as (r & Hr). congruence. }
    destruct (clean_section clean_education data "education")
      as [ed | e] eqn:He; cbn [bind] in H.
    2:{ injection H as ->. apply clean_section_raise in He.
        destruct He as [He | (es & x & _ & _ & He)]; [discriminate He |].
        destruct (clean_education_ok x) as (r & Hr). congruence. }
    discriminate H.
  - intros H. unfold _validate_and_clean, get_in.
    destruct (get data "header" (VDict [])) as [| | | | | | h] eqn:Hh;
      try reflexivity.
    destruct (get data "contact" (VDict [])) as [| | | | | | c] eqn:Hc;
      try reflexivity.
    exfalso. apply H. split; eexists; eassumption.
Qed.

(** ** What the profile is used for *)

(** X3.  In the result, a field of the header or of the contact is the
    value the input has for it, even an empty one; the profile is read
    only for a field the input does not have, [location] of the profile
    standing for the address, and never for the title. *)
Theorem profile_fills_absent_fields data user_profile out h c :
  _validate_and_clean data user_profile = Ok out ->
  get data "header" (VDict []) = VDict h ->
  get data "contact" (VDict []) = VDict c ->
  lookup "header" out
  = Some (VDict [("name", get h "name" (get user_profile "name" (VStr "")));
                 ("title", get h "title" (VStr ""))])
  /\ lookup "contact" out
     = Some (VDict
               [("phone", get c "phone" (get user_profile "phone" (VStr "")));
                ("email", get c "email" (get user_profile "email" (VStr "")));
                ("address",
                 get c "address" (get user_profile "location" (VStr "")));
                ("website",
                 get c "website" (get user_profile "website" (VStr "")));
                ("linkedin",
                 get c "linkedin" (get user_profile "linkedin" (VStr "")))]).
Proof.
  intros H Hh Hc. unfold _validate_and_clean in H.
  rewrite !(get_in_dict _ "header" _ _ h Hh) in H.
  rewrite !(get_in_dict _ "contact" _ _ c Hc) in H.
  cbn [bind] in H. do 4 bind_inv H. ok_inv H. split; reflexivity.
Qed.

Lemma profile_fills_absent_fields_witness :
  lookup "header"
    (document (VStr "") (VStr "") (VStr "") (VStr "j@x.com") (VStr "Paris")
       (VStr "") (VStr "") (VStr "") [] [] [] [])
  = Some (VDict [("name",
                  get [("name", VStr "")] "name"
                    (get [("name", VStr "Jane"); ("email", VStr "j@x.com");
                          ("location", VStr "Paris"); ("address", VStr "Rome")]
                       "name" (VStr "")));
                 ("title", get [("name", VStr "")] "title" (VStr ""))])
  /\ lookup "contact"
       (document (VStr "") (VStr "") (VStr "") (VStr "j@x.com")
          (VStr "Paris") (VStr "") (VStr "") (VStr "") [] [] [] [])
     = Some (VDict
               [("phone",
                 get [] "phone"
                   (get [("name", VStr "Jane"); ("email", VStr "j@x.com");
                         ("location", VStr "Paris"); ("address", VStr "Rome")]
                      "phone" (VStr "")));
                ("email",
                 get [] "email"
                   (get [("name", VStr "Jane"); ("email", VStr "j@x.com");
                         ("location", VStr "Paris"); ("address", VStr "Rome")]
                      "email" (VStr "")));
                ("address",
                 get [] "address"
                   (get [("name", VStr "Jane"); ("email", VStr "j@x.com");
                         ("location", VStr "Paris"); ("address", VStr "Rome")]
                      "location" (VStr "")));
                ("website",
                 get [] "website"
                   (get [("name", VStr "Jane"); ("email", VStr "j@x.com");
                         ("location", VStr "Paris"); ("address", VStr "Rome")]
                      "website" (VStr "")));
                ("linkedin",
                 get [] "linkedin"
                   (get [("name", VStr "Jane"); ("email", VStr "j@x.com");
                         ("location", VStr "Paris"); ("address", VStr "Rome")]
                      "linkedin" (VStr "")))]).
Proof.
  apply (profile_fills_absent_fields
           [("header", VDict [("name", VStr "")])]
           [("name", VStr "Jane"); ("email", VStr "j@x.com");
            ("location", VStr "Paris"); ("address", VStr "Rome")]).
  - reflexivity.
  - reflexivity.
  - reflexivity.
Defined.

(** X4.  The profile decides neither whether the call returns nor
    anything but the name and the contact: with another profile the
    call returns too, and the two documents have the same title,
    summary, skills, projects, experience and education. *)
Theorem profile_changes_name_and_contact_only data profile profile' out :
  _validate_and_clean data profile = Ok out ->
  exists name name' title phone phone' email email' address address'
         website website' linkedin linkedin' summary
         skills projects experience education,
    out = document name title phone email address website linkedin
            summary skills projects experience education
    /\ _validate_and_clean data profile'
       = Ok (document name' title phone' email' address' website' linkedin'
               summary skills projects experience education).
Proof.
  intros H. apply validate_and_clean_inv in H.
  destruct H as (name & title & ph & em & ad & we & li
                 & sk & pr & ex & ed & H).
  destruct H as (Hn & Ht & Hp & He & Ha & Hw & Hl & Hs & Hpr & Hex & Hed & ->).
  apply get_in_ok in Hn. destruct Hn as (h & Hh & _).
  apply get_in_ok in Hp. destruct Hp as (c & Hc & _).
  exists name, (get h "name" (get profile' "name" (VStr ""))), title,
    ph, (get c "phone" (get profile' "phone" (VStr ""))),
    em, (get c "email" (get profile' "email" (VStr ""))),
    ad, (get c "address" (get profile' "location" (VStr ""))),
    we, (get c "website" (get profile' "website" (VStr ""))),
    li, (get c "linkedin" (get profile' "linkedin" (VStr ""))),
    (get data "summary" (VStr "")), sk, pr, ex, ed.
  split; [reflexivity |].
  apply validate_and_clean_intro;
    first [ assumption | apply get_in_dict; assumption ].
Qed.

Lemma profile_changes_name_and_contact_only_witness :
  exists name name' title phone phone' email email' address address'
         website website' linkedin linkedin' summary
         skills projects experience education,
    document (VStr "Jane") (VStr "Engineer") (VStr "") (VStr "") (VStr "")
      (VStr "") (VStr "") (VStr "") [] [] [] []
    = document name title phone email address website linkedin
        summary skills projects experience education
    /\ _validate_and_clean [("header", VDict [("title", VStr "Engineer")])]
         [("name", VStr "John"); ("phone", VStr "555")]
       = Ok (document name' title phone' email' address' website' linkedin'
               summary skills projects experience education).
Proof.
  apply (profile_changes_name_and_contact_only
           [("header", VDict [("title", VStr "Engineer")])]
           [("name", VStr "Jane")]
           [("name", VStr "John"); ("phone", VStr "555")]).
  reflexivity.
Defined.

(** ** Aliases, order and shape of the entries *)

Lemma validate_and_clean_sections data user_profile out :
  _validate_and_clean data user_profile = Ok out ->
  exists sk pr ex ed,
    lookup "skills" out = Some (VList sk)
    /\ lookup "projects" out = Some (VList pr)
    /\ lookup "experience" out = Some (VList ex)
    /\ lookup "education" out = Some (VList ed)
    /\ clean_section clean_skill data "skills" = Ok sk
    /\ clean_section clean_project data "projects" = Ok pr
    /\ clean_section clean_experience data "experience" = Ok ex
    /\ clean_section clean_education data "education" = Ok ed.
Proof.
  intros H. apply validate_and_clean_inv in H.
  destruct H as (name & title & ph & em & ad & we & li
                 & sk & pr & ex & ed & H).
  destruct H as (_ & _ & _ & _ & _ & _ & _ & Hs & Hpr & Hex & Hed & ->).
  exists sk, pr, ex, ed. repeat split; assumption.
Qed.

(** X5.  A project of the input that is an object gives a project of
    the result whose title is read under [title], else under [name],
    else is empty; its tech stack under [tech_stack], else under
    [technologies]; its points under [points], else under
    [highlights].  The canonical key wins when both are there, and a
    project without title or content is kept. *)
Theorem project_aliases data user_profile out entries d :
  _validate_and_clean data user_profile = Ok out ->
  get data "projects" (VList []) = VList entries ->
  In (VDict d) entries ->
  exists projects,
    lookup "projects" out = Some (VList projects)
    /\ In (VDict
             [("title", get d "title" (get d "name" (VStr "")));
              ("tech_stack",
               get d "tech_stack" (get d "technologies" (VList [])));
              ("points", get d "points" (get d "highlights" (VList [])))])
         projects.
Proof.
  intros H He Hin.
  destruct (validate_and_clean_sections _ _ _ H)
    as (sk & pr & ex & ed & _ & Hl & _ & _ & _ & Hp & _ & _).
  exists pr. split; [exact Hl |].
  pose proof (clean_section_list _ _ _ _ _ He Hp) as Hf.
  destruct (for_each_in _ _ _ _ Hf Hin) as (rx & Hx & Hincl).
  simpl in Hx. ok_inv Hx. apply Hincl. left. reflexivity.
Qed.

Lemma project_aliases_witness :
  exists projects,
    lookup "projects"
      (document (VStr "") (VStr "") (VStr "") (VStr "") (VStr "") (VStr "")
         (VStr "") (VStr "") []
         [VDict [("title", VStr "Compiler"); ("tech_stack", VList []);
                 ("points", VList [VStr "fast"])]] [] [])
    = Some (VList projects)
    /\ In (VDict
             [("title",
               get [("name", VStr "Compiler");
                    ("highlights", VList [VStr "fast"])] "title"
                 (get [("name", VStr "Compiler");
                       ("highlights", VList [VStr "fast"])] "name"
                    (VStr "")));
              ("tech_stack",
               get [("name", VStr "Compiler");
                    ("highlights", VList [VStr "fast"])] "tech_stack"
                 (get [("name", VStr "Compiler");
                       ("highlights", VList [VStr "fast"])] "technologies"
                    (VList [])));
              ("points",
               get [("name", VStr "Compiler");
                    ("highlights", VList [VStr "fast"])] "points"
                 (get [("name", VStr "Compiler");
                       ("highlights", VList [VStr "fast"])] "highlights"
                    (VList [])))])
         projects.
Proof.
  apply (project_aliases
           [("projects",
             VList [VDict [("name", VStr "Compiler");
                           ("highlights", VList [VStr "fast"])]])]
           []
           _
           [VDict [("name", VStr "Compiler");
                   ("highlights", VList [VStr "fast"])]]).
  - reflexivity.
  - reflexivity.
  - left. reflexivity.
Defined.

(** X6.  An experience of the input that is an object gives an
    experience of the result whose role is read under [role], else
    under [title], and whose points under [points], else under
    [achievements]; company, location and duration have no alias and
    are empty when absent. *)
Theorem experience_aliases data user_profile out entries d :
  _validate_and_clean data user_profile = Ok out ->
  get data "experience" (VList []) = VList entries ->
  In (VDict d) entries ->
  exists experience,
    lookup "experience" out = Some (VList experience)
    /\ In (VDict
             [("role", get d "role" (get d "title" (VStr "")));
              ("company", get d "company" (VStr ""));
              ("location", get d "location" (VStr ""));
              ("duration", get d "duration" (VStr ""));
              ("points", get d "points" (get d "achievements" (VList [])))])
         experience.
Proof.
  intros H He Hin.
  destruct (validate_and_clean_sections _ _ _ H)
    as (sk & pr & ex & ed & _ & _ & Hl & _ & _ & _ & Hx & _).
  exists ex. split; [exact Hl |].
  pose proof (clean_section_list _ _ _ _ _ He Hx) as Hf.
  destruct (for_each_in _ _ _ _ Hf Hin) as (rx & Hrx & Hincl).
  simpl in Hrx. ok_inv Hrx. apply Hincl. left. reflexivity.
Qed.

Lemma experience_aliases_witness :
  exists experience,
    lookup "experience"
      (document (VStr "") (VStr "") (VStr "") (VStr "") (VStr "") (VStr "")
         (VStr "") (VStr "") [] []
         [VDict [("role", VStr "Engineer"); ("company", VStr "");
                 ("location", VStr ""); ("duration", VStr "");
                 ("points", VList [VStr "shipped"])]] [])
    = Some (VList experience)
    /\ In (VDict
             [("role",
               get [("title", VStr "Engineer");
                    ("achievements", VList [VStr "shipped"])] "role"
                 (get [("title", VStr "Engineer");
                       ("achievements", VList [VStr "shipped"])] "title"
                    (VStr "")));
              ("company",
               get [("title", VStr "Engineer");
                    ("achievements", VList [VStr "shipped"])] "company"
                 (VStr ""));
              ("location",
               get [("title", VStr "Engineer");
                    ("achievements", VList [VStr "shipped"])] "location"
                 (VStr ""));
              ("duration",
               get [("title", VStr "Engineer");
                    ("achievements", VList [VStr "shipped"])] "duration"
                 (VStr ""));
              ("points",
               get [("title", VStr "Engineer");
                    ("achievements", VList [VStr "shipped"])] "points"
                 (get [("title", VStr "Engineer");
                       ("achievements", VList [VStr "shipped"])]
                    "achievements" (VList [])))])
         experience.
Proof.
  apply (experience_aliases
           [("experience",
             VList [VDict [("title", VStr "Engineer");
                           ("achievements", VList [VStr "shipped"])]])]
           []
           _
           [VDict [("title", VStr "Engineer");
                   ("achievements", VList [VStr "shipped"])]]).
  - reflexivity.
  - reflexivity.
  - left. reflexivity.
Defined.

Lemma for_each_forall2 body (keeps : value -> bool) l r :
  (forall x rx, body x = Ok rx ->
                if keeps x then exists o, rx = [o] else rx = []) ->
  for_each body l = Ok r ->
  Forall2 (fun x o => body x = Ok [o]) (filter keeps l) r.
Proof.
  intros Hbody. revert r. induction l as [| y l IH]; intros r H.
  - simpl in H. ok_inv H. constructor.
  - apply for_each_cons_ok in H. destruct H as (ry & rr & Hy & Hr & ->).
    specialize (Hbody y ry Hy). simpl. destruct (keeps y).
    + destruct Hbody as (o & ->). simpl. constructor; [exact Hy | exact (IH _ Hr)].
    + subst ry. simpl. exact (IH _ Hr).
Qed.

Lemma clean_skill_keeps x rx :
  clean_skill x = Ok rx ->
  if is_dict_or_str x then exists o, rx = [o] else rx = [].
Proof.
  destruct x; simpl; intros H; try (ok_inv H; eauto; fail).
  bind_inv H. ok_inv H. eauto.
Qed.

Lemma clean_project_keeps x rx :
  clean_project x = Ok rx -> if is_dict x then exists o, rx = [o] else rx = [].
Proof. destruct x; simpl; intros H; ok_inv H; eauto. Qed.

Lemma clean_experience_keeps x rx :
  clean_experience x = Ok rx ->
  if is_dict x then exists o, rx = [o] else rx = [].
Proof. destruct x; simpl; intros H; ok_inv H; eauto. Qed.

Lemma clean_education_keeps x rx :
  clean_education x = Ok rx ->
  if is_dict x then exists o, rx = [o] else rx = [].
Proof. destruct x; simpl; intros H; ok_inv H; eauto. Qed.

(** X7.  Each of the four lists of the result has, in the order of the
    input, one entry for every element the loop keeps, and nothing
    else: the objects of the input, and for the skills also the
    strings.  Elements of other types are skipped without an error. *)
Theorem sections_keep_order_and_number data user_profile out :
  _validate_and_clean data user_profile = Ok out ->
  exists es sk ep pr ex_in ex ed_in ed,
    iterate (get data "skills" (VList [])) = Ok es
    /\ lookup "skills" out = Some (VList sk)
    /\ Forall2 (fun x o => clean_skill x = Ok [o])
         (filter is_dict_or_str es) sk
    /\ iterate (get data "projects" (VList [])) = Ok ep
    /\ lookup "projects" out = Some (VList pr)
    /\ Forall2 (fun x o => clean_project x = Ok [o]) (filter is_dict ep) pr
    /\ iterate (get data "experience" (VList [])) = Ok ex_in
    /\ lookup "experience" out = Some (VList ex)
    /\ Forall2 (fun x o => clean_experience x = Ok [o])
         (filter is_dict ex_in) ex
    /\ iterate (get data "education" (VList [])) = Ok ed_in
    /\ lookup "education" out = Some (VList ed)
    /\ Forall2 (fun x o => clean_education x = Ok [o])
         (filter is_dict ed_in) ed.
Proof.
  intros H.
  destruct (validate_and_clean_sections _ _ _ H)
    as (sk & pr & ex & ed & L1 & L2 & L3 & L4 & H1 & H2 & H3 & H4).
  apply clean_section_ok in H1. destruct H1 as (e1 & I1 & F1).
  apply clean_section_ok in H2. destruct H2 as (e2 & I2 & F2).
  apply clean_section_ok in H3. destruct H3 as (e3 & I3 & F3).
  apply clean_section_ok in H4. destruct H4 as (e4 & I4 & F4).
  exists e1, sk, e2, pr, e3, ex, e4, ed.
  repeat split; try assumption.
  - exact (for_each_forall2 _ _ _ _ clean_skill_keeps F1).
  - exact (for_each_forall2 _ _ _ _ clean_project_keeps F2).
  - exact (for_each_forall2 _ _ _ _ clean_experience_keeps F3).
  - exact (for_each_forall2 _ _ _ _ clean_education_keeps F4).
Qed.

Lemma sections_keep_order_and_number_witness :
  exists es sk ep pr ex_in ex ed_in ed,
    iterate (get [("skills", VList [VStr "Go"; VInt 3; VStr "C"])] "skills"
               (VList [])) = Ok es
    /\ lookup "skills"
         (document (VStr "") (VStr "") (VStr "") (VStr "") (VStr "")
            (VStr "") (VStr "") (VStr "")
            [VDict [("name", VStr "Go"); ("level", VInt 70)];
             VDict [("name", VStr "C"); ("level", VInt 70)]] [] [] [])
       = Some (VList sk)
    /\ Forall2 (fun x o => clean_skill x = Ok [o])
         (filter is_dict_or_str es) sk
    /\ iterate (get [("skills", VList [VStr "Go"; VInt 3; VStr "C"])]
                  "projects" (VList [])) = Ok ep
    /\ lookup "projects"
         (document (VStr "") (VStr "") (VStr "") (VStr "") (VStr "")
            (VStr "") (VStr "") (VStr "")
            [VDict [("name", VStr "Go"); ("level", VInt 70)];
             VDict [("name", VStr "C"); ("level", VInt 70)]] [] [] [])
       = Some (VList pr)
    /\ Forall2 (fun x o => clean_project x = Ok [o]) (filter is_dict ep) pr
    /\ iterate (get [("skills", VList [VStr "Go"; VInt 3; VStr "C"])]
                  "experience" (VList [])) = Ok ex_in
    /\ lookup "experience"
         (document (VStr "") (VStr "") (VStr "") (VStr "") (VStr "")
            (VStr "") (VStr "") (VStr "")
            [VDict [("name", VStr "Go"); ("level", VInt 70)];
             VDict [("name", VStr "C"); ("level", VInt 70)]] [] [] [])
       = Some (VList ex)
    /\ Forall2 (fun x o => clean_experience x = Ok [o])
         (filter is_dict ex_in) ex
    /\ iterate (get [("skills", VList [VStr "Go"; VInt 3; VStr "C"])]
                  "education" (VList [])) = Ok ed_in
    /\ lookup "education"
         (document (VStr "") (VStr "") (VStr "") (VStr "") (VStr "")
            (VStr "") (VStr "") (VStr "")
            [VDict [("name", VStr "Go"); ("level", VInt 70)];
             VDict [("name", VStr "C"); ("level", VInt 70)]] [] [] [])
       = Some (VList ed)
    /\ Forall2 (fun x o => clean_education x = Ok [o])
         (filter is_dict ed_in) ed.
Proof.
  apply (sections_keep_order_and_number
           [("skills", VList [VStr "Go"; VInt 3; VStr "C"])] []).
  reflexivity.
Defined.

(** X8.  [_validate_and_clean] reads seven keys of the input and no
    other: two inputs that agree on them give the same result, so
    whatever else the generator adds at the top level is dropped. *)
Theorem other_keys_are_ignored data data' user_profile :
  (forall key, In key schema_keys -> lookup key data = lookup key data') ->
  _validate_and_clean data user_profile
  = _validate_and_clean data' user_profile.
Proof.
  intros H.
  assert (G : forall key default,
             In key schema_keys -> get data key default = get data' key default).
  { intros key default Hk. unfold get. rewrite (H key Hk). reflexivity. }
  unfold _validate_and_clean, get_in, clean_section.
  rewrite !(G "header"), !(G "contact"), (G "summary"), (G "skills"),
    (G "projects"), (G "experience"), (G "education");
    try reflexivity; unfold schema_keys; simpl; tauto.
Qed.

Lemma other_keys_are_ignored_witness :
  _validate_and_clean
    [("summary", VStr "Engineer"); ("notes", VStr "draft");
     ("skills", VList [VStr "Go"])] []
  = _validate_and_clean
      [("skills", VList [VStr "Go"]); ("summary", VStr "Engineer")] [].
Proof.
  apply (other_keys_are_ignored
           [("summary", VStr "Engineer"); ("notes", VStr "draft");
            ("skills", VList [VStr "Go"])]
           [("skills", VList [VStr "Go"]); ("summary", VStr "Engineer")] []).
  intros key Hk. unfold schema_keys in Hk.
  repeat (destruct Hk as [<- | Hk]; [reflexivity |]). destruct Hk.
Defined.

(** X9.  A skills value that is a string is iterated like a list: every
    character of the string becomes a skill of level 70. *)
Theorem text_given_as_skills_is_split data user_profile out s :
  _validate_and_clean data user_profile = Ok out ->
  get data "skills" (VList []) = VStr s ->
  lookup "skills" out
  = Some (VList (map (fun c => VDict [("name", VStr (String c ""));
                                      ("level", VInt 70)])
                   (list_ascii_of_string s))).
Proof.
  intros H Hs.
  destruct (validate_and_clean_sections _ _ _ H)
    as (sk & pr & ex & ed & L1 & _ & _ & _ & H1 & _).
  rewrite L1. do 2 f_equal.
  unfold clean_section in H1. rewrite Hs in H1. simpl in H1.
  clear - H1. revert sk H1.
  induction (list_ascii_of_string s) as [| c l IH]; intros sk H; simpl in H.
  - ok_inv H. reflexivity.
  - bind_inv H. ok_inv H. simpl. f_equal. exact (IH _ E).
Qed.

Lemma text_given_as_skills_is_split_witness :
  lookup "skills"
    (document (VStr "") (VStr "") (VStr "") (VStr "") (VStr "") (VStr "")
       (VStr "") (VStr "")
       [VDict [("name", VStr "G"); ("level", VInt 70)];
        VDict [("name", VStr "o"); ("level", VInt 70)]] [] [] [])
  = Some (VList (map (fun c => VDict [("name", VStr (String c ""));
                                      ("level", VInt 70)])
                   (list_ascii_of_string "Go"))).
Proof.
  apply (text_given_as_skills_is_split [("skills", VStr "Go")] []).
  - reflexivity.
  - reflexivity.
Defined.

(** X10.  Every entry of a result has exactly the keys of the schema,
    in the order of the schema: a skill a name and a level that is an
    integer, a project a title, a tech stack and points, an experience
    its five fields, an education its four fields with a year that is a
    string.  Other keys of the input entries are dropped. *)
Theorem entries_have_the_keys_of_the_schema data user_profile out :
  _validate_and_clean data user_profile = Ok out ->
  exists sk pr ex ed,
    lookup "skills" out = Some (VList sk) /\ Forall canonical_skill sk
    /\ lookup "projects" out = Some (VList pr)
    /\ Forall canonical_project pr
    /\ lookup "experience" out = Some (VList ex)
    /\ Forall canonical_experience ex
    /\ lookup "education" out = Some (VList ed)
    /\ Forall canonical_education ed.
Proof.
  intros H.
  destruct (validate_and_clean_sections _ _ _ H)
    as (sk & pr & ex & ed & L1 & L2 & L3 & L4 & H1 & H2 & H3 & H4).
  apply clean_section_ok in H1. destruct H1 as (e1 & _ & F1).
  apply clean_section_ok in H2. destruct H2 as (e2 & _ & F2).
  apply clean_section_ok in H3. destruct H3 as (e3 & _ & F3).
  apply clean_section_ok in H4. destruct H4 as (e4 & _ & F4).
  exists sk, pr, ex, ed. repeat split; try assumption.
  - exact (for_each_forall _ _ _ _ clean_skill_canonical F1).
  - exact (for_each_forall _ _ _ _ clean_project_canonical F2).
  - exact (for_each_forall _ _ _ _ clean_experience_canonical F3).
  - exact (for_each_forall _ _ _ _ clean_education_canonical F4).
Qed.

Lemma entries_have_the_keys_of_the_schema_witness :
  exists sk pr ex ed,
    lookup "skills"
      (document (VStr "") (VStr "") (VStr "") (VStr "") (VStr "") (VStr "")
         (VStr "") (VStr "")
         [VDict [("name", VStr "Go"); ("level", VInt 85)]] [] []
         [VDict [("degree", VStr "BSc"); ("institution", VStr "");
                 ("year", VStr "2020"); ("details", VStr "")]])
    = Some (VList sk) /\ Forall canonical_skill sk
    /\ lookup "projects"
         (document (VStr "") (VStr "") (VStr "") (VStr "") (VStr "")
            (VStr "") (VStr "") (VStr "")
            [VDict [("name", VStr "Go"); ("level", VInt 85)]] [] []
            [VDict [("degree", VStr "BSc"); ("institution", VStr "");
                    ("year", VStr "2020"); ("details", VStr "")]])
       = Some (VList pr)
    /\ Forall canonical_project pr
    /\ lookup "experience"
         (document (VStr "") (VStr "") (VStr "") (VStr "") (VStr "")
            (VStr "") (VStr "") (VStr "")
            [VDict [("name", VStr "Go"); ("level", VInt 85)]] [] []
            [VDict [("degree", VStr "BSc"); ("institution", VStr "");
                    ("year", VStr "2020"); ("details", VStr "")]])
       = Some (VList ex)
    /\ Forall canonical_experience ex
    /\ lookup "education"
         (document (VStr "") (VStr "") (VStr "") (VStr "") (VStr "")
            (VStr "") (VStr "") (VStr "")
            [VDict [("name", VStr "Go"); ("level", VInt 85)]] [] []
            [VDict [("degree", VStr "BSc"); ("institution", VStr "");
                    ("year", VStr "2020"); ("details", VStr "")]])
       = Some (VList ed)
    /\ Forall canonical_education ed.
Proof.
  apply (entries_have_the_keys_of_the_schema
           [("skills",
             VList [VDict [("name", VStr "Go"); ("level", VFloat 85.5);
                           ("category", VStr "language")]]);
            ("education",
             VList [VDict [("degree", VStr "BSc"); ("year", VInt 2020);
                           ("gpa", VStr "3.9")]])]
           []).
  vm_compute. reflexivity.
Defined.

(* ================================================================== *)
(** * The operations that call the generator *)
(* ================================================================== *)

(** ** Normalised documents and validation *)

Lemma clean_document_has_required_fields data user_profile out field :
  _validate_and_clean data user_profile = Ok out ->
  In field required_structure -> contains_key out field = true.
Proof.
  intros H Hf. apply validate_and_clean_inv in H.
  destruct H as (name & title & ph & em & ad & we & li
                 & sk & pr & ex & ed & H).
  do 11 (destruct H as [_ H]). subst out.
  unfold required_structure in Hf.
  repeat (destruct Hf as [<- | Hf]; [reflexivity |]). destruct Hf.
Qed.

Lemma missing_fields_none data :
  (forall field, In field required_structure -> contains_key data field = true) ->
  missing_fields data = [].
Proof.
  intros H. unfold missing_fields.
  induction required_structure as [| f l IH]; simpl.
  - reflexivity.
  - rewrite (H f (or_introl eq_refl)). simpl.
    apply IH. intros g Hg. apply H. right. exact Hg.
Qed.

(** X11.  Every document [_validate_and_clean] returns passes
    [validate_resume_data]: it is reported valid, with no missing
    field. *)
Theorem normalised_documents_are_valid data user_profile out :
  _validate_and_clean data user_profile = Ok out ->
  validate_resume_data out
  = [("valid", VBool true); ("missing_fields", VList []);
     ("message", VStr "Valid resume data")].
Proof.
  intros H. unfold validate_resume_data.
  rewrite (missing_fields_none out).
  - reflexivity.
  - intros field Hf.
    exact (clean_document_has_required_fields _ _ _ _ H Hf).
Qed.

Lemma normalised_documents_are_valid_witness :
  validate_resume_data
    (document (VStr "") (VStr "") (VStr "") (VStr "") (VStr "") (VStr "")
       (VStr "") (VInt 5) [] [] [] [])
  = [("valid", VBool true); ("missing_fields", VList []);
     ("message", VStr "Valid resume data")].
Proof.
  apply (normalised_documents_are_valid [("summary", VInt 5)] []).
  reflexivity.
Defined.

(** ** [generate_structured_resume] *)

Section GeneratorFacts.

Variable call_json : string -> string -> float -> result value.

Lemma format_section_list body l :
  format_section body (VList l) = for_each body l.
Proof. unfold format_section, or_empty. destruct l; reflexivity. Qed.

(** A loop that formats the entries returns when all are objects and
    raises [AttributeError] at the first that is not. *)
Lemma for_each_format body l :
  (forall x, if is_dict x then exists r, body x = Ok r
             else body x = Raise AttributeError) ->
  if forallb is_dict l then exists r, for_each body l = Ok r
  else for_each body l = Raise AttributeError.
Proof.
  intros Hbody. induction l as [| x l IH]; simpl.
  - eauto.
  - specialize (Hbody x). destruct (is_dict x); simpl.
    + destruct Hbody as (rx & ->). simpl.
      destruct (forallb is_dict l).
      * destruct IH as (r & ->). simpl. eauto.
      * rewrite IH. reflexivity.
    + rewrite Hbody. reflexivity.
Qed.

Lemma format_skill_cases x :
  if is_dict x then exists r, format_skill x = Ok r
  else format_skill x = Raise AttributeError.
Proof. unfold format_skill. destruct x; simpl; eauto. Qed.

Lemma format_project_cases x :
  if is_dict x then exists r, format_project x = Ok r
  else format_project x = Raise AttributeError.
Proof. unfold format_project. destruct x; simpl; eauto. Qed.

Lemma format_experience_cases x :
  if is_dict x then exists r, format_experience x = Ok r
  else format_experience x = Raise AttributeError.
Proof. unfold format_experience. destruct x; simpl; eauto. Qed.

Lemma format_education_cases x :
  if is_dict x then exists r, format_education x = Ok r
  else format_education x = Raise AttributeError.
Proof. unfold format_education. destruct x; simpl; eauto. Qed.

Lemma forallb_app_false {A : Type} (f : A -> bool) l x :
  In x l -> f x = false -> forallb f l = false.
Proof.
  intros Hin Hx. destruct (forallb f l) eqn:E; [| reflexivity].
  rewrite forallb_forall in E. rewrite (E x Hin) in Hx. discriminate Hx.
Qed.

(** X12.  When one of the lists given to [generate_structured_resume]
    has an element that is not an object, the call raises
    [AttributeError] while it formats the lists, whatever the generator
    would answer. *)
Theorem malformed_entry_stops_generation user_profile
    skills projects experience education target_role job_description x :
  In x (skills ++ projects ++ experience ++ education)%list ->
  is_dict x = false ->
  generate_structured_resume call_json user_profile
    (VList skills) (VList experience) (VList education)
    target_role job_description (VList projects)
  = Raise AttributeError.
Proof.
  intros Hin Hx. unfold generate_structured_resume.
  rewrite !format_section_list.
  pose proof (for_each_format format_skill skills format_skill_cases) as H1.
  pose proof (for_each_format format_project projects format_project_cases)
    as H2.
  pose proof (for_each_format format_experience experience
                format_experience_cases) as H3.
  pose proof (for_each_format format_education education
                format_education_cases) as H4.
  destruct (forallb is_dict skills) eqn:E1;
    [destruct H1 as (r1 & ->) | rewrite H1; reflexivity].
  destruct (forallb is_dict projects) eqn:E2;
    [destruct H2 as (r2 & ->) | rewrite H2; reflexivity].
  destruct (forallb is_dict experience) eqn:E3;
    [destruct H3 as (r3 & ->) | rewrite H3; reflexivity].
  destruct (forallb is_dict education) eqn:E4;
    [destruct H4 as (r4 & ->) | rewrite H4; reflexivity].
  exfalso. rewrite !in_app_iff in Hin.
  destruct Hin as [Hin | [Hin | [Hin | Hin]]].
  - rewrite (forallb_app_false _ _ _ Hin Hx) in E1. discriminate E1.
  - rewrite (forallb_app_false _ _ _ Hin Hx) in E2. discriminate E2.
  - rewrite (forallb_app_false _ _ _ Hin Hx) in E3. discriminate E3.
  - rewrite (forallb_app_false _ _ _ Hin Hx) in E4. discriminate E4.
Qed.

(** X13.  A call of [generate_structured_resume] that returns gives
    either the error status with no resume data, or the success status
    with a document that has the seven fields, passes
    [validate_resume_data] and is left unchanged by
    [_validate_and_clean]. *)
Theorem generation_returns_error_or_clean_document user_profile
    skills experience education target_role job_description projects res :
  generate_structured_resume call_json user_profile skills experience
    education target_role job_description projects = Ok res ->
  res = [("agent", VStr "ResumeAgent"); ("status", VStr "error");
         ("message", VStr "Failed to generate resume content");
         ("resume_data", VNone)]
  \/ exists out,
       res = [("agent", VStr "ResumeAgent"); ("status", VStr "success");
              ("resume_data", VDict out); ("target_role", VStr target_role);
              ("generated_at", VNone)]
       /\ map fst out = schema_keys
       /\ lookup "valid" (validate_resume_data out) = Some (VBool true)
       /\ _validate_and_clean out user_profile = Ok out.
Proof.
  unfold generate_structured_resume. intros H.
  do 5 bind_inv H.
  destruct (truthy _) in H.
  - do 2 bind_inv H. ok_inv H. right. eexists. split; [reflexivity |].
    repeat split.
    + eapply validate_and_clean_keys; eassumption.
    + rewrite validate_resume_data_valid.
      do 2 f_equal. apply forallb_forall. intros f Hf.
      eapply clean_document_has_required_fields; eassumption.
    + eapply validate_and_clean_fixed; eassumption.
  - ok_inv H. left. reflexivity.
Qed.

(** ** [tailor_to_job_description] *)

(** X14.  When the generator answers [tailor_to_job_description] with a
    value that is true and is not a mapping, such as a list or a string
    that is not empty, the call raises [AttributeError]: the error status is
    for the empty answers only. *)
Theorem tailoring_an_answer_that_is_no_mapping existing_resume
    job_description target_role target_company answer :
  call_json
    (tailor_prompt existing_resume job_description target_role target_company)
    SYSTEM_PROMPT 0x1.3333333333333p-2%float = Ok answer ->
  truthy answer = true ->
  is_dict answer = false ->
  tailor_to_job_description call_json existing_resume job_description
    target_role target_company = Raise AttributeError.
Proof.
  intros Hc Ht Hd. unfold tailor_to_job_description.
  rewrite Hc. cbn [bind]. rewrite Ht.
  destruct answer; try discriminate Hd; reflexivity.
Qed.

(** X15.  A tailored resume has only what the generator answered: the
    existing resume is read for the prompt and the profile is empty, so
    when the answer has no header the name and the title are empty, and
    when it has no contact the five contact fields are empty. *)
Theorem tailoring_keeps_nothing_of_the_existing_resume existing_resume
    job_description target_role target_company answer res :
  call_json
    (tailor_prompt existing_resume job_description target_role target_company)
    SYSTEM_PROMPT 0x1.3333333333333p-2%float = Ok (VDict answer) ->
  tailor_to_job_description call_json existing_resume job_description
    target_role target_company = Ok res ->
  lookup "status" res = Some (VStr "success") ->
  exists out,
    lookup "resume_data" res = Some (VDict out)
    /\ _validate_and_clean answer [] = Ok out
    /\ (lookup "header" answer = None ->
        lookup "header" out
        = Some (VDict [("name", VStr ""); ("title", VStr "")]))
    /\ (lookup "contact" answer = None ->
        lookup "contact" out
        = Some (VDict [("phone", VStr ""); ("email", VStr "");
                       ("address", VStr ""); ("website", VStr "");
                       ("linkedin", VStr "")])).
Proof.
  intros Hc H Hs. unfold tailor_to_job_description in H.
  rewrite Hc in H. cbn [bind] in H.
  destruct (truthy (VDict answer)); [| ok_inv H; discriminate Hs].
  cbn [get_method bind] in H. bind_inv H. ok_inv H.
  exists a. split; [reflexivity |]. split; [exact E |].
  apply validate_and_clean_inv in E.
  destruct E as (name & title & ph & em & ad & we & li
                 & sk & pr & ex & ed & E).
  destruct E as (Hn & Hti & Hp & He & Ha & Hw & Hl & _ & _ & _ & _ & ->).
  split; intros Habs.
  - unfold get_in, get in Hn, Hti. rewrite Habs in Hn, Hti.
    simpl in Hn, Hti. ok_inv Hn. ok_inv Hti. reflexivity.
  - unfold get_in, get in Hp, He, Ha, Hw, Hl.
    rewrite Habs in Hp, He, Ha, Hw, Hl.
    simpl in Hp, He, Ha, Hw, Hl.
    ok_inv Hp. ok_inv He. ok_inv Ha. ok_inv Hw. ok_inv Hl. reflexivity.
Qed.

(** ** [suggest_resume_improvements] *)

(** X16.  [suggest_resume_improvements] reads the first five entries of
    the feedback history and no other: the call with a history is the
    call with its first five entries, so a later entry changes nothing,
    not even when it is malformed. *)
Theorem feedback_after_the_fifth_is_ignored resume_data target_role history :
  suggest_resume_improvements call_json resume_data target_role (Some history)
  = suggest_resume_improvements call_json resume_data target_role
      (Some (firstn 5 history)).
Proof.
  unfold suggest_resume_improvements.
  destruct history as [| a [| b [| c [| d [| e rest]]]]]; reflexivity.
Qed.

End GeneratorFacts.

Lemma malformed_entry_stops_generation_witness :
  generate_structured_resume
    (constant_generator (VDict [("summary", VStr "Engineer")])) []
    (VList [VDict [("name", VStr "Go")]]) (VList [VStr "Acme, 2020"])
    (VList []) "Engineer" None (VList [])
  = Raise AttributeError.
Proof.
  apply (malformed_entry_stops_generation
           (constant_generator (VDict [("summary", VStr "Engineer")])) []
           [VDict [("name", VStr "Go")]] [] [VStr "Acme, 2020"] []
           "Engineer" None (VStr "Acme, 2020")).
  - right. left. reflexivity.
  - reflexivity.
Defined.

Lemma generation_returns_error_or_clean_document_witness :
  [("agent", VStr "ResumeAgent"); ("status", VStr "success");
   ("resume_data",
    VDict (document (VStr "Jane") (VStr "") (VStr "") (VStr "") (VStr "")
             (VStr "") (VStr "") (VStr "Engineer") [] [] [] []));
   ("target_role", VStr "Engineer"); ("generated_at", VNone)]
  = [("agent", VStr "ResumeAgent"); ("status", VStr "error");
     ("message", VStr "Failed to generate resume content");
     ("resume_data", VNone)]
  \/ exists out,
       [("agent", VStr "ResumeAgent"); ("status", VStr "success");
        ("resume_data",
         VDict (document (VStr "Jane") (VStr "") (VStr "") (VStr "")
                  (VStr "") (VStr "") (VStr "") (VStr "Engineer")
                  [] [] [] []));
        ("target_role", VStr "Engineer"); ("generated_at", VNone)]
       = [("agent", VStr "ResumeAgent"); ("status", VStr "success");
          ("resume_data", VDict out); ("target_role", VStr "Engineer");
          ("generated_at", VNone)]
       /\ map fst out = schema_keys
       /\ lookup "valid" (validate_resume_data out) = Some (VBool true)
       /\ _validate_and_clean out [("name", VStr "Jane")] = Ok out.
Proof.
  apply (generation_returns_error_or_clean_document
           (constant_generator (VDict [("summary", VStr "Engineer")]))
           [("name", VStr "Jane")] VNone VNone VNone "Engineer" None VNone).
  vm_compute. reflexivity.
Defined.

Lemma tailoring_an_answer_that_is_no_mapping_witness :
  tailor_to_job_description
    (constant_generator (VList [VDict [("summary", VStr "Engineer")]]))
    [] "Build compilers" "Engineer" ""
  = Raise AttributeError.
Proof.
  apply (tailoring_an_answer_that_is_no_mapping
           (constant_generator (VList [VDict [("summary", VStr "Engineer")]]))
           [] "Build compilers" "Engineer" ""
           (VList [VDict [("summary", VStr "Engineer")]])).
  - reflexivity.
  - reflexivity.
  - reflexivity.
Defined.

Lemma tailoring_keeps_nothing_of_the_existing_resume_witness :
  exists out,
    lookup "resume_data"
      [("agent", VStr "ResumeAgent"); ("status", VStr "success");
       ("resume_data",
        VDict (document (VStr "") (VStr "") (VStr "") (VStr "") (VStr "")
                 (VStr "") (VStr "") (VStr "Engineer") [] [] [] []));
       ("target_role", VStr "Engineer"); ("target_company", VStr "");
       ("tailored", VBool true)]
    = Some (VDict out)
    /\ _validate_and_clean [("summary", VStr "Engineer")] [] = Ok out
    /\ (lookup "header" [("summary", VStr "Engineer")] = None ->
        lookup "header" out
        = Some (VDict [("name", VStr ""); ("title", VStr "")]))
    /\ (lookup "contact" [("summary", VStr "Engineer")] = None ->
        lookup "contact" out
        = Some (VDict [("phone", VStr ""); ("email", VStr "");
                       ("address", VStr ""); ("website", VStr "");
                       ("linkedin", VStr "")])).
Proof.
  apply (tailoring_keeps_nothing_of_the_existing_resume
           (constant_generator (VDict [("summary", VStr "Engineer")]))
           [("header", VDict [("name", VStr "Jane Doe")]);
            ("contact", VDict [("email", VStr "jane@x.com")])]
           "Build compilers" "Engineer" "").
  - reflexivity.
  - vm_compute. reflexivity.
  - reflexivity.
Defined.

(** X17.  What [generate_structured_resume] formats for the prompt,
    [_validate_and_clean] reads back: a formatted experience or
    education entry is left unchanged by the cleaning loops, and a
    formatted project is cleaned to the project whose tech stack and
    points are the technologies and highlights of the formatted one. *)
Theorem formatted_entries_are_read_back d :
  (exists e, format_experience (VDict d) = Ok [e]
             /\ clean_experience e = Ok [e])
  /\ (exists e, format_education (VDict d) = Ok [e]
                /\ clean_education e = Ok [e])
  /\ (exists f, format_project (VDict d) = Ok [f]
                /\ clean_project f
                   = Ok [VDict
                           [("title", get d "title" (get d "name" (VStr "")));
                            ("tech_stack",
                             get d "technologies"
                               (get d "tech_stack" (VList [])));
                            ("points",
                             get d "highlights"
                               (get d "points" (VList [])))]]).
Proof.
  repeat split; eexists; split; reflexivity.
Qed.

(* ================================================================== *)
(** * More about PDF generation and validation *)
(* ================================================================== *)

(** ** Ends of strings *)

Lemma prefix_starts_with p s : String.prefix p s = starts_with p s.
Proof.
  revert s. induction p as [| a p IH]; intros s.
  - destruct s; reflexivity.
  - destruct s as [| b s]; [reflexivity |]. simpl.
    destruct (ascii_dec a b) as [-> | Hab].
    + rewrite Ascii.eqb_refl. apply IH.
    + apply Ascii.eqb_neq in Hab. rewrite Hab. reflexivity.
Qed.

Lemma list_ascii_of_string_app a b :
  list_ascii_of_string (a ++ b)
  = (list_ascii_of_string a ++ list_ascii_of_string b)%list.
Proof. induction a as [| c a IH]; simpl; [| rewrite IH]; reflexivity. Qed.

Lemma string_of_list_ascii_app l m :
  string_of_list_ascii (l ++ m)
  = string_of_list_ascii l ++ string_of_list_ascii m.
Proof. induction l as [| c l IH]; simpl; [| rewrite IH]; reflexivity. Qed.

Lemma reverse_app a b : reverse (a ++ b) = reverse b ++ reverse a.
Proof.
  unfold reverse.
  rewrite list_ascii_of_string_app, rev_app_distr, string_of_list_ascii_app.
  reflexivity.
Qed.

Lemma ends_with_app_l suffix t s :
  ends_with suffix s = true -> ends_with suffix (t ++ s) = true.
Proof.
  unfold ends_with. rewrite !prefix_starts_with, reverse_app.
  apply starts_with_app_mono.
Qed.

Lemma ends_with_self suffix s : ends_with suffix (s ++ suffix) = true.
Proof.
  unfold ends_with. rewrite prefix_starts_with, reverse_app.
  apply starts_with_app.
Qed.

Lemma path_join_ends_with suffix a b :
  ends_with suffix b = true -> ends_with suffix (path_join a b) = true.
Proof.
  intros H. unfold path_join.
  destruct (String.prefix "/" b); [exact H |].
  destruct (String.eqb a "" || ends_with "/" a).
  - apply ends_with_app_l, H.
  - apply ends_with_app_l, ends_with_app_l, H.
Qed.

Lemma pdf_filename_ends_with timestamp doc filename :
  ends_with ".pdf" (pdf_filename timestamp doc filename) = true.
Proof.
  unfold pdf_filename. cbv zeta.
  match goal with
  | |- context [if ends_with ".pdf" ?c then _ else _] =>
      destruct (ends_with ".pdf" c) eqn:E
  end.
  - exact E.
  - apply ends_with_self.
Qed.

Section MoreRasterizerFacts.

Variable open_error : string -> option string.

Variable CreatePDF : string -> rasterization.


(** X19.  After a successful [generate_pdf] the answer names a file
    path that ends with [.pdf], and the file at that path holds what
    the rasterizer wrote. *)
Theorem successful_pdf_is_at_file_path output_dir timestamp doc filename fs :
  lookup "status"
    (snd (generate_pdf open_error CreatePDF output_dir timestamp doc
            filename fs))
  = Some (VStr "success") ->
  exists path,
    lookup "file_path"
      (snd (generate_pdf open_error CreatePDF output_dir timestamp doc
              filename fs))
    = Some (VStr path)
    /\ ends_with ".pdf" path = true
    /\ read_file path
         (fst (generate_pdf open_error CreatePDF output_dir timestamp doc
                 filename fs))
       = Some (written (CreatePDF (render doc))).
Proof.
  rewrite generate_pdf_cases.
  destruct (open_error (pdf_path output_dir timestamp doc filename))
    as [m |]; [intros H; discriminate H |].
  destruct (completion_of (CreatePDF (render doc)))
    as [[| err] | message]; intros H; try discriminate H.
  eexists. split; [reflexivity |]. split.
  - apply path_join_ends_with, pdf_filename_ends_with.
  - cbn [fst read_file]. rewrite String.eqb_refl. reflexivity.
Qed.






End MoreRasterizerFacts.

Lemma successful_pdf_is_at_file_path_witness :
  exists path,
    lookup "file_path"
      (snd (generate_pdf resumes_only working_rasterizer "resumes"
              "20260101_093000" jane_doe (Some "cv") []))
    = Some (VStr path)
    /\ ends_with ".pdf" path = true
    /\ read_file path
         (fst (generate_pdf resumes_only working_rasterizer "resumes"
                 "20260101_093000" jane_doe (Some "cv") []))
       = Some (written (working_rasterizer (render jane_doe))).
Proof.
  apply (successful_pdf_is_at_file_path resumes_only working_rasterizer
           "resumes" "20260101_093000" jane_doe (Some "cv") []).
  reflexivity.
Defined.




(** ** Validation *)

(** X23.  [validate_resume_data] lists as missing exactly the fields of
    [required_structure] that the document does not have, and reports
    the document valid exactly when it lists none. *)
Theorem validation_lists_the_absent_fields data :
  exists missing,
    lookup "missing_fields" (validate_resume_data data)
    = Some (VList (map VStr missing))
    /\ (forall field,
           In field missing
           <-> In field required_structure /\ contains_key data field = false)
    /\ (lookup "valid" (validate_resume_data data) = Some (VBool true)
        <-> missing = []).
Proof.
  exists (missing_fields data). split; [reflexivity |]. split.
  - intros field. apply missing_fields_spec.
  - unfold validate_resume_data. cbn [lookup String.eqb Ascii.eqb Bool.eqb].
    destruct (missing_fields data) as [| f l]; simpl; split; intros H;
      try reflexivity; discriminate H.
Qed.

(** X24.  [validate_resume_data] looks at the presence of the six
    fields and at nothing else: two documents that have the same of the
    six get the same report, whatever the values of the fields and
    whatever other fields they have. *)
Theorem validation_reads_presence_only data data' :
  (forall field, In field required_structure ->
                 contains_key data field = contains_key data' field) ->
  validate_resume_data data = validate_resume_data data'.
Proof.
  intros H.
  assert (E : missing_fields data = missing_fields data').
  { unfold missing_fields. apply filter_ext_in.
    intros f Hf. rewrite (H f Hf). reflexivity. }
  unfold validate_resume_data. rewrite E. reflexivity.
Qed.

Lemma validation_reads_presence_only_witness :
  validate_resume_data
    [("header", VInt 5); ("contact", VNone); ("summary", VList []);
     ("skills", VStr "Go"); ("experience", VNone); ("education", VNone);
     ("notes", VStr "draft")]
  = validate_resume_data
      [("header", VDict [("name", VStr "Jane Doe"); ("title", VStr "")]);
       ("contact", VDict []); ("summary", VStr ""); ("skills", VList []);
       ("experience", VList []); ("education", VList [])].
Proof.
  apply (validation_reads_presence_only
           [("header", VInt 5); ("contact", VNone); ("summary", VList []);
            ("skills", VStr "Go"); ("experience", VNone);
            ("education", VNone); ("notes", VStr "draft")]
           [("header", VDict [("name", VStr "Jane Doe"); ("title", VStr "")]);
            ("contact", VDict []); ("summary", VStr ""); ("skills", VList []);
            ("experience", VList []); ("education", VList [])]).
  intros field Hf. unfold required_structure in Hf.
  repeat (destruct Hf as [<- | Hf]; [reflexivity |]). destruct Hf.
Defined.

(* ================================================================== *)
(** * More about the renderer *)
(* ================================================================== *)

(** ** Rows, items and bullets *)

Lemma count_contact_rows doc :
  count_markup (item_block "contact") (render_stream doc)
  = contact_fields (contact doc).
Proof. unfold contact_fields. count_solve. Qed.

Lemma closed_contact_rows doc :
  forallb (closed_markup (item_block "contact")) (render_stream doc) = true.
Proof. closed_check. Qed.

Lemma closed_skill_items doc :
  forallb (closed_markup (item_block "skill")) (render_stream doc) = true.
Proof. closed_check. Qed.

Lemma closed_education_items doc :
  forallb (closed_markup (item_block "education")) (render_stream doc)
  = true.
Proof. closed_check. Qed.

Lemma closed_experience_items doc :
  forallb (closed_markup (item_block "experience")) (render_stream doc)
  = true.
Proof. closed_check. Qed.

Lemma closed_bullets doc :
  forallb (closed_markup bullet) (render_stream doc) = true.
Proof. closed_check. Qed.

(** X25.  In the page rendered for a document whose texts have no [<],
    the Contact section has one row for each contact field that is not
    empty, and no row for an empty one. *)
Theorem contact_has_a_row_per_filled_field (doc : Resume) :
  plain_doc doc = true ->
  occurrences (item_block "contact") (render doc)
  = contact_fields (contact doc).
Proof.
  intros H. apply plain_stream in H. unfold render.
  rewrite occurrences_flatten;
    [apply count_contact_rows | reflexivity | exact H
     | apply closed_contact_rows].
Qed.

Lemma contact_has_a_row_per_filled_field_witness :
  occurrences (item_block "contact") (render john_roe)
  = contact_fields (contact john_roe).
Proof.
  apply (contact_has_a_row_per_filled_field john_roe). reflexivity.
Defined.

Lemma count_skill_items doc :
  count_markup (item_block "skill") (render_stream doc)
  = List.length (skills doc).
Proof.
  destruct doc as [h c s sk pr ex ed]. unfold render_stream.
  cbn [header contact summary skills projects experience education].
  destruct sk as [| x sk]; count_solve.
Qed.

Lemma count_education_items doc :
  count_markup (item_block "education") (render_stream doc)
  = List.length (education doc).
Proof.
  destruct doc as [h c s sk pr ex ed]. unfold render_stream.
  cbn [header contact summary skills projects experience education].
  destruct ed as [| x ed]; count_solve.
Qed.

Lemma count_experience_items doc :
  count_markup (item_block "experience") (render_stream doc)
  = List.length (experience doc).
Proof.
  destruct doc as [h c s sk pr ex ed]. unfold render_stream.
  cbn [header contact summary skills projects experience education].
  destruct ex as [| x ex]; count_solve.
Qed.

(** X26.  The page rendered for a document whose texts have no [<] has
    one item for each skill, one for each education and one for each
    experience of the document. *)
Theorem sections_have_an_item_per_entry (doc : Resume) :
  plain_doc doc = true ->
  occurrences (item_block "skill") (render doc) = List.length (skills doc)
  /\ occurrences (item_block "education") (render doc)
     = List.length (education doc)
  /\ occurrences (item_block "experience") (render doc)
     = List.length (experience doc).
Proof.
  intros H. apply plain_stream in H. unfold render.
  split; [| split].
  - rewrite occurrences_flatten;
      [apply count_skill_items | reflexivity | exact H
       | apply closed_skill_items].
  - rewrite occurrences_flatten;
      [apply count_education_items | reflexivity | exact H
       | apply closed_education_items].
  - rewrite occurrences_flatten;
      [apply count_experience_items | reflexivity | exact H
       | apply closed_experience_items].
Qed.

Lemma sections_have_an_item_per_entry_witness :
  occurrences (item_block "skill") (render john_roe)
  = List.length (skills john_roe)
  /\ occurrences (item_block "education") (render john_roe)
     = List.length (education john_roe)
  /\ occurrences (item_block "experience") (render john_roe)
     = List.length (experience john_roe).
Proof.
  apply (sections_have_an_item_per_entry john_roe). reflexivity.
Defined.

Lemma count_markup_for_in_sum {A : Type} m (l : list A) body :
  count_markup m (for_in l body)
  = list_sum (map (fun x => count_markup m (body x)) l).
Proof.
  unfold for_in. induction l as [| x l IH]; simpl.
  - reflexivity.
  - rewrite count_markup_app, IH. reflexivity.
Qed.

Lemma count_bullets_of_experience e :
  count_markup bullet (experience_item e) = List.length (points e).
Proof.
  destruct e as [r c l d pts]. unfold experience_item.
  cbn [role company location duration points].
  destruct pts as [| p pts]; count_solve.
Qed.

Lemma count_bullets_of_project p :
  count_markup bullet (project_item p) = List.length (project_points p).
Proof.
  destruct p as [t ts pts]. unfold project_item.
  cbn [project_title tech_stack project_points].
  destruct pts as [| p pts]; count_solve.
Qed.

Lemma count_bullets_of_experiences l :
  count_markup bullet (experience_section l)
  = list_sum (map (fun e => List.length (points e)) l).
Proof.
  unfold experience_section. destruct l as [| e l]; [reflexivity |].
  cbn [populated when]. rewrite !count_markup_app, count_markup_for_in_sum.
  rewrite (map_ext _ _ count_bullets_of_experience).
  replace (count_markup bullet [Markup experience_open]) with 0
    by (vm_compute; reflexivity).
  replace (count_markup bullet [Markup section_close]) with 0
    by (vm_compute; reflexivity).
  lia.
Qed.

Lemma count_bullets_of_projects l :
  count_markup bullet (projects_section l)
  = list_sum (map (fun p => List.length (project_points p)) l).
Proof.
  unfold projects_section. destruct l as [| p l]; [reflexivity |].
  cbn [populated when]. rewrite !count_markup_app, count_markup_for_in_sum.
  rewrite (map_ext _ _ count_bullets_of_project).
  replace (count_markup bullet [Markup projects_open]) with 0
    by (vm_compute; reflexivity).
  replace (count_markup bullet [Markup section_close]) with 0
    by (vm_compute; reflexivity).
  lia.
Qed.

Ltac no_bullet t :=
  replace (count_markup bullet t) with 0 by (symmetry; count_solve).

Lemma count_bullets doc :
  count_markup bullet (render_stream doc) = bullet_points doc.
Proof.
  unfold render_stream, bullet_points. rewrite !count_markup_app.
  rewrite count_bullets_of_experiences, count_bullets_of_projects.
  no_bullet (banner (header doc)).
  no_bullet (contact_rows (contact doc)).
  no_bullet [Markup contact_close].
  no_bullet (summary_section (summary doc)).
  no_bullet [Markup education_lead].
  no_bullet (education_section (education doc)).
  no_bullet [Markup skills_lead].
  no_bullet (skills_section (skills doc)).
  no_bullet [Markup right_column_open].
  no_bullet [Markup projects_lead].
  no_bullet [Markup document_close].
  lia.
Qed.

(** X27.  In the page rendered for a document whose texts have no [<],
    the bullets are the points of the experiences and of the projects,
    one bullet for each point; no other part of the template has a
    bullet. *)
Theorem page_has_a_bullet_per_point (doc : Resume) :
  plain_doc doc = true ->
  occurrences bullet (render doc) = bullet_points doc.
Proof.
  intros H. apply plain_stream in H. unfold render.
  rewrite occurrences_flatten;
    [apply count_bullets | reflexivity | exact H | apply closed_bullets].
Qed.

Lemma page_has_a_bullet_per_point_witness :
  occurrences bullet (render john_roe) = bullet_points john_roe.
Proof.
  apply (page_has_a_bullet_per_point john_roe). reflexivity.
Defined.

(** ** Texts are copied as they are *)

Lemma occurs_between a x t y b :
  (exists a0, a = a0 ++ x) -> (exists b0, b = y ++ b0) ->
  occurs (x ++ t ++ y) (a ++ t ++ b).
Proof.
  intros (a0 & ->) (b0 & ->). exists a0, b0.
  rewrite !append_assoc. reflexivity.
Qed.

Lemma ends_with_split x a :
  ends_with x a = true -> exists a0, a = a0 ++ x.
Proof.
  unfold ends_with. rewrite prefix_starts_with. intros H.
  apply starts_with_split in H. destruct H as (r & H).
  exists (reverse r).
  assert (R : forall s, reverse (reverse s) = s).
  { intros s. unfold reverse.
    rewrite list_ascii_of_string_of_list_ascii, rev_involutive.
    apply string_of_list_ascii_of_string. }
  rewrite <- (R a), H, reverse_app, R. reflexivity.
Qed.

(** X28.  A summary that is not empty is copied to the page as it is,
    between the tags of its paragraph: the template escapes nothing. *)
Theorem summary_is_copied_verbatim (doc : Resume) :
  filled (summary doc) = true ->
  contains (markup ["<p class='summary-text'>"] ++ summary doc ++ "</p>")
    (render doc) = true.
Proof.
  intros H. apply contains_occurs. unfold render, render_stream.
  rewrite !flatten_app. do 3 apply occurs_app_r. apply occurs_app_l.
  unfold summary_section. rewrite H. cbn [when flatten piece_text].
  rewrite append_nil_r. apply occurs_between.
  - exists (String.substring 0
              (String.length summary_open
               - String.length (markup ["<p class='summary-text'>"]))
              summary_open).
    vm_compute. reflexivity.
  - apply starts_with_split. vm_compute. reflexivity.
Qed.

Lemma summary_is_copied_verbatim_witness :
  contains
    (markup ["<p class='summary-text'>"]
     ++ summary
          {| header := header jane_doe; contact := contact jane_doe;
             summary := "I write <b>proofs</b> & programs";
             skills := []; projects := []; experience := [];
             education := [] |}
     ++ "</p>")
    (render
       {| header := header jane_doe; contact := contact jane_doe;
          summary := "I write <b>proofs</b> & programs";
          skills := []; projects := []; experience := [];
          education := [] |})
  = true.
Proof.
  apply (summary_is_copied_verbatim
           {| header := header jane_doe; contact := contact jane_doe;
              summary := "I write <b>proofs</b> & programs";
              skills := []; projects := []; experience := [];
              education := [] |}).
  reflexivity.
Defined.

Lemma experience_item_has_company_line e :
  occurs (company_line e) (flatten (experience_item e)).
Proof.
  unfold experience_item, company_line. rewrite !flatten_app.
  cbn [flatten piece_text].
  assert (E1 : exists x,
             experience_role_close
             = x ++ markup ["<div class='experience-company'>"]).
  { apply ends_with_split. vm_compute. reflexivity. }
  assert (E2 : exists y, field_close = "</div>" ++ y).
  { apply starts_with_split. vm_compute. reflexivity. }
  destruct E1 as (x & E1). destruct E2 as (y & E2). rewrite E1, E2.
  destruct (filled (location e)); cbn [when flatten piece_text].
  - exists (experience_item_open ++ duration e ++ experience_duration_close
            ++ role e ++ x).
    eexists. rewrite !append_assoc. cbn [append]. rewrite ?append_assoc.
    reflexivity.
  - exists (experience_item_open ++ duration e ++ experience_duration_close
            ++ role e ++ x).
    eexists. rewrite !append_assoc. cbn [append]. rewrite ?append_assoc.
    reflexivity.
Qed.

(** X29.  For every experience of the document the page has its company
    line: the company, followed by a comma and the location when the
    location is not empty, and by nothing when it is empty. *)
Theorem company_is_followed_by_location (doc : Resume) (e : Experience) :
  In e (experience doc) ->
  contains (company_line e) (render doc) = true.
Proof.
  intros Hin. apply contains_occurs. unfold render, render_stream.
  rewrite !flatten_app. do 9 apply occurs_app_r. apply occurs_app_l.
  unfold experience_section.
  assert (Hp : populated (experience doc) = true)
    by (destruct (experience doc); [destruct Hin | reflexivity]).
  rewrite Hp. unfold when, for_in.
  destruct (flat_map_in_split experience_item _ _ Hin) as (b & a & ->).
  rewrite !flatten_app.
  apply occurs_app_r, occurs_app_l, occurs_app_r, occurs_app_l.
  apply experience_item_has_company_line.
Qed.

Lemma company_is_followed_by_location_witness :
  contains
    (company_line {| role := "Engineer"; company := "Acme"; location := "";
                     duration := "2020"; points := [] |})
    (render
       {| header := header jane_doe; contact := contact jane_doe;
          summary := ""; skills := []; projects := [];
          experience := [{| role := "Engineer"; company := "Acme";
                            location := ""; duration := "2020";
                            points := [] |}];
          education := [] |})
  = true.
Proof.
  apply (company_is_followed_by_location
           {| header := header jane_doe; contact := contact jane_doe;
              summary := ""; skills := []; projects := [];
              experience := [{| role := "Engineer"; company := "Acme";
                                location := ""; duration := "2020";
                                points := [] |}];
              education := [] |}
           {| role := "Engineer"; company := "Acme"; location := "";
              duration := "2020"; points := [] |}).
  left. reflexivity.
Defined.

(* ================================================================== *)
(** * From the normaliser to the renderer *)
(* ================================================================== *)

(** ** The end-to-end scenario

    The raw mapping has a name and one bare skill, the profile an email.
    The normalised document reads as [jane_doe]; its page has the
    Contact section with the email row only, the Relevant Skills section
    with one bar at 70 percent, and no Summary, Education, Professional
    Experience or Projects section. *)
Example end_to_end :
  let raw :=
    [("header", VDict [("name", VStr "Jane Doe")]);
     ("skills", VList [VStr "Python"]);
     ("projects", VList []);
     ("experience", VList []);
     ("education", VList [])] in
  let fallback := [("email", VStr "jane@x.com")] in
  (out <- _validate_and_clean raw fallback ;;
   Ok (read_resume out, validate_resume_data out))
  = Ok (Some jane_doe,
        [("valid", VBool true); ("missing_fields", VList []);
         ("message", VStr "Valid resume data")])
  /\ contains (section_title "Contact") (render jane_doe) = true
  /\ occurrences (markup ["<div class='contact-item'>"]) (render jane_doe) = 1
  /\ contains (markup ["<span class='contact-value'>jane@x.com</span>"])
       (render jane_doe) = true
  /\ contains (section_title "Relevant Skills") (render jane_doe) = true
  /\ occurrences (markup ["<div class='skill-item'>"]) (render jane_doe) = 1
  /\ contains (skill_fill "70") (render jane_doe) = true
  /\ contains (section_title "Summary") (render jane_doe) = false
  /\ contains (section_title "Education") (render jane_doe) = false
  /\ contains (section_title "Professional Experience") (render jane_doe)
     = false
  /\ contains (section_title "Projects") (render jane_doe) = false.
Proof. vm_compute. repeat split. Qed.
